(** * pybench: the [BenchReport] timing engine of [bench.py]

    A shallow embedding of the iteration driver ([__call__], [__iter__],
    [__next__]), the scoped part timer ([part]), the sample iterators and the
    statistics aggregator ([_get_stats]), followed by the properties of the
    engine that the specification states.

    Python integers are [Z]; Python floats are IEEE-754 binary64 values, taken
    from the Standard Library's [SpecFloat]; [None] is [option]'s [None];
    insertion-ordered [dict]s are association lists with unique keys; the
    [set]s of part names, of which only membership is ever asked, are
    duplicate-free lists. *)

From Stdlib Require Import ZArith List String Lia.
From Stdlib Require Import SpecFloat.
From stdpp Require Import base option list strings.

Local Open Scope string_scope.
Local Open Scope list_scope.
Local Open Scope Z_scope.

(** ** Exceptions and fallible results *)

(** The exceptions the engine itself raises, and two families standing for
    whatever caller code raises inside a measured region: [UserException] for
    classes deriving from [Exception], [UserBaseException] for the ones that
    derive from [BaseException] only ([KeyboardInterrupt], [SystemExit],
    [GeneratorExit]). The [tag] is the identity of the raised object. *)
Inductive exn : Type :=
  | StopIteration
  | TypeError
  | AttributeError (msg : string)
  | KeyError (msg : string)
  | OverflowError
  | ZeroDivisionError
  | UserException (tag : nat)
  | UserBaseException (tag : nat).

(** [isinstance(e, Exception)]: what an [except Exception] clause catches. *)
Definition isinstance_Exception (e : exn) : bool :=
  match e with
  | UserBaseException _ => false
  | _ => true
  end.

Inductive result (A : Type) : Type :=
  | Return (a : A)
  | Raise (e : exn).
Arguments Return {A} a.
Arguments Raise {A} e.

Definition rbind {A B : Type} (r : result A) (k : A -> result B) : result B :=
  match r with
  | Return a => k a
  | Raise e => Raise e
  end.

Notation "x <-- r ;; k" := (rbind r (fun x => k))
  (at level 100, r at next level, right associativity).

(** ** Insertion-ordered dictionaries *)

Section Dict.
Context {K V : Type} `{EqDecision K}.

Definition dict : Type := list (K * V).

(** [d[k]], with [None] for a missing key. *)
Fixpoint dict_get (k : K) (d : dict) : option V :=
  match d with
  | [] => None
  | (k', v) :: d' => if decide (k = k') then Some v else dict_get k d'
  end.

(** [k in d]. *)
Definition dict_mem (k : K) (d : dict) : bool :=
  match dict_get k d with Some _ => true | None => false end.

(** [d[k] = v]: an existing key keeps its position, a new one goes last. *)
Fixpoint dict_set (k : K) (v : V) (d : dict) : dict :=
  match d with
  | [] => [(k, v)]
  | (k', v') :: d' =>
      if decide (k = k') then (k, v) :: d' else (k', v') :: dict_set k v d'
  end.

(** The keys in iteration order. *)
Definition dict_keys (d : dict) : list K := map fst d.

(** Every value stored under [k]: one at most in a dict with unique keys. *)
Fixpoint dict_entries (k : K) (d : dict) : list V :=
  match d with
  | [] => []
  | (k', v) :: d' =>
      if decide (k = k') then v :: dict_entries k d' else dict_entries k d'
  end.
End Dict.
Arguments dict : clear implicits.

(** ** Python numbers: the arithmetic [_get_stats] performs *)

Module PyNum.
Definition prec : Z := 53.
Definition emax : Z := 1024.

(** A Python [float]. *)
Definition pyfloat : Type := spec_float.

Definition float_zero : pyfloat := S754_zero false.

(** [float(z)] as done implicitly when an [int] meets a [float]: rounded to
    nearest-even, [OverflowError] when the integer is out of range. *)
Definition float_of_int (z : Z) : result pyfloat :=
  match binary_normalize prec emax z 0 false with
  | S754_infinity _ => Raise OverflowError
  | f => Return f
  end.

(** [x + y] on floats. *)
Definition float_add (x y : pyfloat) : pyfloat := SFadd prec emax x y.

(** [x / y] on floats: [ZeroDivisionError] for a zero divisor. *)
Definition float_truediv (x y : pyfloat) : result pyfloat :=
  match y with
  | S754_zero _ => Raise ZeroDivisionError
  | _ => Return (SFdiv prec emax x y)
  end.

(** The unrounded integer [z] as a numerator or denominator. *)
Definition exact_int (z : Z) : spec_float :=
  match z with
  | Z0 => S754_zero false
  | Zpos m => S754_finite false m 0
  | Zneg m => S754_finite true m 0
  end.

(** [a / b] on integers: the correctly rounded quotient. *)
Definition int_truediv (a b : Z) : result pyfloat :=
  if decide (b = 0) then Raise ZeroDivisionError
  else match SFdiv prec emax (exact_int a) (exact_int b) with
       | S754_infinity _ => Raise OverflowError
       | f => Return f
       end.

(** [x + t] with [x] a float and [t] an int. *)
Definition float_add_int (x : pyfloat) (t : Z) : result pyfloat :=
  ft <-- float_of_int t ;; Return (float_add x ft).

(** [x / n] with [x] a float and [n] an int. *)
Definition float_truediv_int (x : pyfloat) (n : Z) : result pyfloat :=
  fn <-- float_of_int n ;; float_truediv x fn.
End PyNum.
Import PyNum.

Arguments float_of_int : simpl never.
Arguments float_add : simpl never.
Arguments float_truediv : simpl never.
Arguments int_truediv : simpl never.
Arguments float_add_int : simpl never.
Arguments float_truediv_int : simpl never.

Definition ns_to_seconds : Z := 1000000000.
Definition ns_to_ms : Z := 1000000.

(** ** Sets of names *)

(** [s.add(x)] on a set kept as a list without duplicates. *)
Definition set_add (x : string) (s : list string) : list string :=
  if decide (x ∈ s) then s else x :: s.

(** ** The report object and the world it runs in *)

(** Per-iteration samples: iteration index, then part name. A stored value is
    an [int] duration; the code also tests it against [None]. *)
Abbreviation store := (dict Z (dict string (option Z))).

(** The attributes of a [BenchReport] instance ([_timer] is a parameter of
    the development, see [Engine]). *)
Record BenchReport : Type := mkBenchReport {
  name : string;
  default_turn_gc_off : bool;
  default_repeat : Z;
  parts_benches : store;
  apart_benches : store;
  loop_benches : list Z;
  current_iteration : Z;
  parts_names : list string;
  apart_names : list string;
  _startlooptime : option Z;
  _lastlooptime : option Z;
  _endlooptime : option Z;
  totaltime : option Z;
  totalitertime : option Z;
  overhead : option Z
}.

(** What the code reads and writes besides the instance: the number of timer
    readings taken so far, the collector's switch ([gc.isenabled()]), and how
    many times [reset] has rebound the two sample dicts ([epoch]): a scope
    opened before a [reset] still holds the dicts of its own epoch, which the
    instance no longer references. *)
Record World : Type := mkWorld {
  self : BenchReport;
  epoch : nat;
  ticks : nat;
  gc_isenabled : bool
}.

Definition with_self (w : World) (r : BenchReport) : World :=
  mkWorld r (epoch w) (ticks w) (gc_isenabled w).

(** [gc.enable()] and [gc.disable()]. *)
Definition gc_set (b : bool) (w : World) : World :=
  mkWorld (self w) (epoch w) (ticks w) b.

(** [sum(l)] on a list of ints. *)
Definition py_sum (l : list Z) : Z := fold_left Z.add l 0.

Section Engine.
(** The injected timer: its [k]-th reading (from 0). *)
Variable _timer : nat -> Z.

(** [self._timer()]. *)
Definition timer_read (w : World) : Z * World :=
  (_timer (ticks w), mkWorld (self w) (epoch w) (S (ticks w)) (gc_isenabled w)).

(** *** The iteration driver *)

Definition reset (w : World) : World :=
  let r := self w in
  mkWorld
    {| name := name r;
       default_turn_gc_off := default_turn_gc_off r;
       default_repeat := default_repeat r;
       parts_benches := [];
       apart_benches := [];
       loop_benches := [];
       current_iteration := 0;
       parts_names := [];
       apart_names := [];
       _startlooptime := None;
       _lastlooptime := None;
       _endlooptime := None;
       totaltime := None;
       totalitertime := None;
       overhead := None |}
    (S (epoch w)) (ticks w) (gc_isenabled w).

(** [BenchReport(name, repeat, _timer, turn_gc_off)], in a process whose
    collector switch is [gc]. *)
Definition __init__ (nm : string) (repeat : Z) (turn_gc_off : bool)
    (gc : bool) : World :=
  reset
    (mkWorld
       {| name := nm;
          default_turn_gc_off := turn_gc_off;
          default_repeat := repeat;
          parts_benches := [];
          apart_benches := [];
          loop_benches := [];
          current_iteration := 0;
          parts_names := [];
          apart_names := [];
          _startlooptime := None;
          _lastlooptime := None;
          _endlooptime := None;
          totaltime := None;
          totalitertime := None;
          overhead := None |}
       0 0 gc).

Definition set_default_repeat (n : Z) (r : BenchReport) : BenchReport :=
  {| name := name r;
     default_turn_gc_off := default_turn_gc_off r;
     default_repeat := n;
     parts_benches := parts_benches r;
     apart_benches := apart_benches r;
     loop_benches := loop_benches r;
     current_iteration := current_iteration r;
     parts_names := parts_names r;
     apart_names := apart_names r;
     _startlooptime := _startlooptime r;
     _lastlooptime := _lastlooptime r;
     _endlooptime := _endlooptime r;
     totaltime := totaltime r;
     totalitertime := totalitertime r;
     overhead := overhead r |}.

Definition set_startlooptime (t : option Z) (r : BenchReport) : BenchReport :=
  {| name := name r;
     default_turn_gc_off := default_turn_gc_off r;
     default_repeat := default_repeat r;
     parts_benches := parts_benches r;
     apart_benches := apart_benches r;
     loop_benches := loop_benches r;
     current_iteration := current_iteration r;
     parts_names := parts_names r;
     apart_names := apart_names r;
     _startlooptime := t;
     _lastlooptime := _lastlooptime r;
     _endlooptime := _endlooptime r;
     totaltime := totaltime r;
     totalitertime := totalitertime r;
     overhead := overhead r |}.

(** The fields [__iter__] and [__next__] assign. *)
Definition set_driver (ci : Z) (lb : list Z) (last : option Z)
    (r : BenchReport) : BenchReport :=
  {| name := name r;
     default_turn_gc_off := default_turn_gc_off r;
     default_repeat := default_repeat r;
     parts_benches := parts_benches r;
     apart_benches := apart_benches r;
     loop_benches := lb;
     current_iteration := ci;
     parts_names := parts_names r;
     apart_names := apart_names r;
     _startlooptime := _startlooptime r;
     _lastlooptime := last;
     _endlooptime := _endlooptime r;
     totaltime := totaltime r;
     totalitertime := totalitertime r;
     overhead := overhead r |}.

(** The totals [__next__] assigns when the sequence ends. *)
Definition set_totals (tt ti ov : option Z) (r : BenchReport) : BenchReport :=
  {| name := name r;
     default_turn_gc_off := default_turn_gc_off r;
     default_repeat := default_repeat r;
     parts_benches := parts_benches r;
     apart_benches := apart_benches r;
     loop_benches := loop_benches r;
     current_iteration := current_iteration r;
     parts_names := parts_names r;
     apart_names := apart_names r;
     _startlooptime := _startlooptime r;
     _lastlooptime := _lastlooptime r;
     _endlooptime := _endlooptime r;
     totaltime := tt;
     totalitertime := ti;
     overhead := ov |}.

(** [self(n)]: returns [self], so only the world is kept. *)
Definition __call__ (n : option Z) (w : World) : World :=
  let w := match n with
           | Some n => with_self w (set_default_repeat n (self w))
           | None => w
           end in
  let w := reset w in
  let '(t, w) := timer_read w in
  with_self w (set_startlooptime (Some t) (self w)).

Definition __iter__ (w : World) : World :=
  let w := with_self w
             (set_driver 0 (loop_benches (self w)) (_lastlooptime (self w))
                (self w)) in
  let '(t, w) := timer_read w in
  with_self w
    (set_driver (current_iteration (self w)) (loop_benches (self w)) (Some t)
       (self w)).

(** [next(self)]: the yielded item, [StopIteration] at the end of the
    sequence, [TypeError] where the code subtracts [None]. *)
Definition __next__ (w : World) : result Z * World :=
  let '(t2, w) := timer_read w in
  match _lastlooptime (self w) with
  | None => (Raise TypeError, w)
  | Some last =>
      let delta := t2 - last in
      let lb := if decide (current_iteration (self w) > 0)
                then loop_benches (self w) ++ [delta]
                else loop_benches (self w) in
      let w := with_self w
                 (set_driver (current_iteration (self w)) lb (Some t2)
                    (self w)) in
      if decide (current_iteration (self w) < default_repeat (self w)) then
        let ci := current_iteration (self w) + 1 in
        (Return ci,
         with_self w (set_driver ci (loop_benches (self w))
                        (_lastlooptime (self w)) (self w)))
      else
        match _startlooptime (self w) with
        | None => (Raise TypeError, w)
        | Some start =>
            let tt := t2 - start in
            let ti := py_sum (loop_benches (self w)) in
            (Raise StopIteration,
             with_self w
               (set_totals (Some tt) (Some ti) (Some (tt - ti)) (self w)))
        end
  end.

(** *** The part scope *)

(** The locals of the generator [part] that are live across its [yield]:
    [partname] after defaulting, [report_apart] (which of the two dicts is
    [b] and which is [b_anti]), [gcold], [i] and [start_time]; [sc_epoch]
    says which pair of dicts [b] and [b_anti] are bound to. *)
Record Scope : Type := mkScope {
  sc_partname : string;
  sc_report_apart : bool;
  sc_gcold : bool;
  sc_i : Z;
  sc_start_time : Z;
  sc_epoch : nat
}.

Definition set_names (pn an : list string) (r : BenchReport) : BenchReport :=
  {| name := name r;
     default_turn_gc_off := default_turn_gc_off r;
     default_repeat := default_repeat r;
     parts_benches := parts_benches r;
     apart_benches := apart_benches r;
     loop_benches := loop_benches r;
     current_iteration := current_iteration r;
     parts_names := pn;
     apart_names := an;
     _startlooptime := _startlooptime r;
     _lastlooptime := _lastlooptime r;
     _endlooptime := _endlooptime r;
     totaltime := totaltime r;
     totalitertime := totalitertime r;
     overhead := overhead r |}.

Definition set_benches (pb ab : store) (r : BenchReport) : BenchReport :=
  {| name := name r;
     default_turn_gc_off := default_turn_gc_off r;
     default_repeat := default_repeat r;
     parts_benches := pb;
     apart_benches := ab;
     loop_benches := loop_benches r;
     current_iteration := current_iteration r;
     parts_names := parts_names r;
     apart_names := apart_names r;
     _startlooptime := _startlooptime r;
     _lastlooptime := _lastlooptime r;
     _endlooptime := _endlooptime r;
     totaltime := totaltime r;
     totalitertime := totalitertime r;
     overhead := overhead r |}.

(** The name a scope runs under: ["core"] or ["setup"] when none is given. *)
Definition resolve_partname (partname : option string) (report_apart : bool)
    : string :=
  match partname with
  | Some s => s
  | None => if report_apart then "core" else "setup"
  end.

(** Whether the scope switches the collector off: the argument, else the
    instance's default. *)
Definition resolve_turn_gc_off (turn_gc_off : option bool) (r : BenchReport)
    : bool :=
  match turn_gc_off with
  | Some b => b
  | None => default_turn_gc_off r
  end.

(** [p_anti]: the names of the other reporting class. *)
Definition names_anti (report_apart : bool) (r : BenchReport) : list string :=
  if report_apart then parts_names r else apart_names r.

(** [p]: the names of the scope's own reporting class. *)
Definition names_own (report_apart : bool) (r : BenchReport) : list string :=
  if report_apart then apart_names r else parts_names r.

(** [b]: the samples of the scope's own reporting class. *)
Definition benches_own (report_apart : bool) (r : BenchReport) : store :=
  if report_apart then apart_benches r else parts_benches r.

(** [part] from its first line to the [yield]: what [__enter__] runs. *)
Definition part_enter (partname : option string) (report_apart : bool)
    (turn_gc_off : option bool) (w : World) : result Scope * World :=
  let gcold := gc_isenabled w in
  let turn_gc_off := resolve_turn_gc_off turn_gc_off (self w) in
  let w := if turn_gc_off then gc_set false w else w in
  let partname := resolve_partname partname report_apart in
  let p_anti := names_anti report_apart (self w) in
  if decide (partname ∈ p_anti) then
    (Raise (AttributeError
              "No allowed to change 'report_apart' to a previous 'partname'"),
     w)
  else
    let r := self w in
    let w := with_self w
               (if report_apart
                then set_names (parts_names r) (set_add partname (apart_names r)) r
                else set_names (set_add partname (parts_names r)) (apart_names r) r) in
    let i := current_iteration (self w) in
    let '(start_time, w) := timer_read w in
    (Return (mkScope partname report_apart gcold i start_time (epoch w)), w).

(** [part] resumed by an exception [e] thrown in at the [yield]: the
    [except Exception] clause handles instances of [Exception] only, and
    nothing else in the generator handles the others. *)
Definition part_exit_exc (sc : Scope) (e : exn) (w : World)
    : result unit * World :=
  if isinstance_Exception e then
    let w := if sc_gcold sc then gc_set true w else w in
    (Raise e, w)
  else (Raise e, w).

(** Lines 193-203 on the dicts [b] and [b_anti]. *)
Definition record_delta (partname : string) (i : Z) (delta : Z)
    (b b_anti : store) : store * store :=
  let b := if dict_mem i b then b else dict_set i [] b in
  let b_anti := if dict_mem i b_anti then b_anti else dict_set i [] b_anti in
  let bi := default [] (dict_get i b) in
  let bi := match dict_get partname bi with
            | Some (Some t) => dict_set partname (Some (t + delta)) bi
            | Some None | None => dict_set partname (Some delta) bi
            end in
  (dict_set i bi b, b_anti).

(** [part] resumed normally at the [yield]: the [else] clause, the second
    reading and the commit. A scope of an earlier epoch writes into dicts
    that [reset] has detached from the instance. *)
Definition part_exit_ok (sc : Scope) (w : World) : World :=
  let w := if sc_gcold sc then gc_set true w else w in
  let '(end_time, w) := timer_read w in
  let delta := end_time - sc_start_time sc in
  if decide (sc_epoch sc = epoch w) then
    let r := self w in
    if sc_report_apart sc then
      let '(b, b_anti) := record_delta (sc_partname sc) (sc_i sc) delta
                            (apart_benches r) (parts_benches r) in
      with_self w (set_benches b_anti b r)
    else
      let '(b, b_anti) := record_delta (sc_partname sc) (sc_i sc) delta
                            (parts_benches r) (apart_benches r) in
      with_self w (set_benches b b_anti r)
  else w.

(** [with self.part(partname, report_apart, turn_gc_off): body]. *)
Definition with_part (partname : option string) (report_apart : bool)
    (turn_gc_off : option bool) (body : World -> result unit * World)
    (w : World) : result unit * World :=
  match part_enter partname report_apart turn_gc_off w with
  | (Raise e, w) => (Raise e, w)
  | (Return sc, w) =>
      match body w with
      | (Return _, w) => (Return tt, part_exit_ok sc w)
      | (Raise e, w) => part_exit_exc sc e w
      end
  end.

(** *** The sample iterators, consumed to the end *)

Definition iter_measures_part (part_or_apart : string) (w : World)
    : result (list Z) :=
  let r := self w in
  b <-- (if decide (part_or_apart ∈ parts_names r) then
           Return (parts_benches r)
         else if decide (part_or_apart ∈ apart_names r) then
           Return (apart_benches r)
         else
           Raise (KeyError ("No existe parte o aparte con el nombre '"
                            +:+ part_or_apart +:+ "'"))) ;;
  Return
    (flat_map
       (fun i =>
          match dict_get part_or_apart (default [] (dict_get i b)) with
          | Some (Some t) => [t]
          | Some None | None => []
          end)
       (dict_keys b)).

(** [iter_t + t if iter_t else t]: [None] and [0] are both falsy. *)
Definition add_measure (iter_t : option Z) (t : Z) : option Z :=
  match iter_t with
  | Some a => if decide (a = 0) then Some t else Some (a + t)
  | None => Some t
  end.

(** The inner loop [for p in b[i]: ...]. *)
Definition sum_parts (bi : dict string (option Z)) (iter_t : option Z)
    : option Z :=
  fold_left
    (fun acc p =>
       match dict_get p bi with
       | Some (Some t) => add_measure acc t
       | Some None | None => acc
       end)
    (dict_keys bi) iter_t.

(** [b2] is [None] where the code binds it to the empty list. *)
Definition iter_measures_parts_globalized (section : string) (w : World)
    : result (list Z) :=
  let r := self w in
  bs <-- (if decide (section = "parts") then
            Return (parts_benches r, None)
          else if decide (section = "aparts") then
            Return (apart_benches r, None)
          else if decide (section = "all") then
            Return (parts_benches r, Some (apart_benches r))
          else
            Raise (KeyError
                     "Parametro 'section' debe ser 'parts', 'aparts' o 'all'.")) ;;
  let '(b1, b2) := bs in
  Return
    (flat_map
       (fun i =>
          let iter_t := sum_parts (default [] (dict_get i b1)) None in
          let iter_t :=
            match b2 with
            | Some b2 =>
                match dict_get i b2 with
                | Some b2i => sum_parts b2i iter_t
                | None => iter_t
                end
            | None => iter_t
            end in
          match iter_t with
          | Some t => [t]
          | None => []
          end)
       (dict_keys b1)).

(** *** Driving a report *)

(** [for v in it: body v] on the iterator [self], with at most [fuel] calls
    of [__next__] ([None] when they do not suffice): the items produced,
    how the statement ended, and the world it left. [StopIteration] ends
    the statement normally; any other exception leaves it. *)
Fixpoint for_loop (fuel : nat) (body : Z -> World -> result unit * World)
    (w : World) : option (list Z * result unit * World) :=
  match fuel with
  | O => None
  | S fuel =>
      match __next__ w with
      | (Raise StopIteration, w) => Some ([], Return tt, w)
      | (Raise e, w) => Some ([], Raise e, w)
      | (Return v, w) =>
          match body v w with
          | (Raise e, w) => Some ([v], Raise e, w)
          | (Return _, w) =>
              match for_loop fuel body w with
              | Some (vs, r, w) => Some (v :: vs, r, w)
              | None => None
              end
          end
      end
  end.

(** [for v in self(n): body v]. *)
Definition drive (fuel : nat) (n : option Z)
    (body : Z -> World -> result unit * World) (w : World)
    : option (list Z * result unit * World) :=
  for_loop fuel body (__iter__ (__call__ n w)).

(** The operations caller code can perform on a report and on the two
    globals it shares with it. An exit may come with any scope record, so
    that exits in any order, and of scopes opened before a [reset], are
    covered. *)
Inductive op : Type :=
  | OpReset
  | OpCall (n : option Z)
  | OpIter
  | OpNext
  | OpPartEnter (partname : option string) (report_apart : bool)
      (turn_gc_off : option bool)
  | OpPartExitOk (sc : Scope)
  | OpPartExitExc (sc : Scope) (e : exn)
  | OpGc (b : bool)
  | OpTimer.

Definition run_op (o : op) (w : World) : World :=
  match o with
  | OpReset => reset w
  | OpCall n => __call__ n w
  | OpIter => __iter__ w
  | OpNext => snd (__next__ w)
  | OpPartEnter pn ra tg => snd (part_enter pn ra tg w)
  | OpPartExitOk sc => part_exit_ok sc w
  | OpPartExitExc sc e => snd (part_exit_exc sc e w)
  | OpGc b => gc_set b w
  | OpTimer => snd (timer_read w)
  end.

Definition run_ops (os : list op) (w : World) : World :=
  fold_left (fun w o => run_op o w) os w.

(** The operations that start a new run: they go through [reset]. *)
Definition starts_run (o : op) : bool :=
  match o with
  | OpReset | OpCall _ => true
  | _ => false
  end.

(** The worlds a freshly built report can be taken to. *)
Definition reachable (w : World) : Prop :=
  exists nm repeat tgo gc os, w = run_ops os (__init__ nm repeat tgo gc).

End Engine.

(** ** The statistics aggregator *)

(** The dict [_get_stats] returns; [stat_total] and [stat_min] are in the
    reporting unit (milliseconds). *)
Record Stats : Type := mkStats {
  stat_total : pyfloat;
  stat_n : Z;
  stat_avg : option pyfloat;
  stat_min : option pyfloat
}.

(** One turn of the loop over [measures] on [total], [n] and [min]. *)
Definition stats_step (acc : pyfloat * Z * option Z) (t : option Z)
    : result (pyfloat * Z * option Z) :=
  match t with
  | None => Return acc
  | Some t =>
      let '(total, n, mn) := acc in
      total <-- float_add_int total t ;;
      let mn := match mn with
                | None => Some t
                | Some m => if decide (m > t) then Some t else Some m
                end in
      Return (total, n + 1, mn)
  end.

Fixpoint stats_loop (measures : list (option Z))
    (acc : pyfloat * Z * option Z) : result (pyfloat * Z * option Z) :=
  match measures with
  | [] => Return acc
  | t :: measures => acc <-- stats_step acc t ;; stats_loop measures acc
  end.

Definition _get_stats (measures : list (option Z)) : result Stats :=
  acc <-- stats_loop measures (float_zero, 0, None) ;;
  let '(total, n, mn) := acc in
  total <-- float_truediv_int total ns_to_ms ;;
  mn <-- match mn with
         | Some m => (x <-- int_truediv m ns_to_ms ;; Return (Some x))
         | None => Return None
         end ;;
  avg <-- (if decide (n > 0)
           then (a <-- float_truediv_int total n ;; Return (Some a))
           else Return None) ;;
  Return (mkStats total n avg mn).

(** [get_stats_total(as_pandas=False)]. *)
Definition get_stats_total (w : World) : result Stats :=
  _get_stats (map Some (loop_benches (self w))).

(** ** Predicates used by the statements *)

(** What the driver owns of the world: the five fields its methods read. *)
Definition driver_view (w : World)
    : Z * Z * list Z * option Z * option Z :=
  (default_repeat (self w), current_iteration (self w),
   loop_benches (self w), _lastlooptime (self w), _startlooptime (self w)).

(** A timer whose readings never go back. *)
Definition monotonic (timer : nat -> Z) : Prop :=
  forall i j : nat, (i <= j)%nat -> timer i <= timer j.

(** A loop body that, from every world satisfying [I], finishes normally,
    leaves the driver's fields alone, does not unread the timer and
    re-establishes [I]; [I] itself does not depend on what [__next__] does. *)
Definition completes (timer : nat -> Z) (I : World -> Prop)
    (body : Z -> World -> result unit * World) : Prop :=
  (forall w, I w -> I (snd (__next__ timer w))) /\
  (forall v w, I w ->
     exists w', body v w = (Return tt, w') /\
                driver_view w' = driver_view w /\
                (ticks w <= ticks w')%nat /\ I w').

(** The items [1, ..., n]. *)
Definition one_to (n : nat) : list Z := map Z.of_nat (seq 1 n).

(** The repeat count a call [self(n)] leaves in force. *)
Definition repeat_of (n : option Z) (w : World) : Z :=
  match n with
  | Some N => N
  | None => default_repeat (self w)
  end.

(** Where the driver stands between two calls of [__next__], [k] items
    having been produced of a run of [N] that began at reading [start]. *)
Definition between_items (timer : nat -> Z) (N start : Z) (k : nat) (w : World) : Prop :=
  default_repeat (self w) = N /\
  current_iteration (self w) = Z.of_nat k /\
  length (loop_benches (self w)) = Nat.pred k /\
  _startlooptime (self w) = Some start /\
  exists j : nat,
    (j < ticks w)%nat /\ _lastlooptime (self w) = Some (timer j) /\
    (monotonic timer -> py_sum (loop_benches (self w)) + start <= timer j).

(** Where it stands after the call that ended the sequence. *)
Definition run_over (timer : nat -> Z) (N start : Z) (w : World) : Prop :=
  length (loop_benches (self w)) = Z.to_nat N /\
  _startlooptime (self w) = Some start /\
  _lastlooptime (self w) = Some (timer (Nat.pred (ticks w))) /\
  totaltime (self w) = Some (timer (Nat.pred (ticks w)) - start) /\
  totalitertime (self w) = Some (py_sum (loop_benches (self w))) /\
  overhead (self w) =
    Some (timer (Nat.pred (ticks w)) - start - py_sum (loop_benches (self w))) /\
  (monotonic timer ->
   py_sum (loop_benches (self w)) <= timer (Nat.pred (ticks w)) - start).

(** The number of overall-duration samples a complete run leaves. *)
Definition samples_recorded (timer : nat -> Z) (fuel : nat) (n : option Z)
    (body : Z -> World -> result unit * World) (w : World) : option nat :=
  match drive timer fuel n body w with
  | Some (_, _, w') => Some (length (loop_benches (self w')))
  | None => None
  end.

(** The sample count as the specification words it: [max(N-1, 0)]. *)
Definition claimed_sample_count (N : Z) : nat := Z.to_nat (Z.max (N - 1) 0).

(** Loop bodies and a timer to run the engine on: [pass]; one inline scope
    around [pass]; a clock that advances ten units per reading. *)
Definition idle_body : Z -> World -> result unit * World :=
  fun _ w => (Return tt, w).

(** The body [pass] of a [with] statement. *)
Definition idle_body_unit : World -> result unit * World :=
  fun w => (Return tt, w).

Definition timed_body (timer : nat -> Z) (partname : string)
    : Z -> World -> result unit * World :=
  fun _ w =>
    with_part timer (Some partname) false None idle_body_unit w.

Definition tick_timer (k : nat) : Z := 10 * Z.of_nat k.

(** The entries of [measures] that are not [None]. *)
Definition present (measures : list (option Z)) : list Z := omap id measures.

(** The running minimum the loop of [_get_stats] keeps in [stat["min"]]. *)
Definition lowest (mn : option Z) (samples : list Z) : option Z :=
  fold_left
    (fun acc t =>
       match acc with
       | None => Some t
       | Some m => if decide (m > t) then Some t else Some m
       end)
    samples mn.

(** [m] is the least element of [samples]. *)
Definition least (m : Z) (samples : list Z) : Prop :=
  In m samples /\ forall t, In t samples -> m <= t.

(** [float(z)] for an integer literal known to be in range. *)
Definition float_lit (z : Z) : pyfloat := binary_normalize prec emax z 0 false.

(** The summary the specification gives for the samples [100, 50, 150]. *)
Definition claimed_summary : Stats :=
  mkStats (float_lit 300) 3 (Some (float_lit 100)) (Some (float_lit 50)).

(** The doubles [_get_stats] computes on those samples: 0.0003,
    9.999999999999999e-05 and 5e-05 (milliseconds), as mantissa and binary
    exponent. *)
Definition ms_total : pyfloat := S754_finite false 5534023222112865 (-64).
Definition ms_avg : pyfloat := S754_finite false 7378697629483820 (-66).
Definition ms_min : pyfloat := S754_finite false 7378697629483821 (-67).

(** What the scopes own of the instance: the two stores and the two sets
    of names. *)
Definition registry_view (w : World)
    : store * store * list string * list string :=
  (parts_benches (self w), apart_benches (self w),
   parts_names (self w), apart_names (self w)).

(** The two stores list the same iterations in the same order, each once,
    and no part name belongs to both reporting classes. *)
Definition consistent (w : World) : Prop :=
  dict_keys (parts_benches (self w)) = dict_keys (apart_benches (self w)) /\
  NoDup (dict_keys (parts_benches (self w))) /\
  forall nm : string,
    nm ∈ parts_names (self w) -> nm ∈ apart_names (self w) -> False.

(** The durations recorded for [partname] in the store [b], iteration by
    iteration, as the specification words it: an iteration without a sample
    for the part contributes nothing. *)
Definition recorded_durations (partname : string) (b : store) : list Z :=
  flat_map
    (fun ib => match dict_get partname (snd ib) with
               | Some (Some t) => [t]
               | Some None | None => []
               end)
    b.

(** The iterations present in either of two stores. *)
Definition keys_of_either (b1 b2 : store) : list Z :=
  dict_keys b1 ++ filter (fun i => i ∉ dict_keys b1) (dict_keys b2).

(** What iteration [i] contributes to the totals over both stores. *)
Definition total_of_iteration (b1 b2 : store) (i : Z) : list Z :=
  let iter_t := sum_parts (default [] (dict_get i b1)) None in
  let iter_t := match dict_get i b2 with
                | Some b2i => sum_parts b2i iter_t
                | None => iter_t
                end in
  match iter_t with
  | Some t => [t]
  | None => []
  end.

(** A [KeyboardInterrupt] object, and a scope body interrupted by it. *)
Definition KeyboardInterrupt : exn := UserBaseException 0.

Definition interrupted_body (w : World) : result unit * World :=
  (Raise KeyboardInterrupt, w).

(** Worlds to run the engine on: a freshly built report with suppression on
    by default in a process whose collector is enabled; the same after a
    scope named ["X"] has been opened inline without suppression; and a run of
    two iterations in whose first iteration one inline scope ["setup"] has
    been closed. *)
Definition fresh : World := __init__ "Medicion 3" 1 true true.

Definition x_inline : result Scope * World :=
  part_enter tick_timer (Some "X") false (Some false) fresh.

Definition one_scope_closed : World :=
  run_ops tick_timer
    [OpCall (Some 2); OpIter; OpNext; OpPartEnter (Some "setup") false None;
     OpPartExitOk (mkScope "setup" false true 1 30 2)]
    fresh.

(** Inline scopes in the first iteration of a run: the world in which a
    first scope named ["a"] is open, and the world after it has closed, a
    scope named ["b"] has been opened and closed, and a second scope named
    ["a"] has been opened and closed. *)
Definition in_first_iteration : World :=
  run_ops tick_timer [OpCall (Some 2); OpIter; OpNext] fresh.

Definition first_a_open : World :=
  snd (part_enter tick_timer (Some "a") false None in_first_iteration).

Definition a_b_a_closed : World :=
  part_exit_ok tick_timer (mkScope "a" false true 1 70 2)
    (run_ops tick_timer
       [OpPartEnter (Some "b") false None;
        OpPartExitOk (mkScope "b" false true 1 50 2);
        OpPartEnter (Some "a") false None]
       (part_exit_ok tick_timer (mkScope "a" false true 1 30 2)
          first_a_open)).

(** ** The report tables *)

(** A row of the report: the dict [{"typ": .., "section": ..} | stats]. *)
Record Row : Type := mkRow {
  row_typ : string;
  row_section : string;
  row_stats : Stats
}.

(** [stat(self.iter_measures_part(p))]. *)
Definition stat_of_part (p : string) (w : World) : result Stats :=
  ms <-- iter_measures_part p w ;; _get_stats (map Some ms).

(** [stat(self.iter_measures_parts_globalized(section))]. *)
Definition stat_of_section (section : string) (w : World) : result Stats :=
  ms <-- iter_measures_parts_globalized section w ;; _get_stats (map Some ms).

(** The dict comprehension [{p: stat(self.iter_measures_part(p)) for p in
    names}], the set [names] being iterated in the order of the list. *)
Fixpoint stats_by_part (names : list string) (w : World)
    (acc : dict string Stats) : result (dict string Stats) :=
  match names with
  | [] => Return acc
  | p :: names =>
      st <-- stat_of_part p w ;; stats_by_part names w (dict_set p st acc)
  end.

(** [get_stats_parts(as_pandas=False)]. *)
Definition get_stats_parts (w : World) : result (list Row) :=
  parts <-- stats_by_part (parts_names (self w)) w [] ;;
  aparts <-- stats_by_part (apart_names (self w)) w [] ;;
  globalparts <-- stat_of_section "parts" w ;;
  globalaparts <-- stat_of_section "aparts" w ;;
  globalglobal <-- stat_of_section "all" w ;;
  Return
    (map (fun ps => mkRow "parts" (fst ps) (snd ps)) parts
     ++ [mkRow "parts" "SUBTOTAL" globalparts]
     ++ map (fun ps => mkRow "aparts" (fst ps) (snd ps)) aparts
     ++ [mkRow "aparts" "SUBTOTAL" globalaparts]
     ++ [mkRow "P+A" "TOTAL" globalglobal]).

(** [get_stats(as_pandas=False)]. *)
Definition get_stats (w : World) : result (list Row) :=
  rows <-- get_stats_parts w ;;
  total <-- get_stats_total w ;;
  Return (rows ++ [mkRow "TOTAL" "TOTAL" total]).

(** ** Further predicates *)

(** Keys are unique in a store and in each of its per-iteration dicts. *)
Definition well_keyed (b : store) : Prop :=
  NoDup (dict_keys b) /\ Forall (fun ib => NoDup (dict_keys (snd ib))) b.

(** The sum of the samples of one iteration's dict. *)
Definition iteration_sum (bi : dict string (option Z)) : Z :=
  py_sum (present (map snd bi)).

(** An arithmetic exception of the float conversions. *)
Definition arithmetic (e : exn) : Prop :=
  e = OverflowError \/ e = ZeroDivisionError.

(** One entry per iteration that has a sample: the sum of its samples. *)
Definition totals_of (b : store) : list Z :=
  flat_map
    (fun ib => match present (map snd (snd ib)) with
               | [] => []
               | _ :: _ => [iteration_sum (snd ib)]
               end)
    b.

(** What the dict of one iteration contributes to the durations recorded for
    [partname]. *)
Definition sample_of (partname : string) (bi : dict string (option Z))
    : list Z :=
  match dict_get partname bi with
  | Some (Some t) => [t]
  | Some None | None => []
  end.

(** A scope body that performs the operations [os] and then raises [e]. *)
Definition failing_body (timer : nat -> Z) (os : list op) (e : exn)
    : World -> result unit * World :=
  fun w => (Raise e, run_ops timer os w).

(** The operations that assign [default_repeat]: a call with a count. *)
Definition sets_repeat (o : op) : bool :=
  match o with
  | OpCall (Some _) => true
  | _ => false
  end.

(** A run of one iteration driven to its end. *)
Definition run_finished : World :=
  run_ops tick_timer [OpCall (Some 1); OpIter; OpNext; OpNext] fresh.

(** The labels of a row. *)
Definition row_label (r : Row) : string * string :=
  (row_typ r, row_section r).

(** The labels of the report on the names [parts] and [aparts], in the order
    [get_stats] lists them. *)
Definition report_labels (parts aparts : list string)
    : list (string * string) :=
  map (pair "parts") parts ++ [("parts", "SUBTOTAL")]
  ++ map (pair "aparts") aparts ++ [("aparts", "SUBTOTAL")]
  ++ [("P+A", "TOTAL")] ++ [("TOTAL", "TOTAL")].

(** A result that is a value or an arithmetic exception. *)
Definition value_or_arithmetic {A : Type} (P : A -> Prop) (r : result A)
    : Prop :=
  match r with
  | Return a => P a
  | Raise e => arithmetic e
  end.

(** The summary of no sample at all, and the report of a run in which
    nothing has been recorded. *)
Definition empty_stats : Stats := mkStats float_zero 0 None None.

Definition empty_report : list Row :=
  [mkRow "parts" "SUBTOTAL" empty_stats;
   mkRow "aparts" "SUBTOTAL" empty_stats;
   mkRow "P+A" "TOTAL" empty_stats;
   mkRow "TOTAL" "TOTAL" empty_stats].

(** ** Accounting for the commits of one part *)

(** The duration on record for [partname] under iteration [i] in the store
    [b]: 0 when there is none. *)
Definition on_record (partname : string) (i : Z) (b : store) : Z :=
  py_sum (sample_of partname (default [] (dict_get i b))).

(** Whether the operation is the normal exit of a scope named [partname], of
    class [report_apart], opened in iteration [i]. *)
Definition closes_scope_of (partname : string) (report_apart : bool) (i : Z)
    (o : op) : bool :=
  match o with
  | OpPartExitOk sc =>
      bool_decide (sc_partname sc = partname /\
                   sc_report_apart sc = report_apart /\ sc_i sc = i)
  | _ => false
  end.

(** The duration the operation [o], performed in the world [w], measures for
    that part under that iteration: the reading at exit minus the reading at
    entry for the normal exit of such a scope of the current run, and nothing
    for any other operation. *)
Definition commits (timer : nat -> Z) (partname : string)
    (report_apart : bool) (i : Z) (o : op) (w : World) : Z :=
  match o with
  | OpPartExitOk sc =>
      if decide (sc_partname sc = partname /\
                 sc_report_apart sc = report_apart /\ sc_i sc = i /\
                 sc_epoch sc = epoch w)
      then timer (ticks w) - sc_start_time sc
      else 0
  | _ => 0
  end.

(** The durations the operations [os], performed from the world [w] on,
    measure for that part under that iteration, added up. *)
Fixpoint committed (timer : nat -> Z) (partname : string)
    (report_apart : bool) (i : Z) (os : list op) (w : World) : Z :=
  match os with
  | [] => 0
  | o :: os =>
      commits timer partname report_apart i o w
      + committed timer partname report_apart i os (run_op timer o w)
  end.

(** * The iteration driver *)

Section DriverFacts.
Variable timer : nat -> Z.

Lemma py_sum_snoc (l : list Z) (x : Z) : py_sum (l ++ [x]) = py_sum l + x.
Proof.
  unfold py_sum. rewrite fold_left_app. simpl. reflexivity.
Qed.

(** [__next__] while items remain. *)
Lemma next_yields (w : World) (last : Z) :
  _lastlooptime (self w) = Some last ->
  current_iteration (self w) < default_repeat (self w) ->
  exists w',
    __next__ timer w = (Return (current_iteration (self w) + 1), w') /\
    default_repeat (self w') = default_repeat (self w) /\
    current_iteration (self w') = current_iteration (self w) + 1 /\
    loop_benches (self w') =
      (if decide (current_iteration (self w) > 0)
       then loop_benches (self w) ++ [timer (ticks w) - last]
       else loop_benches (self w)) /\
    _lastlooptime (self w') = Some (timer (ticks w)) /\
    _startlooptime (self w') = _startlooptime (self w) /\
    ticks w' = S (ticks w).
Proof.
  intros Hlast Hlt. unfold __next__, timer_read. simpl. rewrite Hlast. simpl.
  destruct (decide (current_iteration (self w) < default_repeat (self w)))
    as [_|Hn]; [|contradiction].
  eexists. split; [reflexivity|]. simpl. repeat split; reflexivity.
Qed.

(** [__next__] once the counter has reached the repeat count. *)
Lemma next_stops (w : World) (last start : Z) :
  _lastlooptime (self w) = Some last ->
  _startlooptime (self w) = Some start ->
  ~ current_iteration (self w) < default_repeat (self w) ->
  exists w',
    __next__ timer w = (Raise StopIteration, w') /\
    loop_benches (self w') =
      (if decide (current_iteration (self w) > 0)
       then loop_benches (self w) ++ [timer (ticks w) - last]
       else loop_benches (self w)) /\
    _lastlooptime (self w') = Some (timer (ticks w)) /\
    _startlooptime (self w') = Some start /\
    totaltime (self w') = Some (timer (ticks w) - start) /\
    totalitertime (self w') = Some (py_sum (loop_benches (self w'))) /\
    overhead (self w') =
      Some (timer (ticks w) - start - py_sum (loop_benches (self w'))) /\
    ticks w' = S (ticks w).
Proof.
  intros Hlast Hstart Hge. unfold __next__, timer_read. simpl.
  rewrite Hlast. simpl.
  destruct (decide (current_iteration (self w) < default_repeat (self w)))
    as [Hn|_]; [contradiction|].
  rewrite Hstart. eexists. split; [reflexivity|]. simpl.
  repeat split; solve [reflexivity | exact Hstart].
Qed.

Lemma driver_view_fields (w w' : World) :
  driver_view w' = driver_view w ->
  default_repeat (self w') = default_repeat (self w) /\
  current_iteration (self w') = current_iteration (self w) /\
  loop_benches (self w') = loop_benches (self w) /\
  _lastlooptime (self w') = _lastlooptime (self w) /\
  _startlooptime (self w') = _startlooptime (self w).
Proof.
  unfold driver_view. intros H. injection H as -> -> -> -> ->. tauto.
Qed.

Lemma for_loop_runs (N start : Z) (I : World -> Prop)
    (body : Z -> World -> result unit * World) :
  completes timer I body ->
  forall (m k : nat) (w : World) (fuel : nat),
    (k + m)%nat = Z.to_nat N ->
    between_items timer N start k w -> I w -> (m < fuel)%nat ->
    exists w',
      for_loop timer fuel body w =
        Some (map Z.of_nat (seq (S k) m), Return tt, w') /\
      run_over timer N start w'.
Proof.
  intros [Hnext Hbody] m.
  induction m as [|m IH]; intros k w fuel Hkm Hinv HI Hfuel;
    destruct Hinv as (Hrep & Hci & Hlen & Hstart & j & Hj & Hlast & Hmono);
    (destruct fuel as [|fuel]; [lia|]).
  - destruct (next_stops w (timer j) start Hlast Hstart)
      as (w' & Hn & Hlb & Hl' & Hs' & Htt & Hti & Hov & Htk); [lia|].
    exists w'. simpl. rewrite Hn. split; [reflexivity|].
    unfold run_over. rewrite Htk. simpl.
    assert (Hsum : monotonic timer ->
              py_sum (loop_benches (self w')) <= timer (ticks w) - start).
    { intros Hm. specialize (Hmono Hm). rewrite Hlb.
      destruct (decide (current_iteration (self w) > 0)).
      - rewrite py_sum_snoc. lia.
      - pose proof (Hm j (ticks w) ltac:(lia)). lia. }
    repeat split; try assumption.
    rewrite Hlb. destruct (decide (current_iteration (self w) > 0)).
    + rewrite length_app. simpl. lia.
    + lia.
  - destruct (next_yields w (timer j) Hlast)
      as (w1 & Hn & Hr1 & Hc1 & Hlb1 & Hl1 & Hs1 & Htk1); [lia|].
    pose proof (Hnext w HI) as HI1. rewrite Hn in HI1. simpl in HI1.
    destruct (Hbody (current_iteration (self w) + 1) w1 HI1)
      as (w2 & Hb & Hdv & Htk2 & HI2).
    apply driver_view_fields in Hdv.
    destruct Hdv as (Hr2 & Hc2 & Hlb2 & Hl2 & Hs2).
    destruct (IH (S k) w2 fuel) as (w' & Hrun & Hover);
      [lia | | exact HI2 | lia |].
    + unfold between_items. rewrite Hr2, Hc2, Hlb2, Hl2, Hs2.
      rewrite Hr1, Hc1, Hlb1, Hl1, Hs1.
      repeat split; try assumption; try lia.
      * destruct (decide (current_iteration (self w) > 0)).
        -- rewrite length_app. simpl. lia.
        -- lia.
      * exists (ticks w). repeat split; [lia|].
        intros Hm. specialize (Hmono Hm).
        destruct (decide (current_iteration (self w) > 0)).
        -- rewrite py_sum_snoc. lia.
        -- pose proof (Hm j (ticks w) ltac:(lia)). lia.
    + exists w'. split; [|exact Hover].
      simpl. rewrite Hn, Hb, Hrun.
      replace (current_iteration (self w) + 1) with (Z.of_nat (S k)) by lia.
      reflexivity.
Qed.

Lemma call_iter_between (n : option Z) (w : World) :
  between_items timer (repeat_of n w) (timer (ticks w)) 0
    (__iter__ timer (__call__ timer n w)).
Proof.
  unfold between_items, __iter__, __call__, timer_read, repeat_of.
  destruct n; simpl; repeat split;
    (exists (S (ticks w)); simpl; repeat split; [lia|];
     intros Hm; pose proof (Hm (ticks w) (S (ticks w)) ltac:(lia));
     unfold py_sum; simpl; lia).
Qed.

(** A complete run: the items, the normal end, and the state it leaves. *)
Lemma drive_runs (n : option Z) (I : World -> Prop)
    (body : Z -> World -> result unit * World) (w : World) (fuel : nat) :
  completes timer I body ->
  I (__iter__ timer (__call__ timer n w)) ->
  (Z.to_nat (repeat_of n w) < fuel)%nat ->
  exists w',
    drive timer fuel n body w =
      Some (one_to (Z.to_nat (repeat_of n w)), Return tt, w') /\
    run_over timer (repeat_of n w) (timer (ticks w)) w'.
Proof.
  intros Hc HI Hfuel. unfold drive, one_to.
  apply (for_loop_runs (repeat_of n w) (timer (ticks w)) I body Hc
           (Z.to_nat (repeat_of n w)) 0%nat); try assumption.
  - lia.
  - apply call_iter_between.
Qed.

Lemma next_keeps_names (w : World) :
  parts_names (self (snd (__next__ timer w))) = parts_names (self w) /\
  apart_names (self (snd (__next__ timer w))) = apart_names (self w).
Proof.
  unfold __next__, timer_read. simpl.
  destruct (_lastlooptime (self w)); simpl; [|tauto].
  destruct (decide (current_iteration (self w) < default_repeat (self w)));
    simpl; [tauto|].
  destruct (_startlooptime (self w)); simpl; tauto.
Qed.

Lemma idle_body_completes :
  completes timer (fun _ : World => True) idle_body.
Proof.
  split; [trivial|]. intros v w _. exists w. unfold idle_body.
  repeat split. lia.
Qed.

Lemma timed_body_completes (partname : string) :
  completes timer (fun w => partname ∉ apart_names (self w))
    (timed_body timer partname).
Proof.
  split.
  - intros w H. destruct (next_keeps_names w) as [_ ->]. exact H.
  - intros v w H. unfold timed_body, with_part, part_enter. simpl.
    assert (Hgc : forall b : bool, apart_names (self (if b then gc_set false w else w))
                            = apart_names (self w)) by (intros []; reflexivity).
    rewrite Hgc. destruct (decide (partname ∈ apart_names (self w)));
      [contradiction|].
    eexists. split; [reflexivity|].
    unfold part_exit_ok, timer_read. simpl.
    destruct (default_turn_gc_off (self w)), (gc_isenabled w); simpl;
      (destruct (decide (epoch w = epoch w)); [|congruence]); simpl;
      repeat split; solve [lia | assumption].
Qed.

Lemma tick_timer_monotonic : monotonic tick_timer.
Proof. intros i j Hij. unfold tick_timer. lia. Qed.

End DriverFacts.

(** ** Claims on the iteration driver *)

Section DriverClaims.
Variable timer : nat -> Z.

(** C6. Iterating [self(N)] with a loop body that finishes normally and
    leaves the driver alone yields exactly the items 1, 2, ..., N in order
    (none when N is 0 or less) and then ends normally, through
    [StopIteration] and not through an error; with N = 0 the very first
    call of [__next__] raises [StopIteration]. *)
Theorem drive_yields_one_to_N (N : Z) (I : World -> Prop)
    (body : Z -> World -> result unit * World) (w : World) (fuel : nat) :
  completes timer I body ->
  I (__iter__ timer (__call__ timer (Some N) w)) ->
  (Z.to_nat N < fuel)%nat ->
  (exists w',
     drive timer fuel (Some N) body w =
       Some (one_to (Z.to_nat N), Return tt, w')) /\
  length (one_to (Z.to_nat N)) = Z.to_nat N /\
  (forall i : nat, (i < Z.to_nat N)%nat ->
     nth i (one_to (Z.to_nat N)) 0 = Z.of_nat i + 1) /\
  fst (__next__ timer (__iter__ timer (__call__ timer (Some 0) w)))
    = Raise StopIteration.
Proof.
  intros Hc HI Hfuel. split; [|split; [|split]].
  - destruct (drive_runs timer (Some N) I body w fuel Hc HI Hfuel)
      as (w' & Hrun & _).
    exists w'. exact Hrun.
  - unfold one_to. rewrite length_map, length_seq. reflexivity.
  - intros i Hi. unfold one_to.
    rewrite (nth_indep _ 0 (Z.of_nat 0)) by
      (rewrite length_map, length_seq; exact Hi).
    rewrite map_nth, seq_nth by exact Hi. lia.
  - reflexivity.
Qed.

(** C1, as the code has it. A complete run of [self(N)] leaves exactly N
    overall-duration samples (none when N is 0 or less): one per item, each
    recorded by the call of [__next__] that follows the item, the last one
    by the call that ends the sequence; the first call after [__iter__]
    never appends a sample. *)
Theorem drive_records_N_samples (N : Z) (I : World -> Prop)
    (body : Z -> World -> result unit * World) (w : World) (fuel : nat) :
  completes timer I body ->
  I (__iter__ timer (__call__ timer (Some N) w)) ->
  (Z.to_nat N < fuel)%nat ->
  samples_recorded timer fuel (Some N) body w = Some (Z.to_nat N) /\
  forall w0 : World,
    loop_benches (self (snd (__next__ timer (__iter__ timer w0))))
      = loop_benches (self w0).
Proof.
  intros Hc HI Hfuel. split.
  - destruct (drive_runs timer (Some N) I body w fuel Hc HI Hfuel)
      as (w' & Hrun & Hlen & _).
    unfold samples_recorded. rewrite Hrun. simpl in Hlen. rewrite Hlen.
    reflexivity.
  - intros w0. unfold __next__, __iter__, timer_read. simpl.
    destruct (decide (0 < default_repeat (self w0))); simpl; [reflexivity|].
    destruct (_startlooptime (self w0)); reflexivity.
Qed.

(** C5. When a run of [self(n)] has been driven to its end, [overhead] is
    exactly [totaltime - totalitertime], where [totaltime] is the reading of
    the call that ended the sequence minus the reading taken by [__call__],
    and [totalitertime] is the sum of the recorded samples; with a timer
    whose readings never decrease, [totalitertime <= totaltime]. *)
Theorem overhead_is_total_minus_iterations (n : option Z)
    (I : World -> Prop) (body : Z -> World -> result unit * World)
    (w : World) (fuel : nat) :
  completes timer I body ->
  I (__iter__ timer (__call__ timer n w)) ->
  (Z.to_nat (repeat_of n w) < fuel)%nat ->
  exists (items : list Z) (w' : World) (total iters : Z),
    drive timer fuel n body w = Some (items, Return tt, w') /\
    totaltime (self w') = Some total /\
    totalitertime (self w') = Some iters /\
    overhead (self w') = Some (total - iters) /\
    total = timer (Nat.pred (ticks w')) - timer (ticks w) /\
    iters = py_sum (loop_benches (self w')) /\
    (monotonic timer -> iters <= total).
Proof.
  intros Hc HI Hfuel.
  destruct (drive_runs timer n I body w fuel Hc HI Hfuel)
    as (w' & Hrun & _ & _ & _ & Htt & Hti & Hov & Hmono).
  exists (one_to (Z.to_nat (repeat_of n w))), w'.
  exists (timer (Nat.pred (ticks w')) - timer (ticks w)).
  exists (py_sum (loop_benches (self w'))).
  repeat split; assumption.
Qed.

End DriverClaims.

Lemma drive_yields_one_to_N_witness :
  exists w',
    drive tick_timer 4 (Some 3) (timed_body tick_timer "a")
      (__init__ "Medicion 3" 1 true true)
    = Some ([1; 2; 3], Return tt, w').
Proof.
  destruct (drive_yields_one_to_N tick_timer 3
              (fun w => "a" ∉ apart_names (self w))
              (timed_body tick_timer "a")
              (__init__ "Medicion 3" 1 true true) 4) as [H _].
  - apply timed_body_completes.
  - simpl. apply not_elem_of_nil.
  - simpl. lia.
  - exact H.
Defined.

(** C1 as worded fails on the smallest run: one item, one sample, where the
    specification counts [max(1-1, 0) = 0]. *)
Lemma one_iteration_records_one_sample :
  samples_recorded tick_timer 2 (Some 1) idle_body
    (__init__ "Medicion 1" 1 true true) = Some 1%nat /\
  samples_recorded tick_timer 2 (Some 1) idle_body
    (__init__ "Medicion 1" 1 true true) <> Some (claimed_sample_count 1).
Proof.
  split; [vm_compute; reflexivity|].
  vm_compute. discriminate.
Qed.

Lemma drive_records_N_samples_witness :
  samples_recorded tick_timer 6 (Some 5) (timed_body tick_timer "a")
    (__init__ "Medicion 3" 1 true true) = Some 5%nat.
Proof.
  destruct (drive_records_N_samples tick_timer 5
              (fun w => "a" ∉ apart_names (self w))
              (timed_body tick_timer "a")
              (__init__ "Medicion 3" 1 true true) 6) as [H _].
  - apply timed_body_completes.
  - simpl. apply not_elem_of_nil.
  - simpl. lia.
  - exact H.
Defined.

Lemma overhead_is_total_minus_iterations_witness :
  exists (items : list Z) (w' : World) (total iters : Z),
    drive tick_timer 4 (Some 3) (timed_body tick_timer "a")
      (__init__ "Medicion 3" 1 true true) = Some (items, Return tt, w') /\
    overhead (self w') = Some (total - iters) /\ iters <= total.
Proof.
  destruct (overhead_is_total_minus_iterations tick_timer (Some 3)
              (fun w => "a" ∉ apart_names (self w))
              (timed_body tick_timer "a")
              (__init__ "Medicion 3" 1 true true) 4)
    as (items & w' & total & iters & Hrun & _ & _ & Hov & _ & _ & Hle).
  - apply timed_body_completes.
  - simpl. apply not_elem_of_nil.
  - simpl. lia.
  - exists items, w', total, iters.
    split; [exact Hrun|]. split; [exact Hov|].
    apply Hle. apply tick_timer_monotonic.
Defined.

(** * The statistics aggregator *)

Lemma lowest_some (samples : list Z) (m0 : Z) :
  exists m, lowest (Some m0) samples = Some m /\
            (m = m0 \/ In m samples) /\ m <= m0 /\
            forall t, In t samples -> m <= t.
Proof.
  unfold lowest. revert m0.
  induction samples as [|t samples IH]; intros m0; simpl.
  - exists m0. split; [reflexivity|]. split; [left; reflexivity|].
    split; [lia|tauto].
  - destruct (decide (m0 > t)).
    + destruct (IH t) as (m & Hm & Hin & Hle & Hall). exists m.
      split; [exact Hm|]. split; [destruct Hin as [->|Hin]; auto|].
      split; [lia|]. intros t' [<-|Ht']; [lia | auto].
    + destruct (IH m0) as (m & Hm & Hin & Hle & Hall). exists m.
      split; [exact Hm|]. split; [destruct Hin as [->|Hin]; auto|].
      split; [lia|]. intros t' [<-|Ht']; [lia | auto].
Qed.

Lemma lowest_least (samples : list Z) :
  samples <> [] -> exists m, lowest None samples = Some m /\ least m samples.
Proof.
  destruct samples as [|t samples]; [congruence|]. intros _.
  destruct (lowest_some samples t) as (m & Hm & Hin & Hle & Hall).
  exists m. split; [exact Hm|]. split.
  - simpl. destruct Hin as [->|Hin]; auto.
  - intros t' [<-|Ht']; [lia | auto].
Qed.

Lemma float_of_int_raises (z : Z) (e : exn) :
  float_of_int z = Raise e -> e = OverflowError.
Proof.
  unfold float_of_int.
  destruct (binary_normalize prec emax z 0 false); congruence.
Qed.

Lemma float_truediv_int_raises (x : pyfloat) (n : Z) (e : exn) :
  float_truediv_int x n = Raise e ->
  e = OverflowError \/ e = ZeroDivisionError.
Proof.
  unfold float_truediv_int, rbind.
  destruct (float_of_int n) as [f|e'] eqn:Hf.
  - unfold float_truediv. destruct f; intros H; inversion H; tauto.
  - intros H. inversion H. subst. left. eapply float_of_int_raises, Hf.
Qed.

Lemma int_truediv_raises (a b : Z) (e : exn) :
  int_truediv a b = Raise e -> e = OverflowError \/ e = ZeroDivisionError.
Proof.
  unfold int_truediv. destruct (decide (b = 0)).
  - intros H. inversion H. tauto.
  - destruct (SFdiv prec emax (exact_int a) (exact_int b));
      intros H; inversion H; tauto.
Qed.

(** The loop of [_get_stats]: it counts the entries that are not [None] and
    keeps their running minimum; it can only fail converting a sample. *)
Lemma stats_loop_spec (measures : list (option Z)) :
  forall (total : pyfloat) (n : Z) (mn : option Z),
    match stats_loop measures (total, n, mn) with
    | Return (_, n', mn') =>
        n' = n + Z.of_nat (length (present measures)) /\
        mn' = lowest mn (present measures)
    | Raise e => e = OverflowError
    end.
Proof.
  induction measures as [|t measures IH]; intros total n mn; simpl.
  - split; [lia | reflexivity].
  - destruct t as [t|]; simpl.
    + unfold float_add_int, rbind.
      destruct (float_of_int t) as [ft|e] eqn:Hft.
      * specialize (IH (float_add total ft) (n + 1)
                      (match mn with
                       | Some m => if decide (m > t) then Some t else Some m
                       | None => Some t
                       end)).
        destruct (stats_loop measures _) as [[[total' n'] mn']|e];
          [|exact IH].
        destruct IH as [-> ->]. unfold present. simpl. split; [lia|].
        unfold lowest. simpl. reflexivity.
      * eapply float_of_int_raises, Hft.
    + apply IH.
Qed.

(** The summary of the specification's example is not the one returned: the
    durations come back divided by [ns_to_ms]. *)
Lemma get_stats_example_is_in_milliseconds :
  _get_stats [Some 100; Some 50; Some 150] <> Return claimed_summary /\
  _get_stats [Some 100; Some 50; Some 150]
    = Return (mkStats ms_total 3 (Some ms_avg) (Some ms_min)) /\
  SFeqb ms_total (float_lit 300) = false.
Proof.
  split; [vm_compute; discriminate|].
  split; vm_compute; reflexivity.
Qed.

(** C4, as the code has it. On the empty sequence [_get_stats] returns total
    0.0, count 0 and neither average nor minimum. On the nanosecond samples
    100, 50, 150 it returns, in milliseconds, total 0.0003 (the double
    nearest 300/1000000), count 3, minimum 5e-05 (nearest 50/1000000) and
    average 0.0003/3, which is 9.999999999999999e-05. On any sequence it
    either fails in the float arithmetic or returns with: count the number of
    entries that are not [None]; when the count is positive, average the
    float quotient of the converted total by the count, and minimum the least
    sample divided by [ns_to_ms]; when the count is 0, neither average nor
    minimum. *)
Theorem get_stats_summary :
  _get_stats [] = Return (mkStats float_zero 0 None None) /\
  (_get_stats [Some 100; Some 50; Some 150]
     = Return (mkStats ms_total 3 (Some ms_avg) (Some ms_min)) /\
   int_truediv 300 ns_to_ms = Return ms_total /\
   int_truediv 50 ns_to_ms = Return ms_min /\
   float_truediv_int ms_total 3 = Return ms_avg) /\
  forall measures : list (option Z),
    match _get_stats measures with
    | Return st =>
        stat_n st = Z.of_nat (length (present measures)) /\
        (stat_n st > 0 ->
         exists (a x : pyfloat) (m : Z),
           float_truediv_int (stat_total st) (stat_n st) = Return a /\
           stat_avg st = Some a /\
           least m (present measures) /\
           int_truediv m ns_to_ms = Return x /\
           stat_min st = Some x) /\
        (stat_n st = 0 -> stat_avg st = None /\ stat_min st = None)
    | Raise e => e = OverflowError \/ e = ZeroDivisionError
    end.
Proof.
  split; [vm_compute; reflexivity|].
  split; [repeat split; vm_compute; reflexivity|].
  intros measures. unfold _get_stats.
  pose proof (stats_loop_spec measures float_zero 0 None) as Hloop.
  destruct (stats_loop measures (float_zero, 0, None))
    as [[[total n] mn]|e]; cbv beta iota delta [rbind];
    [|left; exact Hloop].
  destruct Hloop as [Hn Hmn]. rewrite Z.add_0_l in Hn.
  destruct (float_truediv_int total ns_to_ms) as [total'|e] eqn:Htotal;
    [|eapply float_truediv_int_raises, Htotal].
  destruct (present measures) as [|t samples] eqn:Hpresent.
  - simpl in Hn, Hmn. subst n mn.
    destruct (decide (0 > 0)) as [Hpos|_]; [lia|].
    cbv beta iota delta [stat_n stat_avg stat_min].
    split; [reflexivity|]. split; [lia | tauto].
  - destruct (lowest_least (t :: samples)) as (m & Hm & Hleast); [congruence|].
    rewrite Hm in Hmn. subst mn.
    destruct (int_truediv m ns_to_ms) as [x|e] eqn:Hx;
      [|eapply int_truediv_raises, Hx].
    destruct (decide (n > 0)) as [Hpos|Hnpos];
      [|simpl in Hn; lia].
    destruct (float_truediv_int total' n) as [a|e] eqn:Ha;
      [|eapply float_truediv_int_raises, Ha].
    cbv beta iota delta [stat_n stat_avg stat_min stat_total].
    split; [exact Hn|]. split.
    + intros _. exists a, x, m. auto.
    + intros H0. lia.
Qed.

(** * Dictionaries *)

Section DictFacts.
Context {K V : Type} `{EqDecision K}.
Implicit Types (k : K) (v : V) (d : dict K V).

Lemma dict_mem_keys k d : dict_mem k d = true <-> In k (dict_keys d).
Proof.
  unfold dict_mem. induction d as [|[k' v'] d IH]; simpl.
  - split; [discriminate | tauto].
  - destruct (decide (k = k')) as [->|Hne].
    + split; auto.
    + rewrite IH. split; [auto|]. intros [Heq|Hin]; [congruence | exact Hin].
Qed.

Lemma dict_keys_set k v d :
  dict_keys (dict_set k v d) =
    if dict_mem k d then dict_keys d else dict_keys d ++ [k].
Proof.
  unfold dict_mem. induction d as [|[k' v'] d IH]; simpl; [reflexivity|].
  destruct (decide (k = k')) as [->|Hne]; simpl; [reflexivity|].
  rewrite IH. destruct (dict_get k d); reflexivity.
Qed.

Lemma dict_get_set_eq k v d : dict_get k (dict_set k v d) = Some v.
Proof.
  induction d as [|[k' v'] d IH]; simpl.
  - destruct (decide (k = k)); congruence.
  - destruct (decide (k = k')) as [->|Hne]; simpl.
    + destruct (decide (k' = k')); congruence.
    + destruct (decide (k = k')); congruence.
Qed.

Lemma dict_get_set_ne k k' v d :
  k <> k' -> dict_get k (dict_set k' v d) = dict_get k d.
Proof.
  intros Hne. induction d as [|[k0 v0] d IH]; simpl.
  - destruct (decide (k = k')); congruence.
  - destruct (decide (k' = k0)) as [->|Hne0]; simpl.
    + destruct (decide (k = k0)); congruence.
    + destruct (decide (k = k0)); congruence.
Qed.

Lemma dict_entries_absent k d : dict_get k d = None -> dict_entries k d = [].
Proof.
  induction d as [|[k' v'] d IH]; simpl; [reflexivity|].
  destruct (decide (k = k')); [discriminate | exact IH].
Qed.

Lemma dict_entries_set k v d :
  dict_entries k (dict_set k v d) =
    match dict_entries k d with
    | [] => [v]
    | _ :: rest => v :: rest
    end.
Proof.
  induction d as [|[k' v'] d IH]; simpl.
  - destruct (decide (k = k)); congruence.
  - destruct (decide (k = k')) as [->|Hne]; simpl.
    + destruct (decide (k' = k')); congruence.
    + destruct (decide (k = k')); [congruence | exact IH].
Qed.

Lemma dict_keys_set_NoDup k v d :
  NoDup (dict_keys d) -> NoDup (dict_keys (dict_set k v d)).
Proof.
  intros Hnd. rewrite dict_keys_set.
  destruct (dict_mem k d) eqn:Hmem; [exact Hnd|].
  apply NoDup_app. split; [exact Hnd|]. split.
  - intros x Hx Hx'. apply list_elem_of_In in Hx.
    apply list_elem_of_singleton in Hx'. subst x.
    apply dict_mem_keys in Hx. congruence.
  - apply NoDup_singleton.
Qed.

End DictFacts.

Lemma dict_mem_same_keys {K V V' : Type} `{EqDecision K} (k : K)
    (d : dict K V) (d' : dict K V') :
  dict_keys d = dict_keys d' -> dict_mem k d = dict_mem k d'.
Proof.
  intros Hk. destruct (dict_mem k d) eqn:Hd, (dict_mem k d') eqn:Hd';
    try reflexivity.
  - apply dict_mem_keys in Hd. rewrite Hk in Hd.
    apply dict_mem_keys in Hd. congruence.
  - apply dict_mem_keys in Hd'. rewrite <- Hk in Hd'.
    apply dict_mem_keys in Hd'. congruence.
Qed.

(** * The part scope *)

Lemma elem_of_set_add (x y : string) (s : list string) :
  y ∈ set_add x s <-> y = x \/ y ∈ s.
Proof.
  unfold set_add. destruct (decide (x ∈ s)) as [Hx|Hx].
  - split; [auto|]. intros [->|H]; assumption.
  - apply elem_of_cons.
Qed.

Section PartFacts.
Variable timer : nat -> Z.

Lemma consistent_same_registry (w w' : World) :
  registry_view w' = registry_view w -> consistent w -> consistent w'.
Proof.
  unfold registry_view, consistent. intros H. injection H as -> -> -> ->.
  tauto.
Qed.

Lemma next_keeps_registry (w : World) :
  registry_view (snd (__next__ timer w)) = registry_view w.
Proof.
  unfold __next__, timer_read, registry_view. simpl.
  destruct (_lastlooptime (self w)); simpl; [|reflexivity].
  destruct (decide (current_iteration (self w) < default_repeat (self w)));
    simpl; [reflexivity|].
  destruct (_startlooptime (self w)); reflexivity.
Qed.

(** Opening a scope whose name belongs to the other class: the error, with
    the collector already switched off when suppression is on, and nothing
    else touched. *)
Lemma part_enter_conflict (partname : option string) (report_apart : bool)
    (turn_gc_off : option bool) (w : World) :
  resolve_partname partname report_apart ∈ names_anti report_apart (self w) ->
  part_enter timer partname report_apart turn_gc_off w =
    (Raise (AttributeError
              "No allowed to change 'report_apart' to a previous 'partname'"),
     if resolve_turn_gc_off turn_gc_off (self w) then gc_set false w else w).
Proof.
  intros Hin. unfold part_enter.
  destruct (resolve_turn_gc_off turn_gc_off (self w)); simpl;
    (destruct (decide (resolve_partname partname report_apart
                       ∈ names_anti report_apart (self w)));
     [reflexivity | contradiction]).
Qed.

(** Opening a scope whose name does not belong to the other class. *)
Lemma part_enter_registers (partname : option string) (report_apart : bool)
    (turn_gc_off : option bool) (w : World) :
  resolve_partname partname report_apart ∉ names_anti report_apart (self w) ->
  exists sc w',
    part_enter timer partname report_apart turn_gc_off w = (Return sc, w') /\
    sc_partname sc = resolve_partname partname report_apart /\
    sc_report_apart sc = report_apart /\
    sc_gcold sc = gc_isenabled w /\
    sc_i sc = current_iteration (self w) /\
    sc_start_time sc = timer (ticks w) /\
    sc_epoch sc = epoch w /\
    names_own report_apart (self w') =
      set_add (resolve_partname partname report_apart)
        (names_own report_apart (self w)) /\
    names_anti report_apart (self w') = names_anti report_apart (self w) /\
    parts_benches (self w') = parts_benches (self w) /\
    apart_benches (self w') = apart_benches (self w) /\
    driver_view w' = driver_view w /\
    epoch w' = epoch w /\ ticks w' = S (ticks w) /\
    gc_isenabled w' =
      (if resolve_turn_gc_off turn_gc_off (self w) then false
       else gc_isenabled w).
Proof.
  intros Hnotin. unfold part_enter.
  destruct (resolve_turn_gc_off turn_gc_off (self w)); simpl;
    (destruct (decide (resolve_partname partname report_apart
                       ∈ names_anti report_apart (self w)));
     [contradiction|]);
    destruct report_apart; simpl;
    eexists; eexists; (split; [reflexivity|]); simpl;
    repeat split; reflexivity.
Qed.

Lemma part_enter_consistent (partname : option string) (report_apart : bool)
    (turn_gc_off : option bool) (w : World) :
  consistent w ->
  consistent (snd (part_enter timer partname report_apart turn_gc_off w)).
Proof.
  intros Hc.
  destruct (decide (resolve_partname partname report_apart
                    ∈ names_anti report_apart (self w))) as [Hin|Hnotin].
  - rewrite (part_enter_conflict _ _ _ _ Hin). simpl.
    eapply consistent_same_registry; [|exact Hc].
    destruct (resolve_turn_gc_off turn_gc_off (self w)); reflexivity.
  - destruct (part_enter_registers partname report_apart turn_gc_off w Hnotin)
      as (sc & w' & -> & _ & _ & _ & _ & _ & _ & Hown & Hanti & Hpb & Hab & _).
    simpl. destruct Hc as (Hk & Hnd & Hdisj).
    unfold consistent. rewrite Hpb, Hab.
    split; [exact Hk|]. split; [exact Hnd|].
    unfold names_own, names_anti in Hown, Hanti, Hnotin.
    destruct report_apart; rewrite Hown, Hanti.
    + intros nm Hp Ha. apply elem_of_set_add in Ha.
      destruct Ha as [->|Ha]; [exact (Hnotin Hp) | exact (Hdisj nm Hp Ha)].
    + intros nm Hp Ha. apply elem_of_set_add in Hp.
      destruct Hp as [->|Hp]; [exact (Hnotin Ha) | exact (Hdisj nm Hp Ha)].
Qed.

Lemma record_delta_keys (partname : string) (i delta : Z) (b b_anti : store) :
  dict_keys b = dict_keys b_anti -> NoDup (dict_keys b) ->
  dict_keys (fst (record_delta partname i delta b b_anti))
    = dict_keys (snd (record_delta partname i delta b b_anti)) /\
  NoDup (dict_keys (fst (record_delta partname i delta b b_anti))) /\
  In i (dict_keys (fst (record_delta partname i delta b b_anti))).
Proof.
  intros Hk Hnd. unfold record_delta. simpl.
  rewrite <- (dict_mem_same_keys i b b_anti Hk).
  set (b1 := if dict_mem i b then b else dict_set i [] b).
  set (bi := match dict_get partname (default [] (dict_get i b1)) with
             | Some (Some t) =>
                 dict_set partname (Some (t + delta))
                   (default [] (dict_get i b1))
             | _ => dict_set partname (Some delta) (default [] (dict_get i b1))
             end).
  assert (Hb1 : dict_mem i b1 = true /\
                dict_keys b1 =
                  dict_keys (if dict_mem i b then b_anti
                             else dict_set i [] b_anti) /\
                NoDup (dict_keys b1)).
  { subst b1. destruct (dict_mem i b) eqn:Hmem.
    - auto.
    - split; [unfold dict_mem; rewrite dict_get_set_eq; reflexivity|].
      split; [|apply dict_keys_set_NoDup, Hnd].
      rewrite !dict_keys_set, Hmem.
      rewrite <- (dict_mem_same_keys i b b_anti Hk), Hmem, Hk. reflexivity. }
  destruct Hb1 as (Hmem1 & Hkeys1 & Hnd1).
  rewrite (dict_keys_set i bi b1), Hmem1.
  split; [exact Hkeys1|]. split; [exact Hnd1|].
  apply dict_mem_keys. exact Hmem1.
Qed.

(** A normal exit of a scope of the current epoch: one more reading, the
    collector back on when it was on at entry, and the delta recorded. *)
Lemma part_exit_ok_commits (sc : Scope) (w : World) :
  sc_epoch sc = epoch w ->
  let delta := timer (ticks w) - sc_start_time sc in
  let w' := part_exit_ok timer sc w in
  benches_own (sc_report_apart sc) (self w') =
    fst (record_delta (sc_partname sc) (sc_i sc) delta
           (benches_own (sc_report_apart sc) (self w))
           (benches_own (negb (sc_report_apart sc)) (self w))) /\
  benches_own (negb (sc_report_apart sc)) (self w') =
    snd (record_delta (sc_partname sc) (sc_i sc) delta
           (benches_own (sc_report_apart sc) (self w))
           (benches_own (negb (sc_report_apart sc)) (self w))) /\
  parts_names (self w') = parts_names (self w) /\
  apart_names (self w') = apart_names (self w) /\
  driver_view w' = driver_view w /\
  epoch w' = epoch w /\ ticks w' = S (ticks w) /\
  gc_isenabled w' = (sc_gcold sc || gc_isenabled w)%bool.
Proof.
  intros He. unfold part_exit_ok, timer_read.
  destruct (sc_gcold sc); simpl;
    (destruct (decide (sc_epoch sc = epoch w)); [|contradiction]);
    destruct (sc_report_apart sc); simpl; repeat split; reflexivity.
Qed.

(** A normal exit of a scope opened before the last [reset]: nothing of the
    instance changes. *)
Lemma part_exit_ok_stale (sc : Scope) (w : World) :
  sc_epoch sc <> epoch w ->
  self (part_exit_ok timer sc w) = self w.
Proof.
  intros He. unfold part_exit_ok, timer_read.
  destruct (sc_gcold sc); simpl;
    (destruct (decide (sc_epoch sc = epoch w)); [contradiction|]);
    reflexivity.
Qed.

Lemma part_exit_ok_consistent (sc : Scope) (w : World) :
  consistent w -> consistent (part_exit_ok timer sc w).
Proof.
  intros Hc. destruct (decide (sc_epoch sc = epoch w)) as [He|He].
  - pose proof (part_exit_ok_commits sc w He) as H. cbv zeta in H.
    destruct H as (Hown & Hanti & Hpn & Han & _).
    destruct Hc as (Hk & Hnd & Hdisj). unfold consistent.
    rewrite Hpn, Han.
    destruct (sc_report_apart sc); cbn [benches_own negb] in Hown, Hanti;
      rewrite Hown, Hanti.
    + destruct (record_delta_keys (sc_partname sc) (sc_i sc)
                  (timer (ticks w) - sc_start_time sc)
                  (apart_benches (self w)) (parts_benches (self w)))
        as (Hk' & Hnd' & _); [congruence | rewrite <- Hk; exact Hnd |].
      split; [congruence|]. split; [|exact Hdisj].
      rewrite <- Hk'. exact Hnd'.
    + destruct (record_delta_keys (sc_partname sc) (sc_i sc)
                  (timer (ticks w) - sc_start_time sc)
                  (parts_benches (self w)) (apart_benches (self w)))
        as (Hk' & Hnd' & _); [exact Hk | exact Hnd |].
      split; [exact Hk'|]. split; [exact Hnd' | exact Hdisj].
  - eapply consistent_same_registry; [|exact Hc].
    unfold registry_view. rewrite (part_exit_ok_stale sc w He). reflexivity.
Qed.

Lemma init_consistent (nm : string) (repeat : Z) (tgo gc : bool) :
  consistent (__init__ nm repeat tgo gc).
Proof.
  unfold consistent. simpl. split; [reflexivity|].
  split; [constructor | intros x Hx _; apply elem_of_nil in Hx; exact Hx].
Qed.

Lemma run_op_consistent (o : op) (w : World) :
  consistent w -> consistent (run_op timer o w).
Proof.
  intros Hc. destruct o as [|n| | |pn ra tg|sc|sc e|b|]; simpl.
  - unfold consistent. simpl. split; [reflexivity|].
    split; [constructor | intros x Hx _; apply elem_of_nil in Hx; exact Hx].
  - unfold consistent. destruct n; simpl;
      (split; [reflexivity|]; split; [constructor | intros x Hx _; apply elem_of_nil in Hx; exact Hx]).
  - eapply consistent_same_registry; [|exact Hc]. reflexivity.
  - eapply consistent_same_registry; [|exact Hc]. apply next_keeps_registry.
  - apply part_enter_consistent. exact Hc.
  - apply part_exit_ok_consistent. exact Hc.
  - eapply consistent_same_registry; [|exact Hc].
    unfold part_exit_exc. destruct (isinstance_Exception e); simpl;
      [destruct (sc_gcold sc)|]; reflexivity.
  - eapply consistent_same_registry; [|exact Hc]. reflexivity.
  - eapply consistent_same_registry; [|exact Hc]. reflexivity.
Qed.

Lemma run_ops_consistent (os : list op) (w : World) :
  consistent w -> consistent (run_ops timer os w).
Proof.
  unfold run_ops. revert w.
  induction os as [|o os IH]; intros w Hc; simpl; [exact Hc|].
  apply IH, run_op_consistent, Hc.
Qed.

Lemma reachable_consistent (w : World) :
  reachable timer w -> consistent w.
Proof.
  intros (nm & repeat & tgo & gc & os & ->).
  apply run_ops_consistent, init_consistent.
Qed.

End PartFacts.

(** ** Claims on the part scope *)

Section PartClaims.
Variable timer : nat -> Z.

Lemma filter_none {A : Type} (P : A -> Prop) `{forall x, Decision (P x)}
    (l : list A) :
  (forall x, In x l -> ~ P x) -> filter P l = [].
Proof.
  induction l as [|x l IH]; intros Hl; [reflexivity|].
  rewrite filter_cons_False by (apply Hl; simpl; auto).
  apply IH. intros y Hy. apply Hl. simpl. auto.
Qed.

(** C9. In every world a freshly built report can be taken to, by any
    sequence of operations, the two per-iteration stores list the same
    iteration indices (in the same order): both are empty after [reset], and
    a committing scope exit puts its iteration index in both. Hence the keys
    of the inline store, over which [iter_measures_parts_globalized("all")]
    loops, are all the iterations present in either store. *)
Theorem stores_share_their_iterations (w : World) :
  reachable timer w ->
  dict_keys (parts_benches (self w)) = dict_keys (apart_benches (self w)) /\
  (parts_benches (self (reset w)) = [] /\
   apart_benches (self (reset w)) = []) /\
  (forall sc : Scope, sc_epoch sc = epoch w ->
     In (sc_i sc) (dict_keys (parts_benches (self (part_exit_ok timer sc w)))) /\
     In (sc_i sc) (dict_keys (apart_benches (self (part_exit_ok timer sc w))))) /\
  keys_of_either (parts_benches (self w)) (apart_benches (self w))
    = dict_keys (parts_benches (self w)) /\
  iter_measures_parts_globalized "all" w =
    Return (flat_map
              (total_of_iteration (parts_benches (self w))
                 (apart_benches (self w)))
              (keys_of_either (parts_benches (self w))
                 (apart_benches (self w)))).
Proof.
  intros Hr. pose proof (reachable_consistent timer w Hr) as (Hk & Hnd & _).
  assert (Heither : keys_of_either (parts_benches (self w))
                      (apart_benches (self w))
                    = dict_keys (parts_benches (self w))).
  { unfold keys_of_either. rewrite <- Hk, filter_none.
    - apply app_nil_r.
    - intros x Hx Hnx. apply Hnx. apply list_elem_of_In. exact Hx. }
  split; [exact Hk|]. split; [split; reflexivity|]. split; [|split].
  - intros sc He.
    pose proof (part_exit_ok_commits timer sc w He) as H. cbv zeta in H.
    destruct H as (Hown & Hanti & _).
    assert (Hc' : consistent (part_exit_ok timer sc w))
      by (apply part_exit_ok_consistent, (reachable_consistent timer), Hr).
    destruct Hc' as (Hk' & _).
    assert (Hin : In (sc_i sc)
                    (dict_keys (benches_own (sc_report_apart sc)
                                  (self (part_exit_ok timer sc w))))).
    { rewrite Hown. apply record_delta_keys.
      - destruct (sc_report_apart sc); simpl; congruence.
      - destruct (sc_report_apart sc); simpl; [rewrite <- Hk|]; exact Hnd. }
    destruct (sc_report_apart sc); simpl in Hin.
    + split; [rewrite Hk'|]; exact Hin.
    + split; [|rewrite <- Hk']; exact Hin.
  - exact Heither.
  - rewrite Heither. reflexivity.
Qed.

(** C10. When the name of the scope being opened belongs to the other
    reporting class, suppression resolves to on and the collector was
    enabled, [part] raises its [AttributeError] with the collector already
    disabled, and nothing re-enables it: the body and both exit paths are
    never reached. No reading is taken and the instance is unchanged. *)
Theorem conflict_leaves_gc_disabled (partname : option string)
    (report_apart : bool) (turn_gc_off : option bool)
    (body : World -> result unit * World) (w : World) :
  resolve_turn_gc_off turn_gc_off (self w) = true ->
  gc_isenabled w = true ->
  resolve_partname partname report_apart ∈ names_anti report_apart (self w) ->
  exists msg w',
    part_enter timer partname report_apart turn_gc_off w
      = (Raise (AttributeError msg), w') /\
    with_part timer partname report_apart turn_gc_off body w
      = (Raise (AttributeError msg), w') /\
    gc_isenabled w' = false /\
    self w' = self w /\ ticks w' = ticks w.
Proof.
  intros Hturn Hgc Hin. unfold with_part.
  rewrite (part_enter_conflict timer _ _ _ _ Hin), Hturn.
  eexists. eexists. repeat split; reflexivity.
Qed.

Lemma names_anti_own (report_apart : bool) (r : BenchReport) :
  names_anti report_apart r = names_own (negb report_apart) r.
Proof. destruct report_apart; reflexivity. Qed.

(** Within a run the two sets of names only grow. *)
Lemma run_op_keeps_names (o : op) (w : World) (nm : string) (ra : bool) :
  starts_run o = false ->
  nm ∈ names_own ra (self w) ->
  nm ∈ names_own ra (self (run_op timer o w)).
Proof.
  intros Hrun Hin.
  destruct o as [|n| | |pn ra' tg|sc|sc e|b|]; simpl in *;
    try discriminate; try exact Hin.
  - pose proof (next_keeps_registry timer w) as H.
    unfold registry_view in H. injection H as _ _ Hp Ha.
    destruct ra; simpl in *; congruence.
  - destruct (decide (resolve_partname pn ra'
                      ∈ names_anti ra' (self w))) as [Hc|Hc].
    + rewrite (part_enter_conflict timer _ _ _ _ Hc). simpl.
      destruct (resolve_turn_gc_off tg (self w)); exact Hin.
    + destruct (part_enter_registers timer pn ra' tg w Hc)
        as (sc & w' & -> & _ & _ & _ & _ & _ & _ & Hown & Hanti & _).
      simpl. rewrite names_anti_own in Hanti.
      destruct ra, ra'; simpl in *;
        first [ rewrite Hown; apply elem_of_set_add; right; exact Hin
              | rewrite Hanti; exact Hin ].
  - destruct (decide (sc_epoch sc = epoch w)) as [He|He].
    + pose proof (part_exit_ok_commits timer sc w He) as H. cbv zeta in H.
      destruct H as (_ & _ & Hp & Ha & _).
      unfold names_own in *. destruct ra; rewrite ?Hp, ?Ha; exact Hin.
    + rewrite (part_exit_ok_stale timer sc w He). exact Hin.
  - unfold part_exit_exc. destruct (isinstance_Exception e); simpl;
      [destruct (sc_gcold sc)|]; exact Hin.
Qed.

Lemma run_ops_keep_names (os : list op) (w : World) (nm : string) (ra : bool) :
  Forall (fun o => starts_run o = false) os ->
  nm ∈ names_own ra (self w) ->
  nm ∈ names_own ra (self (run_ops timer os w)).
Proof.
  unfold run_ops. intros Hos. revert w.
  induction Hos as [|o os Ho _ IH]; intros w Hin; simpl; [exact Hin|].
  apply IH, run_op_keeps_names; assumption.
Qed.

(** C3. Once a scope named X has been opened under one reporting class,
    then, whatever is done with the report short of starting a new run,
    opening a scope named X under the other class raises [AttributeError]
    from the opening itself: no reading of the timer is taken, and the
    instance (X's class, every recorded sample) is as it was before the
    attempt. *)
Theorem reopening_under_other_class_fails
    (partname1 partname2 : option string) (report_apart : bool)
    (turn_gc_off1 turn_gc_off2 : option bool) (w0 w1 : World) (sc : Scope)
    (os : list op) :
  part_enter timer partname1 report_apart turn_gc_off1 w0 = (Return sc, w1) ->
  Forall (fun o => starts_run o = false) os ->
  resolve_partname partname2 (negb report_apart)
    = resolve_partname partname1 report_apart ->
  exists msg w3,
    part_enter timer partname2 (negb report_apart) turn_gc_off2
      (run_ops timer os w1) = (Raise (AttributeError msg), w3) /\
    ticks w3 = ticks (run_ops timer os w1) /\
    self w3 = self (run_ops timer os w1) /\
    resolve_partname partname1 report_apart
      ∈ names_own report_apart (self w3).
Proof.
  intros Henter Hos Hname.
  assert (Hreg : resolve_partname partname1 report_apart
                 ∈ names_own report_apart (self w1)).
  { destruct (decide (resolve_partname partname1 report_apart
                      ∈ names_anti report_apart (self w0))) as [Hc|Hc].
    - rewrite (part_enter_conflict timer _ _ _ _ Hc) in Henter. discriminate.
    - destruct (part_enter_registers timer partname1 report_apart
                  turn_gc_off1 w0 Hc)
        as (sc' & w' & Heq & _ & _ & _ & _ & _ & _ & Hown & _).
      rewrite Heq in Henter. injection Henter as _ <-.
      rewrite Hown. apply elem_of_set_add. left. reflexivity. }
  pose proof (run_ops_keep_names os w1 _ _ Hos Hreg) as Hlater.
  assert (Hin : resolve_partname partname2 (negb report_apart)
                ∈ names_anti (negb report_apart)
                    (self (run_ops timer os w1))).
  { rewrite Hname, names_anti_own, negb_involutive. exact Hlater. }
  rewrite (part_enter_conflict timer _ _ turn_gc_off2 _ Hin).
  eexists. eexists. split; [reflexivity|].
  destruct (resolve_turn_gc_off turn_gc_off2 (self (run_ops timer os w1)));
    repeat split; exact Hlater.
Qed.

End PartClaims.

Lemma stores_share_their_iterations_witness :
  dict_keys (parts_benches (self one_scope_closed)) = [1] /\
  dict_keys (apart_benches (self one_scope_closed)) = [1].
Proof.
  destruct (stores_share_their_iterations tick_timer one_scope_closed)
    as [H _].
  - exists "Medicion 3", 1, true, true.
    exists [OpCall (Some 2); OpIter; OpNext;
            OpPartEnter (Some "setup") false None;
            OpPartExitOk (mkScope "setup" false true 1 30 2)].
    reflexivity.
  - split; [reflexivity|]. rewrite <- H. reflexivity.
Defined.

Lemma conflict_leaves_gc_disabled_witness :
  gc_isenabled (snd x_inline) = true /\
  exists msg w',
    with_part tick_timer (Some "X") true None idle_body_unit (snd x_inline)
      = (Raise (AttributeError msg), w') /\
    gc_isenabled w' = false.
Proof.
  split; [reflexivity|].
  destruct (conflict_leaves_gc_disabled tick_timer (Some "X") true None
              idle_body_unit (snd x_inline))
    as (msg & w' & _ & Hwith & Hgc & _).
  - reflexivity.
  - reflexivity.
  - vm_compute. apply list_elem_of_here.
  - exists msg, w'. split; [exact Hwith | exact Hgc].
Defined.

Lemma reopening_under_other_class_fails_witness :
  exists msg w3,
    part_enter tick_timer (Some "X") true None
      (run_ops tick_timer
         [OpPartExitOk (mkScope "X" false true 0 0 1); OpNext] (snd x_inline))
    = (Raise (AttributeError msg), w3) /\
    "X" ∈ parts_names (self w3).
Proof.
  destruct (reopening_under_other_class_fails tick_timer
              (Some "X") (Some "X") false (Some false) None
              fresh (snd x_inline) (mkScope "X" false true 0 0 1)
              [OpPartExitOk (mkScope "X" false true 0 0 1); OpNext])
    as (msg & w3 & Henter & _ & _ & Hin).
  - reflexivity.
  - repeat constructor.
  - reflexivity.
  - exists msg, w3. split; [exact Henter | exact Hin].
Defined.

Section ScopeExitClaims.
Variable timer : nat -> Z.

(** What [part] does with an exception thrown in at its [yield]: the same
    exception leaves the generator, the instance is untouched and no reading
    is taken; the collector is switched back on only by the
    [except Exception] clause, when it was on at entry. *)
Lemma part_exit_exc_passes_through (sc : Scope) (e : exn) (w : World) :
  exists w',
    part_exit_exc sc e w = (Raise e, w') /\
    self w' = self w /\ ticks w' = ticks w /\ epoch w' = epoch w /\
    gc_isenabled w' =
      (if isinstance_Exception e then (sc_gcold sc || gc_isenabled w)%bool
       else gc_isenabled w).
Proof.
  unfold part_exit_exc.
  destruct (isinstance_Exception e); [destruct (sc_gcold sc)|];
    eexists; (split; [reflexivity|]); repeat split; reflexivity.
Qed.

(** X17. A scope whose body raises an instance of [Exception]: nothing is
    committed for the scope, the exception reaches the caller as it is, and
    the collector is back in the state it had before the scope, provided the
    body itself did not switch on a collector that was off. *)
Lemma failing_scope_restores_gc (partname : option string)
    (report_apart : bool) (turn_gc_off : option bool)
    (body : World -> result unit * World) (w w1 w2 : World) (sc : Scope)
    (e : exn) :
  part_enter timer partname report_apart turn_gc_off w = (Return sc, w1) ->
  body w1 = (Raise e, w2) ->
  isinstance_Exception e = true ->
  (gc_isenabled w = false -> gc_isenabled w2 = false) ->
  exists w',
    with_part timer partname report_apart turn_gc_off body w = (Raise e, w') /\
    self w' = self w2 /\ ticks w' = ticks w2 /\
    gc_isenabled w' = gc_isenabled w.
Proof.
  intros Henter Hbody Hexc Hgc. unfold with_part. rewrite Henter, Hbody.
  destruct (part_exit_exc_passes_through sc e w2)
    as (w' & -> & Hself & Hticks & _ & Hgc').
  exists w'. split; [reflexivity|]. split; [exact Hself|].
  split; [exact Hticks|]. rewrite Hgc', Hexc.
  assert (Hold : sc_gcold sc = gc_isenabled w).
  { destruct (decide (resolve_partname partname report_apart
                      ∈ names_anti report_apart (self w))) as [Hc|Hc].
    - rewrite (part_enter_conflict timer _ _ _ _ Hc) in Henter. discriminate.
    - destruct (part_enter_registers timer partname report_apart
                  turn_gc_off w Hc) as (sc' & w1' & Heq & _ & _ & Hold & _).
      rewrite Heq in Henter. injection Henter as <- _. exact Hold. }
  rewrite Hold. destruct (gc_isenabled w); [reflexivity|].
  rewrite Hgc; reflexivity.
Qed.

End ScopeExitClaims.

(** C2, where the code departs from it. With the collector enabled and
    suppression on, a scope whose body is interrupted by a
    [KeyboardInterrupt] (an exception that is not an instance of
    [Exception]) commits nothing and lets the same exception through, but
    leaves the collector disabled: the [except Exception] clause that
    restores it does not run. With an instance of [Exception] in its place
    the collector is enabled again. *)
Theorem keyboard_interrupt_leaves_gc_disabled :
  gc_isenabled fresh = true /\
  (exists w',
     with_part tick_timer (Some "a") false None interrupted_body fresh
       = (Raise KeyboardInterrupt, w') /\
     parts_benches (self w') = parts_benches (self fresh) /\
     apart_benches (self w') = apart_benches (self fresh) /\
     gc_isenabled w' = false) /\
  (exists w',
     with_part tick_timer (Some "a") false None
       (fun w => (Raise (UserException 0), w)) fresh
       = (Raise (UserException 0), w') /\
     gc_isenabled w' = true).
Proof.
  split; [reflexivity|].
  split; eexists; (split; [reflexivity|]); repeat split; reflexivity.
Qed.

(** * Accumulation and the per-part iterator *)

Section SampleClaims.
Variable timer : nat -> Z.

(** The entry of iteration [i] after a commit of [delta] for [partname]. *)
Lemma record_delta_sample (partname : string) (i delta : Z)
    (b b_anti : store) :
  dict_get i (fst (record_delta partname i delta b b_anti)) =
    Some (match dict_get partname (default [] (dict_get i b)) with
          | Some (Some t) =>
              dict_set partname (Some (t + delta)) (default [] (dict_get i b))
          | Some None | None =>
              dict_set partname (Some delta) (default [] (dict_get i b))
          end).
Proof.
  unfold record_delta. simpl. rewrite dict_get_set_eq.
  assert (Hbi : default [] (dict_get i (if dict_mem i b then b
                                        else dict_set i [] b))
                = default [] (dict_get i b)).
  { unfold dict_mem. destruct (dict_get i b) eqn:Hget; [rewrite Hget|];
      [reflexivity|]. rewrite dict_get_set_eq. reflexivity. }
  rewrite Hbi. reflexivity.
Qed.

Lemma flat_map_agree {A B : Type} (f g : A -> list B) (l : list A) :
  (forall x, In x l -> f x = g x) -> flat_map f l = flat_map g l.
Proof.
  induction l as [|x l IH]; intros H; [reflexivity|]. simpl.
  rewrite (H x) by (simpl; auto). f_equal. apply IH.
  intros y Hy. apply H. simpl. auto.
Qed.

Lemma flat_map_keys {A : Type} (f : dict string (option Z) -> list A)
    (b : store) :
  NoDup (dict_keys b) ->
  flat_map (fun i => f (default [] (dict_get i b))) (dict_keys b)
    = flat_map (fun ib => f (snd ib)) b.
Proof.
  induction b as [|[k bi] b IH]; intros Hnd; [reflexivity|].
  simpl in Hnd. apply NoDup_cons in Hnd. destruct Hnd as [Hk Hnd].
  simpl. destruct (decide (k = k)) as [_|Hne]; [|congruence]. simpl.
  f_equal. rewrite <- (IH Hnd). apply flat_map_agree.
  intros i Hi. destruct (decide (i = k)) as [->|Hne]; [|reflexivity].
  exfalso. apply Hk. apply list_elem_of_In. exact Hi.
Qed.

(** C8. In a world a freshly built report can be taken to, consuming
    [iter_measures_part(name)] raises, and then a [KeyError], exactly when
    the name is in neither set of part names; for a name of either class it
    yields the durations recorded for that part in the store of its class,
    in iteration order, an iteration without a sample for it contributing
    nothing. *)
Theorem iter_measures_part_yields_recorded (nm : string) (w : World) :
  reachable timer w ->
  (nm ∉ parts_names (self w) -> nm ∉ apart_names (self w) ->
   exists msg, iter_measures_part nm w = Raise (KeyError msg)) /\
  (forall e, iter_measures_part nm w = Raise e ->
     (nm ∉ parts_names (self w)) /\ (nm ∉ apart_names (self w)) /\
     exists msg, e = KeyError msg) /\
  (nm ∈ parts_names (self w) ->
   iter_measures_part nm w
     = Return (recorded_durations nm (parts_benches (self w)))) /\
  (nm ∈ apart_names (self w) ->
   iter_measures_part nm w
     = Return (recorded_durations nm (apart_benches (self w)))).
Proof.
  intros Hr. destruct (reachable_consistent timer w Hr) as (Hk & Hnd & Hdisj).
  assert (Hnd' : NoDup (dict_keys (apart_benches (self w))))
    by (rewrite <- Hk; exact Hnd).
  unfold iter_measures_part, recorded_durations.
  destruct (decide (nm ∈ parts_names (self w))) as [Hp|Hp];
    [|destruct (decide (nm ∈ apart_names (self w))) as [Ha|Ha]];
    cbv beta iota delta [rbind].
  - split; [contradiction|]. split; [discriminate|].
    split; [|intros Ha; exfalso; apply (Hdisj nm Hp Ha)].
    intros _. f_equal.
    apply (flat_map_keys
             (fun bi => match dict_get nm bi with
                        | Some (Some t) => [t]
                        | Some None | None => []
                        end)).
    exact Hnd.
  - split; [contradiction|]. split; [discriminate|].
    split; [contradiction|]. intros _. f_equal.
    apply (flat_map_keys
             (fun bi => match dict_get nm bi with
                        | Some (Some t) => [t]
                        | Some None | None => []
                        end)).
    exact Hnd'.
  - split; [intros _ _; eexists; reflexivity|].
    split; [|split; contradiction].
    intros e He. injection He as <-. split; [exact Hp|].
    split; [exact Ha|]. eexists. reflexivity.
Qed.

End SampleClaims.

Lemma iter_measures_part_yields_recorded_witness :
  iter_measures_part "setup" one_scope_closed = Return [10] /\
  exists msg, iter_measures_part "core" one_scope_closed = Raise (KeyError msg).
Proof.
  assert (Hreach : reachable tick_timer one_scope_closed).
  { exists "Medicion 3", 1, true, true.
    exists [OpCall (Some 2); OpIter; OpNext;
            OpPartEnter (Some "setup") false None;
            OpPartExitOk (mkScope "setup" false true 1 30 2)].
    reflexivity. }
  destruct (iter_measures_part_yields_recorded tick_timer "setup"
              one_scope_closed Hreach) as (_ & _ & Hparts & _).
  destruct (iter_measures_part_yields_recorded tick_timer "core"
              one_scope_closed Hreach) as (Hnone & _).
  split.
  - rewrite Hparts; [vm_compute; reflexivity|].
    vm_compute. apply list_elem_of_here.
  - apply Hnone; vm_compute.
    + apply not_elem_of_cons. split; [discriminate | apply not_elem_of_nil].
    + apply not_elem_of_nil.
Defined.

(** * More of the engine *)

(** ** Unique keys *)

Lemma dict_set_Forall {K V : Type} `{EqDecision K} (P : K * V -> Prop)
    (k : K) (v : V) (d : dict K V) :
  Forall P d -> P (k, v) -> Forall P (dict_set k v d).
Proof.
  intros Hd Hv. induction Hd as [|[k' v'] d Hx Hd IH]; simpl.
  - constructor; [exact Hv | constructor].
  - destruct (decide (k = k')); constructor; assumption.
Qed.

Lemma dict_get_Forall {K V : Type} `{EqDecision K} (P : K * V -> Prop)
    (k : K) (v : V) (d : dict K V) :
  Forall P d -> dict_get k d = Some v -> P (k, v).
Proof.
  intros Hd. induction Hd as [|[k' v'] d Hx Hd IH]; simpl; [discriminate|].
  destruct (decide (k = k')) as [->|Hne]; [|exact IH].
  intros H. injection H as <-. exact Hx.
Qed.

Lemma record_delta_well_keyed (partname : string) (i delta : Z)
    (b b_anti : store) :
  well_keyed b -> well_keyed b_anti ->
  well_keyed (fst (record_delta partname i delta b b_anti)) /\
  well_keyed (snd (record_delta partname i delta b b_anti)).
Proof.
  intros [Hnd Hall] [Hnd' Hall']. unfold record_delta. simpl.
  set (b1 := if dict_mem i b then b else dict_set i [] b).
  assert (Hb1 : well_keyed b1).
  { subst b1. destruct (dict_mem i b); [split; assumption|]. split.
    - apply dict_keys_set_NoDup, Hnd.
    - apply dict_set_Forall; [exact Hall | simpl; constructor]. }
  destruct Hb1 as [Hnd1 Hall1]. split; split.
  - apply dict_keys_set_NoDup, Hnd1.
  - apply dict_set_Forall; [exact Hall1|]. simpl.
    assert (Hbi : NoDup (dict_keys (default [] (dict_get i b1)))).
    { destruct (dict_get i b1) as [bi|] eqn:Hget; simpl; [|constructor].
      apply (dict_get_Forall _ _ _ _ Hall1 Hget). }
    destruct (dict_get partname (default [] (dict_get i b1))) as [[t|]|];
      apply dict_keys_set_NoDup, Hbi.
  - destruct (dict_mem i b_anti); [exact Hnd'|].
    apply dict_keys_set_NoDup, Hnd'.
  - destruct (dict_mem i b_anti); [exact Hall'|].
    apply dict_set_Forall; [exact Hall' | simpl; constructor].
Qed.

Section KeyFacts.
Variable timer : nat -> Z.

Lemma run_op_well_keyed (o : op) (w : World) :
  well_keyed (parts_benches (self w)) /\ well_keyed (apart_benches (self w)) ->
  well_keyed (parts_benches (self (run_op timer o w))) /\
  well_keyed (apart_benches (self (run_op timer o w))).
Proof.
  intros Hw.
  assert (Hempty : well_keyed ([] : store)) by (split; constructor).
  assert (Hsame : forall w',
             registry_view w' = registry_view w ->
             well_keyed (parts_benches (self w')) /\
             well_keyed (apart_benches (self w'))).
  { intros w' H. unfold registry_view in H. injection H as -> -> _ _.
    exact Hw. }
  destruct o as [|n| | |pn ra tg|sc|sc e|b|]; simpl.
  - split; exact Hempty.
  - destruct n; split; exact Hempty.
  - apply Hsame. reflexivity.
  - apply Hsame, next_keeps_registry.
  - destruct (decide (resolve_partname pn ra ∈ names_anti ra (self w)))
      as [Hc|Hc].
    + rewrite (part_enter_conflict timer _ _ _ _ Hc). simpl.
      destruct (resolve_turn_gc_off tg (self w)); exact Hw.
    + destruct (part_enter_registers timer pn ra tg w Hc)
        as (sc & w' & -> & _ & _ & _ & _ & _ & _ & _ & _ & Hpb & Hab & _).
      simpl. rewrite Hpb, Hab. exact Hw.
  - destruct (decide (sc_epoch sc = epoch w)) as [He|He].
    + pose proof (part_exit_ok_commits timer sc w He) as H. cbv zeta in H.
      destruct H as (Hown & Hanti & _). destruct Hw as [Hp Ha].
      destruct (sc_report_apart sc); cbn [benches_own negb] in Hown, Hanti;
        rewrite Hown, Hanti.
      * destruct (record_delta_well_keyed (sc_partname sc) (sc_i sc)
                    (timer (ticks w) - sc_start_time sc)
                    (apart_benches (self w)) (parts_benches (self w)) Ha Hp).
        split; assumption.
      * apply record_delta_well_keyed; assumption.
    + rewrite (part_exit_ok_stale timer sc w He). exact Hw.
  - apply Hsame. unfold part_exit_exc.
    destruct (isinstance_Exception e); simpl;
      [destruct (sc_gcold sc)|]; reflexivity.
  - apply Hsame. reflexivity.
  - apply Hsame. reflexivity.
Qed.

Lemma reachable_well_keyed (w : World) :
  reachable timer w ->
  well_keyed (parts_benches (self w)) /\ well_keyed (apart_benches (self w)).
Proof.
  intros (nm & repeat & tgo & gc & os & ->). unfold run_ops.
  assert (H0 : well_keyed (parts_benches (self (__init__ nm repeat tgo gc))) /\
               well_keyed (apart_benches (self (__init__ nm repeat tgo gc))))
    by (simpl; repeat split; constructor).
  revert H0. generalize (__init__ nm repeat tgo gc).
  induction os as [|o os IH]; intros w Hw; simpl; [exact Hw|].
  apply IH, run_op_well_keyed, Hw.
Qed.

End KeyFacts.

(** ** The per-iteration totals *)

Lemma fold_add_from (l : list Z) (a : Z) :
  fold_left Z.add l a = a + fold_left Z.add l 0.
Proof.
  revert a. induction l as [|x l IH]; intros a; simpl; [lia|].
  rewrite (IH (a + x)), (IH (0 + x)). lia.
Qed.

Lemma py_sum_cons (x : Z) (l : list Z) : py_sum (x :: l) = x + py_sum l.
Proof. unfold py_sum. simpl. apply fold_add_from. Qed.

Lemma py_sum_app (l1 l2 : list Z) : py_sum (l1 ++ l2) = py_sum l1 + py_sum l2.
Proof.
  induction l1 as [|x l1 IH]; simpl; [reflexivity|].
  rewrite !py_sum_cons, IH. lia.
Qed.

Lemma fold_left_agree {A B : Type} (f g : A -> B -> A) (l : list B) (a : A) :
  (forall a x, In x l -> f a x = g a x) -> fold_left f l a = fold_left g l a.
Proof.
  revert a. induction l as [|x l IH]; intros a H; [reflexivity|]. simpl.
  rewrite (H a x) by (simpl; auto). apply IH.
  intros a' y Hy. apply H. simpl. auto.
Qed.

(** The test [if iter_t] treats a running total of 0 like [None], and the
    sum is the same: *)
Lemma add_measure_adds (iter_t : option Z) (t : Z) :
  add_measure iter_t t = Some (default 0 iter_t + t).
Proof.
  unfold add_measure. destruct iter_t as [a|]; simpl; [|reflexivity].
  destruct (decide (a = 0)) as [->|_]; reflexivity.
Qed.

Lemma fold_add_measure (samples : list Z) (iter_t : option Z) :
  fold_left add_measure samples iter_t =
    match samples with
    | [] => iter_t
    | _ :: _ => Some (default 0 iter_t + py_sum samples)
    end.
Proof.
  revert iter_t. induction samples as [|t samples IH]; intros iter_t;
    [reflexivity|].
  simpl. rewrite IH, add_measure_adds, py_sum_cons.
  destruct samples as [|t' samples]; simpl.
  - unfold py_sum. simpl. f_equal. lia.
  - rewrite py_sum_cons. f_equal. lia.
Qed.

Lemma sum_parts_fold (bi : dict string (option Z)) (iter_t : option Z) :
  NoDup (dict_keys bi) ->
  sum_parts bi iter_t = fold_left add_measure (present (map snd bi)) iter_t.
Proof.
  set (F := fun (b : dict string (option Z)) (acc : option Z) (p : string) =>
              match dict_get p b with
              | Some (Some t) => add_measure acc t
              | Some None | None => acc
              end).
  assert (Hdef : forall b a, sum_parts b a = fold_left (F b) (dict_keys b) a)
    by reflexivity.
  revert iter_t. induction bi as [|[k v] bi IH]; intros iter_t Hnd;
    [reflexivity|].
  simpl in Hnd. apply NoDup_cons in Hnd. destruct Hnd as [Hk Hnd].
  rewrite Hdef. simpl dict_keys. simpl fold_left.
  assert (Hhead : F ((k, v) :: bi) iter_t k
                  = match v with
                    | Some t => add_measure iter_t t
                    | None => iter_t
                    end).
  { unfold F. simpl. destruct (decide (k = k)); [reflexivity | congruence]. }
  rewrite Hhead.
  rewrite (fold_left_agree (F ((k, v) :: bi)) (F bi)).
  - rewrite <- Hdef, (IH _ Hnd). destruct v as [t|]; reflexivity.
  - intros a p Hp. unfold F. simpl.
    destruct (decide (p = k)) as [->|_]; [|reflexivity].
    exfalso. apply Hk, list_elem_of_In, Hp.
Qed.

(** The total of one iteration's dict is the plain sum of its samples, and
    there is none when it has no sample. *)
Lemma sum_parts_adds_up (bi : dict string (option Z)) (iter_t : option Z) :
  NoDup (dict_keys bi) ->
  sum_parts bi iter_t =
    match present (map snd bi) with
    | [] => iter_t
    | _ :: _ => Some (default 0 iter_t + iteration_sum bi)
    end.
Proof.
  intros Hnd. rewrite (sum_parts_fold bi iter_t Hnd), fold_add_measure.
  reflexivity.
Qed.

Lemma sum_parts_value (bi : dict string (option Z)) (iter_t : option Z) :
  NoDup (dict_keys bi) ->
  default 0 (sum_parts bi iter_t) = default 0 iter_t + iteration_sum bi.
Proof.
  intros Hnd. rewrite (sum_parts_adds_up bi iter_t Hnd). unfold iteration_sum.
  destruct (present (map snd bi)) as [|t samples]; simpl; [|reflexivity].
  unfold py_sum. simpl. lia.
Qed.

Lemma py_sum_nil : py_sum [] = 0.
Proof. reflexivity. Qed.

Lemma py_sum_one (x : Z) : py_sum [x] = x.
Proof. unfold py_sum. simpl. lia. Qed.

Lemma py_sum_flat_map_split {A : Type} (h f g : A -> list Z) (l : list A) :
  (forall x, In x l -> py_sum (h x) = py_sum (f x) + py_sum (g x)) ->
  py_sum (flat_map h l) = py_sum (flat_map f l) + py_sum (flat_map g l).
Proof.
  induction l as [|x l IH]; intros H; simpl; [reflexivity|].
  rewrite !py_sum_app, (H x) by (simpl; auto).
  rewrite IH by (intros y Hy; apply H; simpl; auto). lia.
Qed.

Lemma well_keyed_get (b : store) (i : Z) :
  well_keyed b -> NoDup (dict_keys (default [] (dict_get i b))).
Proof.
  intros [_ Hall]. destruct (dict_get i b) as [bi|] eqn:Hget; simpl.
  - apply (dict_get_Forall _ _ _ _ Hall Hget).
  - constructor.
Qed.

Lemma yielded_total (iter_t : option Z) :
  py_sum (match iter_t with Some t => [t] | None => [] end)
    = default 0 iter_t.
Proof. destruct iter_t; simpl; [apply py_sum_one | reflexivity]. Qed.

Section SectionTotals.
Variable timer : nat -> Z.

(** X1. In any world a fresh report can be taken to,
    [iter_measures_parts_globalized] with selector "parts" (resp. "aparts")
    yields, for each iteration of that store that has at least one sample,
    the plain sum of the iteration's samples, in iteration order; any
    selector other than "parts", "aparts" and "all" raises [KeyError]. *)
Theorem section_totals_are_sums (w : World) :
  reachable timer w ->
  iter_measures_parts_globalized "parts" w
    = Return (totals_of (parts_benches (self w))) /\
  iter_measures_parts_globalized "aparts" w
    = Return (totals_of (apart_benches (self w))) /\
  forall section : string,
    section <> "parts" -> section <> "aparts" -> section <> "all" ->
    exists msg, iter_measures_parts_globalized section w = Raise (KeyError msg).
Proof.
  intros Hr. destruct (reachable_well_keyed timer w Hr) as [Hp Ha].
  assert (Hstore : forall b : store, well_keyed b ->
            flat_map
              (fun i =>
                 match sum_parts (default [] (dict_get i b)) None with
                 | Some t => [t]
                 | None => []
                 end) (dict_keys b)
            = totals_of b).
  { intros b Hb.
    rewrite (flat_map_keys
               (fun bi => match sum_parts bi None with
                          | Some t => [t]
                          | None => []
                          end) b) by apply Hb.
    unfold totals_of. apply flat_map_agree. intros [i bi] Hin. simpl.
    destruct Hb as [_ Hall].
    assert (Hnd : NoDup (dict_keys bi)).
    { rewrite Forall_forall in Hall.
      apply (Hall (i, bi)), list_elem_of_In, Hin. }
    rewrite (sum_parts_adds_up bi None Hnd).
    destruct (present (map snd bi)); simpl; reflexivity. }
  unfold iter_measures_parts_globalized.
  split; [|split].
  - destruct (decide ("parts" = "parts")) as [_|Hne]; [|congruence].
    cbv beta iota delta [rbind]. f_equal. apply Hstore, Hp.
  - destruct (decide ("aparts" = "parts")) as [Heq|_]; [discriminate|].
    destruct (decide ("aparts" = "aparts")) as [_|Hne]; [|congruence].
    cbv beta iota delta [rbind]. f_equal. apply Hstore, Ha.
  - intros section H1 H2 H3.
    destruct (decide (section = "parts")); [contradiction|].
    destruct (decide (section = "aparts")); [contradiction|].
    destruct (decide (section = "all")); [contradiction|].
    eexists. reflexivity.
Qed.

(** X2. In any world a fresh report can be taken to, the three selectors
    return, and the totals yielded for "all" add up to the totals yielded
    for "parts" plus the totals yielded for "aparts". *)
Theorem all_is_parts_plus_aparts (w : World) :
  reachable timer w ->
  exists lp la lall : list Z,
    iter_measures_parts_globalized "parts" w = Return lp /\
    iter_measures_parts_globalized "aparts" w = Return la /\
    iter_measures_parts_globalized "all" w = Return lall /\
    py_sum lall = py_sum lp + py_sum la.
Proof.
  intros Hr. destruct (reachable_well_keyed timer w Hr) as [Hp Ha].
  destruct (reachable_consistent timer w Hr) as (Hk & _ & _).
  unfold iter_measures_parts_globalized.
  destruct (decide ("parts" = "parts")) as [_|Hne]; [|congruence].
  destruct (decide ("aparts" = "parts")) as [Heq|_]; [discriminate|].
  destruct (decide ("aparts" = "aparts")) as [_|Hne]; [|congruence].
  destruct (decide ("all" = "parts")) as [Heq|_]; [discriminate|].
  destruct (decide ("all" = "aparts")) as [Heq|_]; [discriminate|].
  destruct (decide ("all" = "all")) as [_|Hne]; [|congruence].
  cbv beta iota delta [rbind].
  eexists. eexists. eexists.
  split; [reflexivity|]. split; [reflexivity|]. split; [reflexivity|].
  rewrite <- Hk. apply py_sum_flat_map_split. intros i _.
  rewrite !yielded_total.
  rewrite (sum_parts_value _ None) by (apply well_keyed_get, Hp).
  rewrite (sum_parts_value _ None) by (apply well_keyed_get, Ha).
  destruct (dict_get i (apart_benches (self w))) as [b2i|] eqn:Hget.
  - rewrite sum_parts_value
      by (apply (dict_get_Forall _ _ _ _ (proj2 Ha) Hget)).
    rewrite (sum_parts_value _ None) by (apply well_keyed_get, Hp).
    simpl. lia.
  - rewrite (sum_parts_value _ None) by (apply well_keyed_get, Hp).
    simpl. unfold iteration_sum. simpl. rewrite py_sum_nil. lia.
Qed.

End SectionTotals.

(** ** What a commit adds *)

Lemma recorded_durations_cons (nm : string) (i : Z)
    (bi : dict string (option Z)) (b : store) :
  recorded_durations nm ((i, bi) :: b)
    = sample_of nm bi ++ recorded_durations nm b.
Proof. reflexivity. Qed.

Lemma recorded_durations_set_sum (nm : string) (i : Z)
    (v : dict string (option Z)) (b : store) :
  py_sum (recorded_durations nm (dict_set i v b))
    = py_sum (recorded_durations nm b) + py_sum (sample_of nm v)
      - py_sum (sample_of nm (default [] (dict_get i b))).
Proof.
  induction b as [|[k x] b IH]; simpl dict_set; simpl dict_get.
  - rewrite recorded_durations_cons, py_sum_app.
    change (recorded_durations nm []) with ([] : list Z).
    change (sample_of nm (default [] None)) with ([] : list Z).
    rewrite py_sum_nil. lia.
  - destruct (decide (i = k)) as [->|Hne]; simpl default.
    + rewrite !recorded_durations_cons, !py_sum_app. lia.
    + rewrite !recorded_durations_cons, !py_sum_app, IH. lia.
Qed.

Lemma recorded_durations_set_same (nm : string) (i : Z)
    (v : dict string (option Z)) (b : store) :
  sample_of nm v = sample_of nm (default [] (dict_get i b)) ->
  recorded_durations nm (dict_set i v b) = recorded_durations nm b.
Proof.
  intros Hv. induction b as [|[k x] b IH]; simpl dict_set; simpl dict_get.
  - rewrite recorded_durations_cons, Hv. reflexivity.
  - simpl dict_get in Hv. destruct (decide (i = k)) as [->|Hne]; simpl in Hv.
    + rewrite !recorded_durations_cons, Hv. reflexivity.
    + rewrite !recorded_durations_cons, (IH Hv). reflexivity.
Qed.

Lemma sample_of_set_eq (nm : string) (t : option Z)
    (bi : dict string (option Z)) :
  sample_of nm (dict_set nm t bi)
    = match t with Some t => [t] | None => [] end.
Proof. unfold sample_of. rewrite dict_get_set_eq. reflexivity. Qed.

Lemma sample_of_set_ne (nm nm' : string) (t : option Z)
    (bi : dict string (option Z)) :
  nm' <> nm -> sample_of nm' (dict_set nm t bi) = sample_of nm' bi.
Proof.
  intros Hne. unfold sample_of. rewrite dict_get_set_ne by exact Hne.
  reflexivity.
Qed.

(** The store [b] with the entry of iteration [i] created if missing. *)
Lemma ensure_iteration (i : Z) (b : store) :
  default [] (dict_get i (if dict_mem i b then b else dict_set i [] b))
    = default [] (dict_get i b) /\
  forall nm, recorded_durations nm (if dict_mem i b then b
                                    else dict_set i [] b)
             = recorded_durations nm b.
Proof.
  unfold dict_mem. destruct (dict_get i b) as [bi|] eqn:Hget.
  - rewrite Hget. auto.
  - rewrite dict_get_set_eq. split; [reflexivity|]. intros nm.
    apply recorded_durations_set_same. rewrite Hget. reflexivity.
Qed.

(** Committing a duration [delta] for a part raises the sum of the
    durations recorded for that part by exactly [delta], whether the
    iteration already had a sample for it or not; the durations recorded for
    every other part of the same store, and for every part of the other
    store, are unchanged. *)
Lemma record_delta_adds_delta (partname : string) (i delta : Z)
    (b b_anti : store) :
  py_sum (recorded_durations partname
            (fst (record_delta partname i delta b b_anti)))
    = py_sum (recorded_durations partname b) + delta /\
  (forall other : string, other <> partname ->
     recorded_durations other (fst (record_delta partname i delta b b_anti))
       = recorded_durations other b) /\
  (forall any : string,
     recorded_durations any (snd (record_delta partname i delta b b_anti))
       = recorded_durations any b_anti).
Proof.
  unfold record_delta. simpl.
  destruct (ensure_iteration i b) as [Hbi Hrd].
  destruct (ensure_iteration i b_anti) as [_ Hrd'].
  set (b1 := if dict_mem i b then b else dict_set i [] b) in *.
  rewrite Hbi. set (bi := default [] (dict_get i b)) in *.
  split; [|split].
  - rewrite recorded_durations_set_sum, Hbi, Hrd. fold bi.
    unfold sample_of at 2.
    destruct (dict_get partname bi) as [[t|]|];
      rewrite sample_of_set_eq, py_sum_one, ?py_sum_nil, ?py_sum_one; lia.
  - intros other Hne. rewrite <- Hrd.
    apply recorded_durations_set_same. rewrite Hbi. fold bi.
    destruct (dict_get partname bi) as [[t|]|];
      apply sample_of_set_ne, Hne.
  - exact Hrd'.
Qed.

Section MoreScopeFacts.
Variable timer : nat -> Z.

(** X3. A scope of the current run that closes normally adds its duration,
    the reading at exit minus the reading at entry, to the sum of the
    durations recorded for its part, and changes the recorded durations of no
    other part. *)
Theorem scope_exit_adds_duration (sc : Scope) (w : World) :
  sc_epoch sc = epoch w ->
  py_sum (recorded_durations (sc_partname sc)
            (benches_own (sc_report_apart sc)
               (self (part_exit_ok timer sc w))))
    = py_sum (recorded_durations (sc_partname sc)
                (benches_own (sc_report_apart sc) (self w)))
      + (timer (ticks w) - sc_start_time sc) /\
  (forall other : string, other <> sc_partname sc ->
     recorded_durations other
       (benches_own (sc_report_apart sc) (self (part_exit_ok timer sc w)))
     = recorded_durations other (benches_own (sc_report_apart sc) (self w))) /\
  (forall any : string,
     recorded_durations any
       (benches_own (negb (sc_report_apart sc))
          (self (part_exit_ok timer sc w)))
     = recorded_durations any
         (benches_own (negb (sc_report_apart sc)) (self w))).
Proof.
  intros He. pose proof (part_exit_ok_commits timer sc w He) as H.
  cbv zeta in H. destruct H as (Hown & Hanti & _).
  rewrite Hown, Hanti. apply record_delta_adds_delta.
Qed.

(** X4. A scope whose body raises has registered its name all the same:
    whatever the body did short of starting a new run, the name is in the
    names of its class afterwards, so that [iter_measures_part] on it
    returns instead of raising [KeyError]; the body's exception is the
    one that reaches the caller. *)
Theorem failed_scope_stays_registered (partname : option string)
    (report_apart : bool) (turn_gc_off : option bool) (os : list op)
    (e : exn) (w : World) :
  resolve_partname partname report_apart ∉ names_anti report_apart (self w) ->
  Forall (fun o => starts_run o = false) os ->
  exists (w' : World) (durations : list Z),
    with_part timer partname report_apart turn_gc_off
      (failing_body timer os e) w = (Raise e, w') /\
    resolve_partname partname report_apart
      ∈ names_own report_apart (self w') /\
    iter_measures_part (resolve_partname partname report_apart) w'
      = Return durations.
Proof.
  intros Hfree Hos. unfold with_part, failing_body.
  destruct (part_enter_registers timer partname report_apart turn_gc_off w
              Hfree)
    as (sc & w1 & -> & _ & _ & _ & _ & _ & _ & Hown & _).
  destruct (part_exit_exc_passes_through sc e (run_ops timer os w1))
    as (w' & -> & Hself & _).
  assert (Hin : resolve_partname partname report_apart
                ∈ names_own report_apart (self w')).
  { rewrite Hself. apply run_ops_keep_names; [exact Hos|].
    rewrite Hown. apply elem_of_set_add. left. reflexivity. }
  exists w'. unfold iter_measures_part.
  destruct (decide (resolve_partname partname report_apart
                    ∈ parts_names (self w'))) as [Hp|Hp].
  - eexists. split; [reflexivity|]. split; [exact Hin | reflexivity].
  - destruct (decide (resolve_partname partname report_apart
                      ∈ apart_names (self w'))) as [Ha|Ha].
    + eexists. split; [reflexivity|]. split; [exact Hin | reflexivity].
    + exfalso. destruct report_apart; simpl in Hin; contradiction.
Qed.

(** X5. A scope whose body returns: the body starts with the collector off
    when suppression resolves to on, and as it was otherwise; the scope
    takes one reading on entry and one on exit; afterwards the collector is
    in the state it had before the scope, provided the body itself did not
    switch on a collector that was off. *)
Theorem closed_scope_restores_gc (partname : option string)
    (report_apart : bool) (turn_gc_off : option bool)
    (body : World -> result unit * World) (w w1 w2 : World) (sc : Scope) :
  part_enter timer partname report_apart turn_gc_off w = (Return sc, w1) ->
  body w1 = (Return tt, w2) ->
  (gc_isenabled w = false -> gc_isenabled w2 = false) ->
  gc_isenabled w1 =
    (if resolve_turn_gc_off turn_gc_off (self w) then false
     else gc_isenabled w) /\
  ticks w1 = S (ticks w) /\
  exists w',
    with_part timer partname report_apart turn_gc_off body w
      = (Return tt, w') /\
    ticks w' = S (ticks w2) /\
    gc_isenabled w' = gc_isenabled w.
Proof.
  intros Henter Hbody Hgc.
  destruct (decide (resolve_partname partname report_apart
                    ∈ names_anti report_apart (self w))) as [Hc|Hc].
  { rewrite (part_enter_conflict timer _ _ _ _ Hc) in Henter. discriminate. }
  destruct (part_enter_registers timer partname report_apart turn_gc_off w Hc)
    as (sc' & w1' & Heq & _ & _ & Hold & _ & _ & _ & _ & _ & _ & _ & _ & _
        & Hticks & Hgc1).
  rewrite Heq in Henter. injection Henter as <- <-.
  split; [exact Hgc1|]. split; [exact Hticks|].
  unfold with_part. rewrite Heq, Hbody.
  exists (part_exit_ok timer sc' w2). split; [reflexivity|].
  unfold part_exit_ok, timer_read. rewrite Hold.
  destruct (gc_isenabled w) eqn:Hw; simpl.
  - destruct (decide (sc_epoch sc' = epoch w2));
      [destruct (sc_report_apart sc')|]; split; reflexivity.
  - specialize (Hgc eq_refl).
    destruct (decide (sc_epoch sc' = epoch w2));
      [destruct (sc_report_apart sc')|]; simpl; split;
      solve [reflexivity | exact Hgc].
Qed.

(** X6. Once the counter has reached the repeat count, every call of
    [__next__] raises [StopIteration] again: it takes a reading, appends
    one more sample when the counter is positive, recomputes the totals so
    that [overhead] is [totaltime - totalitertime], and leaves the driver
    where the next call does the same. *)
Theorem exhausted_keeps_stopping (w : World) (last start : Z) :
  _lastlooptime (self w) = Some last ->
  _startlooptime (self w) = Some start ->
  default_repeat (self w) <= current_iteration (self w) ->
  exists (w' : World) (total iters : Z),
    __next__ timer w = (Raise StopIteration, w') /\
    totaltime (self w') = Some total /\
    totalitertime (self w') = Some iters /\
    overhead (self w') = Some (total - iters) /\
    length (loop_benches (self w')) =
      (if decide (current_iteration (self w) > 0)
       then S (length (loop_benches (self w)))
       else length (loop_benches (self w))) /\
    _lastlooptime (self w') = Some (timer (ticks w)) /\
    _startlooptime (self w') = Some start /\
    default_repeat (self w') <= current_iteration (self w').
Proof.
  intros Hlast Hstart Hge. unfold __next__, timer_read. simpl.
  rewrite Hlast. simpl.
  destruct (decide (current_iteration (self w) < default_repeat (self w)))
    as [Hlt|_]; [lia|].
  rewrite Hstart. eexists. eexists. eexists.
  split; [reflexivity|]. simpl.
  split; [reflexivity|]. split; [reflexivity|]. split; [reflexivity|].
  split.
  - destruct (decide (current_iteration (self w) > 0));
      [rewrite length_app; simpl; lia | reflexivity].
  - split; [reflexivity|]. split; [exact Hstart | exact Hge].
Qed.

(** X7. [__next__] on a report that [__iter__] has not been called on since
    the last [reset] (a fresh report, or one just returned by [__call__])
    raises [TypeError]: the reading is taken and nothing of the instance
    changes. *)
Theorem next_before_iter_raises (w : World) :
  _lastlooptime (self w) = None ->
  __next__ timer w
    = (Raise TypeError,
       mkWorld (self w) (epoch w) (S (ticks w)) (gc_isenabled w)) /\
  (forall (nm : string) (repeat : Z) (tgo gc : bool),
     fst (__next__ timer (__init__ nm repeat tgo gc)) = Raise TypeError) /\
  (forall n : option Z,
     fst (__next__ timer (__call__ timer n w)) = Raise TypeError).
Proof.
  intros Hnone. split; [|split].
  - unfold __next__, timer_read. simpl. rewrite Hnone. reflexivity.
  - reflexivity.
  - intros [n|]; reflexivity.
Qed.

Lemma run_op_epoch (o : op) (w : World) :
  (epoch w <= epoch (run_op timer o w))%nat.
Proof.
  destruct o as [|n| | |pn ra tg|sc|sc e|b|]; simpl.
  - lia.
  - destruct n; simpl; lia.
  - lia.
  - unfold __next__, timer_read. simpl.
    destruct (_lastlooptime (self w)); simpl; [|lia].
    destruct (decide (current_iteration (self w) < default_repeat (self w)));
      simpl; [lia|].
    destruct (_startlooptime (self w)); simpl; lia.
  - destruct (decide (resolve_partname pn ra ∈ names_anti ra (self w)))
      as [Hc|Hc].
    + rewrite (part_enter_conflict timer _ _ _ _ Hc). simpl.
      destruct (resolve_turn_gc_off tg (self w)); simpl; lia.
    + destruct (part_enter_registers timer pn ra tg w Hc)
        as (sc & w' & -> & _ & _ & _ & _ & _ & _ & _ & _ & _ & _ & _ & He & _).
      simpl. lia.
  - destruct (decide (sc_epoch sc = epoch w)) as [He|He].
    + pose proof (part_exit_ok_commits timer sc w He) as H. cbv zeta in H.
      destruct H as (_ & _ & _ & _ & _ & Hep & _). lia.
    + unfold part_exit_ok, timer_read.
      destruct (sc_gcold sc); simpl;
        (destruct (decide (sc_epoch sc = epoch w)); [contradiction|]);
        simpl; lia.
  - unfold part_exit_exc. destruct (isinstance_Exception e); simpl;
      [destruct (sc_gcold sc)|]; simpl; lia.
  - simpl. lia.
  - simpl. lia.
Qed.

Lemma run_ops_epoch (os : list op) (w : World) :
  (epoch w <= epoch (run_ops timer os w))%nat.
Proof.
  unfold run_ops. revert w. induction os as [|o os IH]; intros w; simpl;
    [lia|].
  pose proof (run_op_epoch o w). pose proof (IH (run_op timer o w)). lia.
Qed.

(** X8. A scope opened in one run and closed, normally, after a later
    [__call__] has started another run records nothing in the new run:
    whatever else was done before and after the call, the exit leaves the
    instance as it finds it. *)
Theorem scope_across_call_records_nothing (partname : option string)
    (report_apart : bool) (turn_gc_off : option bool) (w w1 : World)
    (sc : Scope) (before after : list op) (n : option Z) :
  part_enter timer partname report_apart turn_gc_off w = (Return sc, w1) ->
  self (part_exit_ok timer sc
          (run_ops timer after
             (__call__ timer n (run_ops timer before w1))))
    = self (run_ops timer after
              (__call__ timer n (run_ops timer before w1))).
Proof.
  intros Henter. apply part_exit_ok_stale.
  assert (Hsc : sc_epoch sc = epoch w1).
  { destruct (decide (resolve_partname partname report_apart
                      ∈ names_anti report_apart (self w))) as [Hc|Hc].
    - rewrite (part_enter_conflict timer _ _ _ _ Hc) in Henter. discriminate.
    - destruct (part_enter_registers timer partname report_apart
                  turn_gc_off w Hc)
        as (sc' & w' & Heq & _ & _ & _ & _ & _ & Hep & _ & _ & _ & _ & _
            & Hep' & _).
      rewrite Heq in Henter. injection Henter as <- <-. lia. }
  pose proof (run_ops_epoch before w1) as H1.
  pose proof (run_ops_epoch after
                (__call__ timer n (run_ops timer before w1))) as H2.
  assert (Hcall : epoch (__call__ timer n (run_ops timer before w1))
                  = S (epoch (run_ops timer before w1)))
    by (destruct n; reflexivity).
  lia.
Qed.

(** X9. In any world a fresh report can be taken to, no part name belongs
    to both reporting classes, and each store lists every iteration once. *)
Theorem classes_stay_disjoint (w : World) :
  reachable timer w ->
  (forall nm : string,
     nm ∈ parts_names (self w) -> nm ∈ apart_names (self w) -> False) /\
  NoDup (dict_keys (parts_benches (self w))) /\
  NoDup (dict_keys (apart_benches (self w))).
Proof.
  intros Hr. destruct (reachable_consistent timer w Hr) as (Hk & Hnd & Hdisj).
  split; [exact Hdisj|]. split; [exact Hnd|]. rewrite <- Hk. exact Hnd.
Qed.

End MoreScopeFacts.

(** ** More of the iteration driver *)

Section MoreDriverFacts.
Variable timer : nat -> Z.

(** [__next__] at the end of the sequence of a report that [__call__] has
    not started: the sample is appended and the reading kept, then the
    subtraction of [None] fails. *)
Lemma next_without_start (w : World) (last : Z) :
  _lastlooptime (self w) = Some last ->
  _startlooptime (self w) = None ->
  ~ current_iteration (self w) < default_repeat (self w) ->
  exists w',
    __next__ timer w = (Raise TypeError, w') /\
    loop_benches (self w') =
      (if decide (current_iteration (self w) > 0)
       then loop_benches (self w) ++ [timer (ticks w) - last]
       else loop_benches (self w)) /\
    _startlooptime (self w') = None /\
    default_repeat (self w') = default_repeat (self w) /\
    ticks w' = S (ticks w).
Proof.
  intros Hlast Hstart Hge. unfold __next__, timer_read. simpl.
  rewrite Hlast. simpl.
  destruct (decide (current_iteration (self w) < default_repeat (self w)))
    as [Hn|_]; [contradiction|].
  rewrite Hstart. eexists. split; [reflexivity|]. simpl.
  split; [reflexivity|]. split; [exact Hstart|]. split; reflexivity.
Qed.

(** The [for] statement from any point of a run: [k] items produced so far,
    the samples found before the run in [base], and [first] the reading of
    the run's first [__next__]. The samples of the run telescope. *)
Lemma for_loop_from (I : World -> Prop)
    (body : Z -> World -> result unit * World) :
  completes timer I body ->
  forall (m k : nat) (w : World) (fuel : nat) (base : list Z)
         (first last : Z),
    m = Z.to_nat (default_repeat (self w) - Z.of_nat k) ->
    current_iteration (self w) = Z.of_nat k ->
    _lastlooptime (self w) = Some last ->
    (exists j : nat, (j < ticks w)%nat /\ last = timer j) ->
    match k with
    | O => loop_benches (self w) = base /\ first = timer (ticks w)
    | S k' => exists tail, loop_benches (self w) = base ++ tail /\
                           length tail = k' /\ py_sum tail = last - first /\
                           (monotonic timer -> Forall (fun d => 0 <= d) tail)
    end ->
    I w -> (m < fuel)%nat ->
    exists (w' : World) (tail : list Z),
      for_loop timer fuel body w =
        Some (map Z.of_nat (seq (S k) m),
              match _startlooptime (self w) with
              | Some _ => Return tt
              | None => Raise TypeError
              end, w') /\
      loop_benches (self w') = base ++ tail /\
      length tail = (k + m)%nat /\
      py_sum tail = timer (Nat.pred (ticks w')) - first /\
      (monotonic timer -> Forall (fun d => 0 <= d) tail) /\
      _startlooptime (self w') = _startlooptime (self w) /\
      default_repeat (self w') = default_repeat (self w) /\
      forall start : Z, _startlooptime (self w) = Some start ->
        totaltime (self w') = Some (timer (Nat.pred (ticks w')) - start) /\
        totalitertime (self w') = Some (py_sum (base ++ tail)) /\
        overhead (self w') =
          Some (timer (Nat.pred (ticks w')) - start - py_sum (base ++ tail)).
Proof.
  intros [Hnext Hbody] m.
  induction m as [|m IH]; intros k w fuel base first last Hm Hci Hlast
    (j & Hj & Hlastj) Hk HI Hfuel; (destruct fuel as [|fuel]; [lia|]).
  - assert (Hge : ~ current_iteration (self w) < default_repeat (self w))
      by lia.
    assert (Htail : forall lb' : list Z,
              lb' = (if decide (current_iteration (self w) > 0)
                     then loop_benches (self w) ++ [timer (ticks w) - last]
                     else loop_benches (self w)) ->
              exists tail, lb' = base ++ tail /\ length tail = (k + 0)%nat /\
                           py_sum tail = timer (ticks w) - first /\
                           (monotonic timer ->
                            Forall (fun d => 0 <= d) tail)).
    { intros lb' ->. destruct k as [|k'].
      - destruct Hk as [Hlb ->].
        destruct (decide (current_iteration (self w) > 0)); [lia|].
        exists []. rewrite app_nil_r. split; [exact Hlb|].
        split; [reflexivity|]. rewrite py_sum_nil.
        split; [lia | intros _; constructor].
      - destruct Hk as (tail & Hlb & Hlen & Hsum & Hpos).
        destruct (decide (current_iteration (self w) > 0)); [|lia].
        exists (tail ++ [timer (ticks w) - last]).
        rewrite Hlb, <- app_assoc. split; [reflexivity|].
        rewrite length_app, py_sum_snoc. simpl.
        split; [lia|]. split; [lia|].
        intros Hmono. apply Forall_app. split; [exact (Hpos Hmono)|].
        constructor; [|constructor].
        pose proof (Hmono j (ticks w) ltac:(lia)). lia. }
    destruct (_startlooptime (self w)) as [start|] eqn:Hstart.
    + destruct (next_stops timer w last start Hlast Hstart Hge)
        as (w' & Hn & Hlb & Hl' & Hs' & Htt & Hti & Hov & Htk).
      destruct (Htail _ Hlb) as (tail & Hlb' & Hlen & Hsum & Hpos).
      exists w', tail. simpl. rewrite Hn, Htk. simpl.
      split; [reflexivity|]. split; [exact Hlb'|]. split; [exact Hlen|].
      split; [exact Hsum|]. split; [exact Hpos|]. split; [exact Hs'|].
      split.
      * unfold __next__, timer_read in Hn. simpl in Hn.
        rewrite Hlast in Hn. simpl in Hn.
        destruct (decide (current_iteration (self w)
                          < default_repeat (self w))); [contradiction|].
        rewrite Hstart in Hn. injection Hn as <-. reflexivity.
      * intros start' Hs. injection Hs as <-. rewrite <- Hlb'.
        split; [exact Htt|]. split; [exact Hti | exact Hov].
    + destruct (next_without_start w last Hlast Hstart Hge)
        as (w' & Hn & Hlb & Hs' & Hr' & Htk).
      destruct (Htail _ Hlb) as (tail & Hlb' & Hlen & Hsum & Hpos).
      exists w', tail. simpl. rewrite Hn, Htk. simpl.
      split; [reflexivity|]. split; [exact Hlb'|]. split; [exact Hlen|].
      split; [exact Hsum|]. split; [exact Hpos|]. split; [exact Hs'|].
      split; [exact Hr'|].
      intros start' Hs. discriminate.
  - destruct (next_yields timer w last Hlast)
      as (w1 & Hn & Hr1 & Hc1 & Hlb1 & Hl1 & Hs1 & Htk1); [lia|].
    pose proof (Hnext w HI) as HI1. rewrite Hn in HI1. simpl in HI1.
    destruct (Hbody (current_iteration (self w) + 1) w1 HI1)
      as (w2 & Hb & Hdv & Htk2 & HI2).
    apply driver_view_fields in Hdv.
    destruct Hdv as (Hr2 & Hc2 & Hlb2 & Hl2 & Hs2).
    destruct (IH (S k) w2 fuel base first (timer (ticks w)))
      as (w' & tail' & Hrun & Hlb' & Hlen' & Hsum' & Hpos' & Hst' & Hrep'
          & Htot');
      [lia | lia | congruence | exists (ticks w); split; [lia | reflexivity]
      | | exact HI2 | lia |].
    + rewrite Hlb2, Hlb1. destruct k as [|k'].
      * destruct Hk as [Hlb ->].
        destruct (decide (current_iteration (self w) > 0)); [lia|].
        exists []. rewrite app_nil_r. split; [exact Hlb|].
        split; [reflexivity|]. rewrite py_sum_nil.
        split; [lia | intros _; constructor].
      * destruct Hk as (tail & Hlb & Hlen & Hsum & Hpos).
        destruct (decide (current_iteration (self w) > 0)); [|lia].
        exists (tail ++ [timer (ticks w) - last]).
        rewrite Hlb, <- app_assoc. split; [reflexivity|].
        rewrite length_app, py_sum_snoc. simpl.
        split; [lia|]. split; [lia|].
        intros Hmono. apply Forall_app. split; [exact (Hpos Hmono)|].
        constructor; [|constructor].
        pose proof (Hmono j (ticks w) ltac:(lia)). lia.
    + exists w', tail'. simpl. rewrite Hn, Hb, Hrun.
      replace (current_iteration (self w) + 1) with (Z.of_nat (S k)) by lia.
      rewrite Hs2, Hs1.
      split; [reflexivity|]. split; [exact Hlb'|]. split; [lia|].
      split; [exact Hsum'|]. split; [exact Hpos'|].
      split; [congruence|]. split; [congruence|].
      intros start Hs. apply Htot'. congruence.
Qed.

(** The [for] statement on a report just handed to [__iter__]. *)
Lemma for_loop_after_iter (I : World -> Prop)
    (body : Z -> World -> result unit * World) (w : World) (fuel : nat) :
  completes timer I body ->
  I (__iter__ timer w) ->
  (Z.to_nat (default_repeat (self w)) < fuel)%nat ->
  exists (w' : World) (tail : list Z),
    for_loop timer fuel body (__iter__ timer w) =
      Some (one_to (Z.to_nat (default_repeat (self w))),
            match _startlooptime (self w) with
            | Some _ => Return tt
            | None => Raise TypeError
            end, w') /\
    loop_benches (self w') = loop_benches (self w) ++ tail /\
    length tail = Z.to_nat (default_repeat (self w)) /\
    py_sum tail = timer (Nat.pred (ticks w')) - timer (S (ticks w)) /\
    (monotonic timer -> Forall (fun d => 0 <= d) tail) /\
    _startlooptime (self w') = _startlooptime (self w) /\
    default_repeat (self w') = default_repeat (self w) /\
    forall start : Z, _startlooptime (self w) = Some start ->
      totaltime (self w') = Some (timer (Nat.pred (ticks w')) - start) /\
      totalitertime (self w') =
        Some (py_sum (loop_benches (self w) ++ tail)) /\
      overhead (self w') =
        Some (timer (Nat.pred (ticks w')) - start
              - py_sum (loop_benches (self w) ++ tail)).
Proof.
  intros Hc HI Hfuel.
  destruct (for_loop_from I body Hc (Z.to_nat (default_repeat (self w)))
              0%nat (__iter__ timer w) fuel (loop_benches (self w))
              (timer (S (ticks w))) (timer (ticks w)))
    as (w' & tail & Hrun & Hlb & Hlen & Hsum & Hpos & Hst & Hrep & Htot);
    [simpl; f_equal; lia | reflexivity | reflexivity
    | exists (ticks w); split; [simpl; lia | reflexivity]
    | split; reflexivity | exact HI | exact Hfuel |].
  exists w', tail. split; [exact Hrun|]. split; [exact Hlb|].
  split; [exact Hlen|]. split; [exact Hsum|]. split; [exact Hpos|].
  split; [exact Hst|]. split; [exact Hrep | exact Htot].
Qed.

(** X10. When a run of [self(n)] has been driven to its end, [overhead] is
    the reading of the first call of [__next__] minus the reading taken by
    [__call__], whatever the repeat count and whatever the body did:
    [totalitertime] is the reading of the call that ended the sequence minus
    the reading of the first call of [__next__]. *)
Theorem overhead_is_call_to_first_next (n : option Z) (I : World -> Prop)
    (body : Z -> World -> result unit * World) (w : World) (fuel : nat) :
  completes timer I body ->
  I (__iter__ timer (__call__ timer n w)) ->
  (Z.to_nat (repeat_of n w) < fuel)%nat ->
  exists (items : list Z) (w' : World),
    drive timer fuel n body w = Some (items, Return tt, w') /\
    overhead (self w') = Some (timer (S (S (ticks w))) - timer (ticks w)) /\
    totalitertime (self w') =
      Some (timer (Nat.pred (ticks w')) - timer (S (S (ticks w)))) /\
    totaltime (self w') =
      Some (timer (Nat.pred (ticks w')) - timer (ticks w)).
Proof.
  intros Hc HI Hfuel.
  assert (Hcall : default_repeat (self (__call__ timer n w)) = repeat_of n w /\
                  loop_benches (self (__call__ timer n w)) = [] /\
                  _startlooptime (self (__call__ timer n w))
                    = Some (timer (ticks w)) /\
                  ticks (__call__ timer n w) = S (ticks w))
    by (destruct n; repeat split; reflexivity).
  destruct Hcall as (Hrep & Hlb & Hstart & Htk).
  destruct (for_loop_after_iter I body (__call__ timer n w) fuel Hc HI)
    as (w' & tail & Hrun & Hlb' & _ & Hsum & _ & _ & _ & Htot);
    [rewrite Hrep; exact Hfuel|].
  rewrite Hstart in Hrun. rewrite Hlb in Htot. rewrite Htk in Hsum.
  destruct (Htot _ Hstart) as (Htt & Hti & Hov).
  simpl in Hti, Hov. rewrite Hsum in Hti, Hov.
  eexists. exists w'. unfold drive. split; [exact Hrun|].
  split; [rewrite Hov; f_equal; lia|]. split; [exact Hti | exact Htt].
Qed.

(** X11. Iterating a report directly, [for v in self], when no [__call__]
    has started a run since the report was built or reset: the items 1 to
    [default_repeat] are produced and as many samples appended, and the call
    of [__next__] that should end the sequence raises [TypeError] instead of
    [StopIteration]. *)
Theorem iterating_without_call_raises (I : World -> Prop)
    (body : Z -> World -> result unit * World) (w : World) (fuel : nat) :
  completes timer I body ->
  _startlooptime (self w) = None ->
  I (__iter__ timer w) ->
  (Z.to_nat (default_repeat (self w)) < fuel)%nat ->
  exists (w' : World) (tail : list Z),
    for_loop timer fuel body (__iter__ timer w) =
      Some (one_to (Z.to_nat (default_repeat (self w))), Raise TypeError, w') /\
    loop_benches (self w') = loop_benches (self w) ++ tail /\
    length tail = Z.to_nat (default_repeat (self w)).
Proof.
  intros Hc Hstart HI Hfuel.
  destruct (for_loop_after_iter I body w fuel Hc HI Hfuel)
    as (w' & tail & Hrun & Hlb & Hlen & _).
  rewrite Hstart in Hrun. exists w', tail.
  split; [exact Hrun|]. split; [exact Hlb | exact Hlen].
Qed.

(** X12. Iterating a report again, [for v in self], without a new
    [__call__]: the samples already recorded are kept and [default_repeat]
    more are appended after them; the sequence ends normally, and the totals
    are taken from the reading of the original [__call__] and over old and
    new samples together. *)
Theorem reiterating_accumulates (I : World -> Prop)
    (body : Z -> World -> result unit * World) (w : World) (fuel : nat)
    (start : Z) :
  completes timer I body ->
  _startlooptime (self w) = Some start ->
  I (__iter__ timer w) ->
  (Z.to_nat (default_repeat (self w)) < fuel)%nat ->
  exists (w' : World) (tail : list Z),
    for_loop timer fuel body (__iter__ timer w) =
      Some (one_to (Z.to_nat (default_repeat (self w))), Return tt, w') /\
    loop_benches (self w') = loop_benches (self w) ++ tail /\
    length tail = Z.to_nat (default_repeat (self w)) /\
    totaltime (self w') = Some (timer (Nat.pred (ticks w')) - start) /\
    totalitertime (self w') =
      Some (py_sum (loop_benches (self w)) + py_sum tail).
Proof.
  intros Hc Hstart HI Hfuel.
  destruct (for_loop_after_iter I body w fuel Hc HI Hfuel)
    as (w' & tail & Hrun & Hlb & Hlen & _ & _ & _ & _ & Htot).
  rewrite Hstart in Hrun. destruct (Htot _ Hstart) as (Htt & Hti & _).
  rewrite py_sum_app in Hti. exists w', tail.
  split; [exact Hrun|]. split; [exact Hlb|]. split; [exact Hlen|].
  split; [exact Htt | exact Hti].
Qed.

Lemma run_op_settings (o : op) (w : World) :
  name (self (run_op timer o w)) = name (self w) /\
  default_turn_gc_off (self (run_op timer o w))
    = default_turn_gc_off (self w) /\
  (sets_repeat o = false ->
   default_repeat (self (run_op timer o w)) = default_repeat (self w)).
Proof.
  destruct o as [|n| | |pn ra tg|sc|sc e|b|]; simpl.
  - auto.
  - destruct n; simpl; repeat split; try reflexivity. discriminate.
  - auto.
  - unfold __next__, timer_read. simpl.
    destruct (_lastlooptime (self w)); simpl; [|auto].
    destruct (decide (current_iteration (self w) < default_repeat (self w)));
      simpl; [auto|].
    destruct (_startlooptime (self w)); simpl; auto.
  - unfold part_enter.
    destruct (resolve_turn_gc_off tg (self w)); simpl;
      (destruct (decide (resolve_partname pn ra ∈ names_anti ra (self w)));
       [simpl; auto|]); destruct ra; simpl; auto.
  - unfold part_exit_ok, timer_read.
    destruct (sc_gcold sc); simpl;
      (destruct (decide (sc_epoch sc = epoch w)); [|simpl; auto]);
      destruct (sc_report_apart sc); simpl; auto.
  - unfold part_exit_exc. destruct (isinstance_Exception e); simpl;
      [destruct (sc_gcold sc)|]; simpl; auto.
  - auto.
  - auto.
Qed.

(** X13. Whatever is done with a report short of a call that is given a
    count, [default_repeat], [name] and [default_turn_gc_off] stay as they
    are: the runs a report goes through do not touch its settings, and a run
    started by [self()] after [self(n)] repeats [n] times. *)
Theorem settings_persist (os : list op) (w : World) :
  Forall (fun o => sets_repeat o = false) os ->
  default_repeat (self (run_ops timer os w)) = default_repeat (self w) /\
  name (self (run_ops timer os w)) = name (self w) /\
  default_turn_gc_off (self (run_ops timer os w))
    = default_turn_gc_off (self w) /\
  forall n : Z,
    default_repeat
      (self (__call__ timer None
               (run_ops timer os (__call__ timer (Some n) w)))) = n.
Proof.
  intros Hos.
  assert (H : forall w0,
            default_repeat (self (run_ops timer os w0))
              = default_repeat (self w0) /\
            name (self (run_ops timer os w0)) = name (self w0) /\
            default_turn_gc_off (self (run_ops timer os w0))
              = default_turn_gc_off (self w0)).
  { unfold run_ops. induction Hos as [|o os Ho _ IH]; intros w0; simpl;
      [auto|].
    destruct (run_op_settings o w0) as (Hn & Hg & Hr).
    destruct (IH (run_op timer o w0)) as (-> & -> & ->).
    rewrite (Hr Ho), Hn, Hg. auto. }
  destruct (H w) as (Hr & Hn & Hg).
  split; [exact Hr|]. split; [exact Hn|]. split; [exact Hg|].
  intros n. destruct (H (__call__ timer (Some n) w)) as (Hr' & _).
  change (default_repeat
            (self (run_ops timer os (__call__ timer (Some n) w))) = n).
  rewrite Hr'. reflexivity.
Qed.

End MoreDriverFacts.

(** ** The report tables *)

Lemma present_map_Some (l : list Z) : present (map Some l) = l.
Proof.
  unfold present. induction l as [|x l IH]; simpl; [reflexivity|].
  f_equal. exact IH.
Qed.

Lemma stats_loop_skips_none (measures : list (option Z))
    (acc : pyfloat * Z * option Z) :
  stats_loop measures acc = stats_loop (map Some (present measures)) acc.
Proof.
  revert acc. induction measures as [|t measures IH]; intros acc;
    [reflexivity|].
  destruct t as [t|].
  - change (present (Some t :: measures)) with (t :: present measures).
    cbn [map stats_loop]. destruct (stats_step acc (Some t)) as [acc'|e];
      cbv beta iota delta [rbind]; [apply IH | reflexivity].
  - change (present (None :: measures)) with (present measures).
    cbn [stats_loop stats_step]. cbv beta iota delta [rbind]. apply IH.
Qed.

(** [_get_stats] returns the count of the entries that are not [None], or
    fails in the float arithmetic. *)
Lemma get_stats_outcome (measures : list (option Z)) :
  value_or_arithmetic
    (fun st => stat_n st = Z.of_nat (length (present measures)))
    (_get_stats measures).
Proof.
  unfold _get_stats, value_or_arithmetic, arithmetic.
  pose proof (stats_loop_spec measures float_zero 0 None) as Hloop.
  destruct (stats_loop measures (float_zero, 0, None))
    as [[[total n] mn]|e]; cbv beta iota delta [rbind];
    [|left; exact Hloop].
  destruct Hloop as [Hn _]. rewrite Z.add_0_l in Hn.
  destruct (float_truediv_int total ns_to_ms) as [total'|e] eqn:Htotal;
    [|eapply float_truediv_int_raises, Htotal].
  assert (Hrest : forall omn : result (option pyfloat),
            match omn with Return _ => True | Raise e => arithmetic e end ->
            match
              match omn with
              | Return mn0 =>
                  match
                    (if decide (n > 0)
                     then match float_truediv_int total' n with
                          | Return a => Return (Some a)
                          | Raise e => Raise e
                          end
                     else Return None)
                  with
                  | Return avg => Return (mkStats total' n avg mn0)
                  | Raise e => Raise e
                  end
              | Raise e => Raise e
              end
            with
            | Return st => stat_n st = Z.of_nat (length (present measures))
            | Raise e => e = OverflowError \/ e = ZeroDivisionError
            end).
  { intros [mn0|e] Homn; [|exact Homn].
    destruct (decide (n > 0)); [|exact Hn].
    destruct (float_truediv_int total' n) as [a|e] eqn:Ha;
      [exact Hn | eapply float_truediv_int_raises, Ha]. }
  destruct mn as [m|].
  - destruct (int_truediv m ns_to_ms) as [x|e] eqn:Hx.
    + apply (Hrest (Return (Some x))). exact I.
    + apply (Hrest (Raise e)). eapply int_truediv_raises, Hx.
  - apply (Hrest (Return None)). exact I.
Qed.

(** X14. [_get_stats] skips the entries that are [None]: it returns on a
    sequence what it returns on the sequence of its entries that are not
    [None], and fails on the one exactly when it fails on the other. *)
Theorem get_stats_skips_none (measures : list (option Z)) :
  _get_stats measures = _get_stats (map Some (present measures)).
Proof.
  unfold _get_stats. rewrite stats_loop_skips_none. reflexivity.
Qed.

Lemma NoDup_set_add (x : string) (s : list string) :
  NoDup s -> NoDup (set_add x s).
Proof.
  intros Hs. unfold set_add. destruct (decide (x ∈ s)) as [Hx|Hx];
    [exact Hs|].
  constructor; [exact Hx | exact Hs].
Qed.

Section ReportFacts.
Variable timer : nat -> Z.

Lemma run_op_names_NoDup (o : op) (w : World) :
  NoDup (parts_names (self w)) /\ NoDup (apart_names (self w)) ->
  NoDup (parts_names (self (run_op timer o w))) /\
  NoDup (apart_names (self (run_op timer o w))).
Proof.
  intros Hw.
  assert (Hsame : forall w',
             registry_view w' = registry_view w ->
             NoDup (parts_names (self w')) /\ NoDup (apart_names (self w'))).
  { intros w' H. unfold registry_view in H. injection H as _ _ -> ->.
    exact Hw. }
  destruct o as [|n| | |pn ra tg|sc|sc e|b|]; simpl.
  - split; constructor.
  - destruct n; split; constructor.
  - apply Hsame. reflexivity.
  - apply Hsame, next_keeps_registry.
  - destruct (decide (resolve_partname pn ra ∈ names_anti ra (self w)))
      as [Hc|Hc].
    + rewrite (part_enter_conflict timer _ _ _ _ Hc). simpl.
      destruct (resolve_turn_gc_off tg (self w)); exact Hw.
    + destruct (part_enter_registers timer pn ra tg w Hc)
        as (sc & w' & -> & _ & _ & _ & _ & _ & _ & Hown & Hanti & _).
      simpl. destruct Hw as [Hp Ha].
      destruct ra; cbn [names_own names_anti] in Hown, Hanti;
        rewrite Hown, Hanti; split;
        solve [assumption | apply NoDup_set_add; assumption].
  - destruct (decide (sc_epoch sc = epoch w)) as [He|He].
    + pose proof (part_exit_ok_commits timer sc w He) as H. cbv zeta in H.
      destruct H as (_ & _ & -> & -> & _). exact Hw.
    + rewrite (part_exit_ok_stale timer sc w He). exact Hw.
  - apply Hsame. unfold part_exit_exc.
    destruct (isinstance_Exception e); simpl;
      [destruct (sc_gcold sc)|]; reflexivity.
  - apply Hsame. reflexivity.
  - apply Hsame. reflexivity.
Qed.

Lemma reachable_names_NoDup (w : World) :
  reachable timer w ->
  NoDup (parts_names (self w)) /\ NoDup (apart_names (self w)).
Proof.
  intros (nm & repeat & tgo & gc & os & ->). unfold run_ops.
  assert (H0 : NoDup (parts_names (self (__init__ nm repeat tgo gc))) /\
               NoDup (apart_names (self (__init__ nm repeat tgo gc))))
    by (simpl; split; constructor).
  revert H0. generalize (__init__ nm repeat tgo gc).
  induction os as [|o os IH]; intros w Hw; simpl; [exact Hw|].
  apply IH, run_op_names_NoDup, Hw.
Qed.

Lemma stat_of_part_outcome (p : string) (w : World) :
  p ∈ parts_names (self w) \/ p ∈ apart_names (self w) ->
  value_or_arithmetic (fun _ => True) (stat_of_part p w).
Proof.
  intros Hp. unfold stat_of_part, iter_measures_part.
  assert (H : forall l : list Z,
            value_or_arithmetic (fun _ : Stats => True)
              (_get_stats (map Some l))).
  { intros l. pose proof (get_stats_outcome (map Some l)) as H.
    unfold value_or_arithmetic in *.
    destruct (_get_stats (map Some l)); [exact I | exact H]. }
  destruct (decide (p ∈ parts_names (self w))) as [H1|H1];
    [cbv beta iota delta [rbind]; apply H|].
  destruct (decide (p ∈ apart_names (self w))) as [H2|H2];
    [cbv beta iota delta [rbind]; apply H|].
  exfalso. destruct Hp; contradiction.
Qed.

Lemma stats_by_part_outcome (w : World) (names : list string) :
  forall acc : dict string Stats,
    (forall p, p ∈ names ->
       p ∈ parts_names (self w) \/ p ∈ apart_names (self w)) ->
    NoDup (dict_keys acc ++ names) ->
    value_or_arithmetic (fun d => dict_keys d = dict_keys acc ++ names)
      (stats_by_part names w acc).
Proof.
  induction names as [|p names IH]; intros acc Hknown Hnd.
  - simpl. rewrite app_nil_r. reflexivity.
  - cbn [stats_by_part].
    pose proof (stat_of_part_outcome p w
                  (Hknown p (list_elem_of_here p names))) as Hp.
    destruct (stat_of_part p w) as [st|e]; cbv beta iota delta [rbind];
      [|exact Hp].
    assert (Hkeys : dict_keys (dict_set p st acc) = dict_keys acc ++ [p]).
    { rewrite dict_keys_set.
      destruct (dict_mem p acc) eqn:Hmem; [|reflexivity].
      exfalso. apply dict_mem_keys in Hmem.
      apply NoDup_app in Hnd. destruct Hnd as (_ & Hdisj & _).
      apply (Hdisj p); [apply list_elem_of_In, Hmem|].
      apply list_elem_of_here. }
    specialize (IH (dict_set p st acc)).
    rewrite Hkeys, <- app_assoc in IH. apply IH.
    + intros q Hq. apply Hknown. apply elem_of_cons. right. exact Hq.
    + exact Hnd.
Qed.

Lemma stat_of_section_outcome (w : World) :
  value_or_arithmetic (fun _ => True) (stat_of_section "parts" w) /\
  value_or_arithmetic (fun _ => True) (stat_of_section "aparts" w) /\
  value_or_arithmetic (fun _ => True) (stat_of_section "all" w).
Proof.
  assert (H : forall l : list Z,
            value_or_arithmetic (fun _ : Stats => True)
              (_get_stats (map Some l))).
  { intros l. pose proof (get_stats_outcome (map Some l)) as H.
    unfold value_or_arithmetic in *.
    destruct (_get_stats (map Some l)); [exact I | exact H]. }
  unfold stat_of_section, iter_measures_parts_globalized.
  destruct (decide ("parts" = "parts")) as [_|Hne]; [|congruence].
  destruct (decide ("aparts" = "parts")) as [Heq|_]; [discriminate|].
  destruct (decide ("aparts" = "aparts")) as [_|Hne]; [|congruence].
  destruct (decide ("all" = "parts")) as [Heq|_]; [discriminate|].
  destruct (decide ("all" = "aparts")) as [Heq|_]; [discriminate|].
  destruct (decide ("all" = "all")) as [_|Hne]; [|congruence].
  cbv beta iota delta [rbind].
  split; [apply H|]. split; apply H.
Qed.

(** X15. In any world a fresh report can be taken to, [get_stats] without
    pandas never fails looking up a part: it fails in the float arithmetic,
    or returns one row for each name of [parts_names], the subtotal of the
    parts, one row for each name of [apart_names], the subtotal of the
    aparts, the total of both and the total of the run, in this order. *)
Theorem get_stats_lists_every_part (w : World) :
  reachable timer w ->
  value_or_arithmetic
    (fun rows =>
       map row_label rows
         = report_labels (parts_names (self w)) (apart_names (self w)) /\
       length rows
         = (length (parts_names (self w)) + length (apart_names (self w))
            + 4)%nat)
    (get_stats w).
Proof.
  intros Hr. destruct (reachable_names_NoDup w Hr) as [Hndp Hnda].
  pose proof (stats_by_part_outcome w (parts_names (self w)) []
                (fun p Hp => or_introl Hp) Hndp) as Hparts.
  pose proof (stats_by_part_outcome w (apart_names (self w)) []
                (fun p Hp => or_intror Hp) Hnda) as Haparts.
  destruct (stat_of_section_outcome w) as (Hgp & Hga & Hgg).
  pose proof (get_stats_outcome (map Some (loop_benches (self w)))) as Htotal.
  unfold get_stats, get_stats_parts, get_stats_total.
  destruct (stats_by_part (parts_names (self w)) w []) as [parts|e];
    cbv beta iota delta [rbind]; [|exact Hparts].
  destruct (stats_by_part (apart_names (self w)) w []) as [aparts|e];
    cbv beta iota delta [rbind]; [|exact Haparts].
  destruct (stat_of_section "parts" w) as [gp|e];
    cbv beta iota delta [rbind]; [|exact Hgp].
  destruct (stat_of_section "aparts" w) as [ga|e];
    cbv beta iota delta [rbind]; [|exact Hga].
  destruct (stat_of_section "all" w) as [gg|e];
    cbv beta iota delta [rbind]; [|exact Hgg].
  destruct (_get_stats (map Some (loop_benches (self w)))) as [total|e];
    [|exact Htotal].
  cbv beta iota delta [value_or_arithmetic] in *.
  simpl in Hparts, Haparts.
  assert (Hlabels :
            map row_label
              ((map (fun ps => mkRow "parts" (fst ps) (snd ps)) parts
                ++ [mkRow "parts" "SUBTOTAL" gp]
                ++ map (fun ps => mkRow "aparts" (fst ps) (snd ps)) aparts
                ++ [mkRow "aparts" "SUBTOTAL" ga]
                ++ [mkRow "P+A" "TOTAL" gg])
               ++ [mkRow "TOTAL" "TOTAL" total])
            = report_labels (parts_names (self w)) (apart_names (self w))).
  { unfold report_labels. rewrite <- Hparts, <- Haparts.
    unfold dict_keys. rewrite !map_app, !map_map, <- !app_assoc.
    reflexivity. }
  split; [exact Hlabels|].
  rewrite <- (length_map row_label), Hlabels. unfold report_labels.
  rewrite !length_app, !length_map. simpl. lia.
Qed.

(** X16. After a complete run of [self(N)], [get_stats_total] without
    pandas fails in the float arithmetic or reports as its count the number
    of items the run produced, [max(N, 0)]. *)
Theorem total_stats_count_the_items (N : Z) (I : World -> Prop)
    (body : Z -> World -> result unit * World) (w : World) (fuel : nat) :
  completes timer I body ->
  I (__iter__ timer (__call__ timer (Some N) w)) ->
  (Z.to_nat N < fuel)%nat ->
  exists (items : list Z) (w' : World),
    drive timer fuel (Some N) body w = Some (items, Return tt, w') /\
    value_or_arithmetic
      (fun st => stat_n st = Z.of_nat (length items) /\
                 stat_n st = Z.max N 0)
      (get_stats_total w').
Proof.
  intros Hc HI Hfuel.
  destruct (drive_runs timer (Some N) I body w fuel Hc HI Hfuel)
    as (w' & Hrun & Hlen & _).
  simpl in Hrun, Hlen. exists (one_to (Z.to_nat N)), w'.
  split; [exact Hrun|]. unfold get_stats_total.
  pose proof (get_stats_outcome (map Some (loop_benches (self w')))) as H.
  unfold value_or_arithmetic in *.
  destruct (_get_stats (map Some (loop_benches (self w')))) as [st|e];
    [|exact H].
  rewrite present_map_Some, Hlen in H. rewrite H.
  unfold one_to. rewrite length_map, length_seq. split; lia.
Qed.

End ReportFacts.

(** ** Further facts on runs and scopes *)

Lemma get_stats_nil : _get_stats [] = Return empty_stats.
Proof. vm_compute. reflexivity. Qed.

Section RunFacts.
Variable timer : nat -> Z.

(** X18. With a timer whose readings never go back, no sample of a complete
    run of [self(n)] is negative. *)
Theorem samples_are_not_negative (n : option Z) (I : World -> Prop)
    (body : Z -> World -> result unit * World) (w : World) (fuel : nat) :
  completes timer I body ->
  monotonic timer ->
  I (__iter__ timer (__call__ timer n w)) ->
  (Z.to_nat (repeat_of n w) < fuel)%nat ->
  exists (items : list Z) (w' : World),
    drive timer fuel n body w = Some (items, Return tt, w') /\
    Forall (fun d => 0 <= d) (loop_benches (self w')).
Proof.
  intros Hc Hmono HI Hfuel.
  assert (Hcall : default_repeat (self (__call__ timer n w)) = repeat_of n w /\
                  loop_benches (self (__call__ timer n w)) = [] /\
                  _startlooptime (self (__call__ timer n w))
                    = Some (timer (ticks w)))
    by (destruct n; repeat split; reflexivity).
  destruct Hcall as (Hrep & Hlb & Hstart).
  destruct (for_loop_after_iter timer I body (__call__ timer n w) fuel Hc HI)
    as (w' & tail & Hrun & Hlb' & _ & _ & Hpos & _);
    [rewrite Hrep; exact Hfuel|].
  rewrite Hstart in Hrun. rewrite Hlb in Hlb'. simpl in Hlb'.
  eexists. exists w'. unfold drive. split; [exact Hrun|].
  rewrite Hlb'. exact (Hpos Hmono).
Qed.

Lemma run_op_keeps_epoch (o : op) (w : World) :
  starts_run o = false -> epoch (run_op timer o w) = epoch w.
Proof.
  intros Hrun.
  destruct o as [|n| | |pn ra tg|sc|sc e|b|]; simpl in *;
    try discriminate; try reflexivity.
  - unfold __next__, timer_read. simpl.
    destruct (_lastlooptime (self w)); simpl; [|reflexivity].
    destruct (decide (current_iteration (self w) < default_repeat (self w)));
      simpl; [reflexivity|].
    destruct (_startlooptime (self w)); reflexivity.
  - destruct (decide (resolve_partname pn ra ∈ names_anti ra (self w)))
      as [Hc|Hc].
    + rewrite (part_enter_conflict timer _ _ _ _ Hc). simpl.
      destruct (resolve_turn_gc_off tg (self w)); reflexivity.
    + destruct (part_enter_registers timer pn ra tg w Hc)
        as (sc & w' & -> & _ & _ & _ & _ & _ & _ & _ & _ & _ & _ & _ & He & _).
      exact He.
  - destruct (decide (sc_epoch sc = epoch w)) as [He|He].
    + pose proof (part_exit_ok_commits timer sc w He) as H. cbv zeta in H.
      destruct H as (_ & _ & _ & _ & _ & Hep & _). exact Hep.
    + unfold part_exit_ok, timer_read.
      destruct (sc_gcold sc); simpl;
        (destruct (decide (sc_epoch sc = epoch w)); [contradiction|]);
        reflexivity.
  - unfold part_exit_exc. destruct (isinstance_Exception e); simpl;
      [destruct (sc_gcold sc)|]; reflexivity.
Qed.

Lemma run_ops_keep_epoch (os : list op) (w : World) :
  Forall (fun o => starts_run o = false) os ->
  epoch (run_ops timer os w) = epoch w.
Proof.
  unfold run_ops. intros Hos. revert w.
  induction Hos as [|o os Ho _ IH]; intros w; simpl; [reflexivity|].
  rewrite IH. apply run_op_keeps_epoch, Ho.
Qed.

(** X19. A sample is filed under the iteration that was current when its
    scope was opened: whatever is done between entry and exit short of
    starting a new run, advancing the counter included, a normal exit leaves
    an entry for the part under that iteration in the store of the scope's
    class. *)
Theorem sample_filed_under_opening_iteration (partname : option string)
    (report_apart : bool) (turn_gc_off : option bool) (os : list op)
    (w w1 : World) (sc : Scope) :
  part_enter timer partname report_apart turn_gc_off w = (Return sc, w1) ->
  Forall (fun o => starts_run o = false) os ->
  exists (bi : dict string (option Z)) (t : Z),
    dict_get (current_iteration (self w))
      (benches_own report_apart
         (self (part_exit_ok timer sc (run_ops timer os w1)))) = Some bi /\
    dict_get (resolve_partname partname report_apart) bi = Some (Some t).
Proof.
  intros Henter Hos.
  destruct (decide (resolve_partname partname report_apart
                    ∈ names_anti report_apart (self w))) as [Hc|Hc].
  { rewrite (part_enter_conflict timer _ _ _ _ Hc) in Henter. discriminate. }
  destruct (part_enter_registers timer partname report_apart turn_gc_off w Hc)
    as (sc' & w1' & Heq & Hname & Hra & _ & Hi & _ & Hep & _ & _ & _ & _ & _
        & Hep1 & _).
  rewrite Heq in Henter. injection Henter as <- <-.
  assert (He : sc_epoch sc' = epoch (run_ops timer os w1'))
    by (rewrite (run_ops_keep_epoch os w1' Hos); congruence).
  pose proof (part_exit_ok_commits timer sc' (run_ops timer os w1') He) as H.
  cbv zeta in H. destruct H as (Hown & _).
  rewrite Hra in Hown. rewrite Hown, Hname, Hi, record_delta_sample.
  destruct (dict_get (resolve_partname partname report_apart)
              (default [] (dict_get (current_iteration (self w))
                             (benches_own report_apart
                                (self (run_ops timer os w1'))))))
    as [[t|]|]; eexists; eexists; (split; [reflexivity|]);
    apply dict_get_set_eq.
Qed.

(** X20. A report in which nothing has been recorded, as [reset] and
    [__call__] leave it: every part lookup raises [KeyError], and [get_stats]
    without pandas returns the two subtotals, the total of both and the total
    of the run, each with total 0.0, count 0 and neither average nor
    minimum. *)
Theorem new_run_reports_nothing (n : option Z) (w : World) :
  get_stats (reset w) = Return empty_report /\
  get_stats (__call__ timer n w) = Return empty_report /\
  forall nm : string,
    exists msg, iter_measures_part nm (__call__ timer n w)
                = Raise (KeyError msg).
Proof.
  assert (Hempty : forall w0 : World,
            parts_names (self w0) = [] -> apart_names (self w0) = [] ->
            parts_benches (self w0) = [] -> apart_benches (self w0) = [] ->
            loop_benches (self w0) = [] ->
            get_stats w0 = Return empty_report).
  { intros w0 Hpn Han Hpb Hab Hlb.
    unfold get_stats, get_stats_parts, get_stats_total, stat_of_section,
      iter_measures_parts_globalized.
    rewrite Hpn, Han, Hpb, Hab, Hlb.
    destruct (decide ("parts" = "parts")) as [_|Hne]; [|congruence].
    destruct (decide ("aparts" = "parts")) as [Heq|_]; [discriminate|].
    destruct (decide ("aparts" = "aparts")) as [_|Hne]; [|congruence].
    destruct (decide ("all" = "parts")) as [Heq|_]; [discriminate|].
    destruct (decide ("all" = "aparts")) as [Heq|_]; [discriminate|].
    destruct (decide ("all" = "all")) as [_|Hne]; [|congruence].
    cbn [stats_by_part dict_keys map flat_map app].
    cbv beta iota delta [rbind]. rewrite get_stats_nil. reflexivity. }
  split; [apply Hempty; reflexivity|].
  split; [apply Hempty; destruct n; reflexivity|].
  intros nm. unfold iter_measures_part.
  assert (Hpn : parts_names (self (__call__ timer n w)) = [])
    by (destruct n; reflexivity).
  assert (Han : apart_names (self (__call__ timer n w)) = [])
    by (destruct n; reflexivity).
  rewrite Hpn, Han.
  destruct (decide (nm ∈ [])) as [Hin|_];
    [exfalso; exact (not_elem_of_nil nm Hin)|].
  eexists. reflexivity.
Qed.

End RunFacts.

(** ** The further facts on concrete runs *)

Lemma one_scope_closed_reachable : reachable tick_timer one_scope_closed.
Proof.
  exists "Medicion 3", 1, true, true.
  exists [OpCall (Some 2); OpIter; OpNext;
          OpPartEnter (Some "setup") false None;
          OpPartExitOk (mkScope "setup" false true 1 30 2)].
  reflexivity.
Defined.

Lemma first_a_open_entered :
  part_enter tick_timer (Some "a") false None in_first_iteration
    = (Return (mkScope "a" false true 1 30 2), first_a_open).
Proof. lazy. reflexivity. Defined.

Lemma section_totals_are_sums_witness :
  iter_measures_parts_globalized "parts" one_scope_closed = Return [10] /\
  iter_measures_parts_globalized "aparts" one_scope_closed = Return [].
Proof.
  destruct (section_totals_are_sums tick_timer one_scope_closed
              one_scope_closed_reachable) as (Hp & Ha & _).
  assert (Ep : totals_of (parts_benches (self one_scope_closed)) = [10])
    by (lazy; reflexivity).
  assert (Ea : totals_of (apart_benches (self one_scope_closed)) = [])
    by (lazy; reflexivity).
  rewrite Ep in Hp. rewrite Ea in Ha. split; [exact Hp | exact Ha].
Defined.

Lemma all_is_parts_plus_aparts_witness :
  exists lp la lall : list Z,
    iter_measures_parts_globalized "parts" one_scope_closed = Return lp /\
    iter_measures_parts_globalized "aparts" one_scope_closed = Return la /\
    iter_measures_parts_globalized "all" one_scope_closed = Return lall /\
    py_sum lall = py_sum lp + py_sum la.
Proof.
  apply (all_is_parts_plus_aparts tick_timer one_scope_closed).
  exact one_scope_closed_reachable.
Defined.

Lemma scope_exit_adds_duration_witness :
  exists sc : Scope,
    sc = mkScope "a" false true 1 30 2 /\
    sc_epoch sc = epoch first_a_open /\
    py_sum (recorded_durations (sc_partname sc)
              (benches_own (sc_report_apart sc)
                 (self (part_exit_ok tick_timer sc first_a_open))))
      = py_sum (recorded_durations (sc_partname sc)
                  (benches_own (sc_report_apart sc) (self first_a_open)))
        + (tick_timer (ticks first_a_open) - sc_start_time sc).
Proof.
  exists (mkScope "a" false true 1 30 2).
  assert (He : sc_epoch (mkScope "a" false true 1 30 2) = epoch first_a_open)
    by (lazy; reflexivity).
  split; [reflexivity|]. split; [exact He|].
  apply (scope_exit_adds_duration tick_timer (mkScope "a" false true 1 30 2)
           first_a_open He).
Defined.

Lemma failed_scope_stays_registered_witness :
  exists (w' : World) (durations : list Z),
    with_part tick_timer (Some "a") false None
      (failing_body tick_timer [OpNext] TypeError) in_first_iteration
      = (Raise TypeError, w') /\
    resolve_partname (Some "a") false ∈ names_own false (self w') /\
    iter_measures_part (resolve_partname (Some "a") false) w'
      = Return durations.
Proof.
  apply (failed_scope_stays_registered tick_timer (Some "a") false None
           [OpNext] TypeError in_first_iteration).
  - assert (E : names_anti false (self in_first_iteration) = [])
      by (lazy; reflexivity).
    rewrite E. apply not_elem_of_nil.
  - repeat constructor.
Defined.

Lemma closed_scope_restores_gc_witness :
  exists w' : World,
    with_part tick_timer (Some "a") false None idle_body_unit
      in_first_iteration = (Return tt, w') /\
    gc_isenabled w' = true.
Proof.
  assert (E : gc_isenabled in_first_iteration = true) by (lazy; reflexivity).
  destruct (closed_scope_restores_gc tick_timer (Some "a") false None
              idle_body_unit in_first_iteration first_a_open first_a_open
              (mkScope "a" false true 1 30 2))
    as (_ & _ & w' & Hwith & _ & Hgc).
  - exact first_a_open_entered.
  - reflexivity.
  - intros H. rewrite E in H. discriminate H.
  - exists w'. split; [exact Hwith|]. rewrite Hgc. exact E.
Defined.

Lemma exhausted_keeps_stopping_witness :
  exists (w' : World) (total iters : Z),
    __next__ tick_timer run_finished = (Raise StopIteration, w') /\
    overhead (self w') = Some (total - iters) /\
    length (loop_benches (self w')) = 2%nat.
Proof.
  assert (E1 : default_repeat (self run_finished) = 1) by (lazy; reflexivity).
  assert (E2 : current_iteration (self run_finished) = 1)
    by (lazy; reflexivity).
  assert (E3 : length (loop_benches (self run_finished)) = 1%nat)
    by (lazy; reflexivity).
  destruct (exhausted_keeps_stopping tick_timer run_finished 30 0)
    as (w' & total & iters & Hn & _ & _ & Hov & Hlen & _).
  - lazy. reflexivity.
  - lazy. reflexivity.
  - rewrite E1, E2. lia.
  - exists w', total, iters. split; [exact Hn|]. split; [exact Hov|].
    rewrite Hlen, E2, E3. reflexivity.
Defined.

Lemma next_before_iter_raises_witness :
  fst (__next__ tick_timer fresh) = Raise TypeError /\
  self (snd (__next__ tick_timer fresh)) = self fresh.
Proof.
  destruct (next_before_iter_raises tick_timer fresh) as (H & _).
  - reflexivity.
  - rewrite H. split; reflexivity.
Defined.

Lemma scope_across_call_records_nothing_witness :
  self (part_exit_ok tick_timer (mkScope "a" false true 1 30 2)
          (run_ops tick_timer [OpIter; OpNext]
             (__call__ tick_timer None (run_ops tick_timer [] first_a_open))))
    = self (run_ops tick_timer [OpIter; OpNext]
              (__call__ tick_timer None (run_ops tick_timer [] first_a_open))).
Proof.
  apply (scope_across_call_records_nothing tick_timer (Some "a") false None
           in_first_iteration first_a_open (mkScope "a" false true 1 30 2)
           [] [OpIter; OpNext] None).
  exact first_a_open_entered.
Defined.

Lemma classes_stay_disjoint_witness :
  (forall nm : string,
     nm ∈ parts_names (self one_scope_closed) ->
     nm ∈ apart_names (self one_scope_closed) -> False) /\
  NoDup (dict_keys (parts_benches (self one_scope_closed))) /\
  NoDup (dict_keys (apart_benches (self one_scope_closed))).
Proof.
  apply (classes_stay_disjoint tick_timer one_scope_closed).
  exact one_scope_closed_reachable.
Defined.

Lemma overhead_is_call_to_first_next_witness :
  exists (items : list Z) (w' : World),
    drive tick_timer 4 (Some 3) (timed_body tick_timer "a")
      (__init__ "Medicion 3" 1 true true) = Some (items, Return tt, w') /\
    overhead (self w') = Some 20.
Proof.
  destruct (overhead_is_call_to_first_next tick_timer (Some 3)
              (fun w => "a" ∉ apart_names (self w))
              (timed_body tick_timer "a")
              (__init__ "Medicion 3" 1 true true) 4)
    as (items & w' & Hrun & Hov & _).
  - apply timed_body_completes.
  - simpl. apply not_elem_of_nil.
  - simpl. lia.
  - exists items, w'. split; [exact Hrun|]. rewrite Hov. reflexivity.
Defined.

Lemma iterating_without_call_raises_witness :
  exists (w' : World) (tail : list Z),
    for_loop tick_timer 2 idle_body (__iter__ tick_timer fresh)
      = Some ([1], Raise TypeError, w') /\
    length tail = 1%nat.
Proof.
  assert (E : default_repeat (self fresh) = 1) by reflexivity.
  destruct (iterating_without_call_raises tick_timer
              (fun _ : World => True) idle_body fresh 2)
    as (w' & tail & Hrun & _ & Hlen).
  - apply idle_body_completes.
  - reflexivity.
  - exact I.
  - rewrite E. simpl. lia.
  - rewrite E in Hrun, Hlen. exists w', tail.
    split; [exact Hrun | exact Hlen].
Defined.

Lemma reiterating_accumulates_witness :
  exists (w' : World) (tail : list Z),
    for_loop tick_timer 2 idle_body (__iter__ tick_timer run_finished)
      = Some ([1], Return tt, w') /\
    loop_benches (self w') = [10] ++ tail /\
    length tail = 1%nat.
Proof.
  assert (E : default_repeat (self run_finished) = 1) by (lazy; reflexivity).
  assert (Elb : loop_benches (self run_finished) = [10])
    by (lazy; reflexivity).
  destruct (reiterating_accumulates tick_timer
              (fun _ : World => True) idle_body run_finished 2 0)
    as (w' & tail & Hrun & Hlb & Hlen & _).
  - apply idle_body_completes.
  - lazy. reflexivity.
  - exact I.
  - rewrite E. simpl. lia.
  - rewrite E in Hrun, Hlen. rewrite Elb in Hlb. exists w', tail.
    split; [exact Hrun|]. split; [exact Hlb | exact Hlen].
Defined.

Lemma settings_persist_witness :
  default_repeat
    (self (run_ops tick_timer [OpCall None; OpIter; OpNext] fresh))
    = default_repeat (self fresh) /\
  default_repeat
    (self (__call__ tick_timer None
             (run_ops tick_timer [OpCall None; OpIter; OpNext]
                (__call__ tick_timer (Some 7) fresh)))) = 7.
Proof.
  destruct (settings_persist tick_timer [OpCall None; OpIter; OpNext] fresh)
    as (Hr & _ & _ & Hn).
  - repeat constructor.
  - split; [exact Hr | exact (Hn 7)].
Defined.

Lemma get_stats_lists_every_part_witness :
  value_or_arithmetic
    (fun rows =>
       map row_label rows
         = report_labels (parts_names (self one_scope_closed))
             (apart_names (self one_scope_closed)) /\
       length rows
         = (length (parts_names (self one_scope_closed))
            + length (apart_names (self one_scope_closed)) + 4)%nat)
    (get_stats one_scope_closed).
Proof.
  apply (get_stats_lists_every_part tick_timer one_scope_closed).
  exact one_scope_closed_reachable.
Defined.

Lemma total_stats_count_the_items_witness :
  exists (items : list Z) (w' : World),
    drive tick_timer 4 (Some 3) (timed_body tick_timer "a")
      (__init__ "Medicion 3" 1 true true) = Some (items, Return tt, w') /\
    value_or_arithmetic
      (fun st => stat_n st = Z.of_nat (length items) /\
                 stat_n st = Z.max 3 0)
      (get_stats_total w').
Proof.
  apply (total_stats_count_the_items tick_timer 3
           (fun w => "a" ∉ apart_names (self w))
           (timed_body tick_timer "a")
           (__init__ "Medicion 3" 1 true true) 4).
  - apply timed_body_completes.
  - simpl. apply not_elem_of_nil.
  - simpl. lia.
Defined.

Lemma failing_scope_restores_gc_witness :
  exists w' : World,
    with_part tick_timer (Some "a") false None
      (failing_body tick_timer [] TypeError) in_first_iteration
      = (Raise TypeError, w') /\
    self w' = self first_a_open /\ ticks w' = ticks first_a_open /\
    gc_isenabled w' = gc_isenabled in_first_iteration.
Proof.
  apply (failing_scope_restores_gc tick_timer (Some "a") false None
           (failing_body tick_timer [] TypeError)
           in_first_iteration first_a_open first_a_open
           (mkScope "a" false true 1 30 2) TypeError).
  - exact first_a_open_entered.
  - reflexivity.
  - reflexivity.
  - assert (E : gc_isenabled in_first_iteration = true)
      by (lazy; reflexivity).
    intros H. rewrite E in H. discriminate H.
Defined.

Lemma samples_are_not_negative_witness :
  exists (items : list Z) (w' : World),
    drive tick_timer 4 (Some 3) (timed_body tick_timer "a")
      (__init__ "Medicion 3" 1 true true) = Some (items, Return tt, w') /\
    Forall (fun d => 0 <= d) (loop_benches (self w')).
Proof.
  apply (samples_are_not_negative tick_timer (Some 3)
           (fun w => "a" ∉ apart_names (self w))
           (timed_body tick_timer "a")
           (__init__ "Medicion 3" 1 true true) 4).
  - apply timed_body_completes.
  - apply tick_timer_monotonic.
  - simpl. apply not_elem_of_nil.
  - simpl. lia.
Defined.

Lemma sample_filed_under_opening_iteration_witness :
  exists (bi : dict string (option Z)) (t : Z),
    dict_get (current_iteration (self in_first_iteration))
      (benches_own false
         (self (part_exit_ok tick_timer (mkScope "a" false true 1 30 2)
                  (run_ops tick_timer [OpNext] first_a_open)))) = Some bi /\
    dict_get (resolve_partname (Some "a") false) bi = Some (Some t).
Proof.
  apply (sample_filed_under_opening_iteration tick_timer (Some "a") false
           None [OpNext] in_first_iteration first_a_open
           (mkScope "a" false true 1 30 2)).
  - exact first_a_open_entered.
  - repeat constructor.
Defined.

(** * Accumulation within one iteration *)

Lemma dict_entries_unique {K V : Type} `{EqDecision K} (k : K)
    (d : dict K V) :
  NoDup (dict_keys d) ->
  dict_entries k d = match dict_get k d with Some v => [v] | None => [] end.
Proof.
  induction d as [|[k' v'] d IH]; simpl; [reflexivity|].
  intros Hnd. apply NoDup_cons in Hnd. destruct Hnd as [Hk' Hnd].
  destruct (decide (k = k')) as [->|Hne]; [|exact (IH Hnd)].
  rewrite (dict_entries_absent k' d); [reflexivity|].
  destruct (dict_get k' d) as [v|] eqn:Hget; [|reflexivity].
  exfalso. apply Hk', list_elem_of_In, dict_mem_keys.
  unfold dict_mem. rewrite Hget. reflexivity.
Qed.

(** Creating the entry of iteration [i] changes what no iteration holds. *)
Lemma ensure_iteration_any (i j : Z) (b : store) :
  default [] (dict_get j (if dict_mem i b then b else dict_set i [] b))
    = default [] (dict_get j b).
Proof.
  unfold dict_mem. destruct (dict_get i b) as [bi|] eqn:Hget; [reflexivity|].
  destruct (decide (j = i)) as [->|Hne].
  - rewrite dict_get_set_eq, Hget. reflexivity.
  - rewrite dict_get_set_ne by exact Hne. reflexivity.
Qed.

(** A commit of [delta] for [partname] under [i] raises what is on record
    for that part under that iteration by [delta], and changes what is on
    record for no other part and under no other iteration. *)
Lemma on_record_record_delta (partname : string) (i delta : Z)
    (b b_anti : store) (partname0 : string) (i0 : Z) :
  on_record partname0 i0 (fst (record_delta partname i delta b b_anti))
    = on_record partname0 i0 b
      + (if decide (partname0 = partname /\ i0 = i) then delta else 0) /\
  on_record partname0 i0 (snd (record_delta partname i delta b b_anti))
    = on_record partname0 i0 b_anti.
Proof.
  unfold record_delta, on_record. simpl. split;
    [|rewrite ensure_iteration_any; reflexivity].
  pose proof (ensure_iteration_any i i b) as Hbi.
  pose proof (ensure_iteration_any i i0 b) as Hbi0.
  set (b1 := if dict_mem i b then b else dict_set i [] b) in *.
  rewrite Hbi. set (bi := default [] (dict_get i b)) in *.
  destruct (decide (i0 = i)) as [->|Hi].
  - rewrite dict_get_set_eq. simpl default. fold bi.
    destruct (decide (partname0 = partname)) as [->|Hp].
    + destruct (decide (partname = partname /\ i = i)) as [_|Hn];
        [|exfalso; apply Hn; split; reflexivity].
      unfold sample_of at 2.
      destruct (dict_get partname bi) as [[t|]|];
        rewrite sample_of_set_eq, ?py_sum_one, ?py_sum_nil; lia.
    + destruct (decide (partname0 = partname /\ i = i)) as [[Hn _]|_];
        [contradiction|].
      rewrite Z.add_0_r. f_equal.
      destruct (dict_get partname bi) as [[t|]|];
        apply sample_of_set_ne, Hp.
  - rewrite dict_get_set_ne by exact Hi. rewrite Hbi0.
    destruct (decide (partname0 = partname /\ i0 = i)) as [[_ Hn]|_];
      [contradiction|].
    rewrite Z.add_0_r. reflexivity.
Qed.

Section Accumulation.
Variable timer : nat -> Z.

Lemma reachable_run_ops (os : list op) (w : World) :
  reachable timer w -> reachable timer (run_ops timer os w).
Proof.
  intros (nm & repeat & tgo & gc & os0 & ->).
  exists nm, repeat, tgo, gc, (os0 ++ os). unfold run_ops.
  rewrite fold_left_app. reflexivity.
Qed.

(** What one operation does to what is on record for a part under an
    iteration: it adds what the operation commits for it. *)
Lemma run_op_on_record (partname : string) (report_apart : bool) (i : Z)
    (o : op) (w : World) :
  starts_run o = false ->
  on_record partname i (benches_own report_apart (self (run_op timer o w)))
    = on_record partname i (benches_own report_apart (self w))
      + commits timer partname report_apart i o w.
Proof.
  intros Hrun.
  assert (Hsame : forall w',
             registry_view w' = registry_view w ->
             on_record partname i (benches_own report_apart (self w'))
               = on_record partname i (benches_own report_apart (self w)) + 0).
  { intros w' H. unfold registry_view in H. injection H as Hp Ha _ _.
    rewrite Z.add_0_r. destruct report_apart; simpl; congruence. }
  destruct o as [|n| | |pn ra tg|sc|sc e|b|]; simpl in Hrun;
    try discriminate; cbn [run_op commits].
  - apply Hsame. reflexivity.
  - apply Hsame, next_keeps_registry.
  - destruct (decide (resolve_partname pn ra ∈ names_anti ra (self w)))
      as [Hc|Hc].
    + rewrite (part_enter_conflict timer _ _ _ _ Hc). simpl.
      rewrite Z.add_0_r.
      destruct (resolve_turn_gc_off tg (self w)); reflexivity.
    + destruct (part_enter_registers timer pn ra tg w Hc)
        as (sc & w' & -> & _ & _ & _ & _ & _ & _ & _ & _ & Hpb & Hab & _).
      simpl. rewrite Z.add_0_r.
      destruct report_apart; simpl; congruence.
  - destruct (decide (sc_epoch sc = epoch w)) as [He|He].
    + pose proof (part_exit_ok_commits timer sc w He) as H. cbv zeta in H.
      destruct H as (Hown & Hanti & _).
      destruct (on_record_record_delta (sc_partname sc) (sc_i sc)
                  (timer (ticks w) - sc_start_time sc)
                  (benches_own (sc_report_apart sc) (self w))
                  (benches_own (negb (sc_report_apart sc)) (self w))
                  partname i) as [Hfst Hsnd].
      rewrite <- Hown in Hfst. rewrite <- Hanti in Hsnd.
      destruct (decide (sc_report_apart sc = report_apart)) as [Hra|Hra].
      * rewrite <- Hra, Hfst. f_equal.
        destruct (decide (partname = sc_partname sc /\ i = sc_i sc))
          as [[Hp Hi]|Hn];
          destruct (decide (sc_partname sc = partname /\
                            sc_report_apart sc = sc_report_apart sc /\
                            sc_i sc = i /\ sc_epoch sc = epoch w))
            as [(Hp' & _ & Hi' & _)|Hn'];
          try reflexivity.
        -- exfalso. apply Hn'. split; [symmetry; exact Hp|].
           split; [reflexivity|]. split; [symmetry; exact Hi | exact He].
        -- exfalso. apply Hn. split; symmetry; assumption.
      * assert (Hneg : negb (sc_report_apart sc) = report_apart)
          by (destruct (sc_report_apart sc), report_apart;
              simpl; congruence).
        rewrite <- Hneg, Hsnd.
        destruct (decide (sc_partname sc = partname /\
                          sc_report_apart sc = negb (sc_report_apart sc) /\
                          sc_i sc = i /\ sc_epoch sc = epoch w))
          as [(_ & Hr & _)|_]; [|lia].
        exfalso. destruct (sc_report_apart sc); discriminate.
    + rewrite (part_exit_ok_stale timer sc w He).
      destruct (decide (sc_partname sc = partname /\
                        sc_report_apart sc = report_apart /\
                        sc_i sc = i /\ sc_epoch sc = epoch w))
        as [(_ & _ & _ & He')|_]; [contradiction | lia].
  - apply Hsame. unfold part_exit_exc.
    destruct (isinstance_Exception e); simpl;
      [destruct (sc_gcold sc)|]; reflexivity.
  - apply Hsame. reflexivity.
  - apply Hsame. reflexivity.
Qed.

Lemma run_ops_on_record (partname : string) (report_apart : bool) (i : Z)
    (os : list op) (w : World) :
  Forall (fun o => starts_run o = false) os ->
  on_record partname i (benches_own report_apart (self (run_ops timer os w)))
    = on_record partname i (benches_own report_apart (self w))
      + committed timer partname report_apart i os w.
Proof.
  unfold run_ops. intros Hos. revert w.
  induction Hos as [|o os Ho _ IH]; intros w; simpl; [lia|].
  rewrite IH, (run_op_on_record _ _ _ o w Ho). lia.
Qed.

Lemma committed_elsewhere (partname : string) (report_apart : bool) (i : Z)
    (os : list op) (w : World) :
  Forall (fun o => closes_scope_of partname report_apart i o = false) os ->
  committed timer partname report_apart i os w = 0.
Proof.
  intros Hos. revert w.
  induction Hos as [|o os Ho _ IH]; intros w; simpl; [reflexivity|].
  rewrite IH, Z.add_0_r. destruct o; try reflexivity. simpl in *.
  apply bool_decide_eq_false in Ho.
  destruct (decide (sc_partname sc = partname /\
                    sc_report_apart sc = report_apart /\ sc_i sc = i /\
                    sc_epoch sc = epoch w)) as [(H1 & H2 & H3 & _)|_];
    [|reflexivity].
  exfalso. apply Ho. auto.
Qed.

(** The entry a normal exit of a scope of the current run leaves for its
    part under its iteration: the only one, holding what was on record plus
    the scope's duration. *)
Lemma part_exit_ok_entry (sc : Scope) (w : World) :
  reachable timer w ->
  sc_epoch sc = epoch w ->
  exists bi,
    dict_get (sc_i sc)
      (benches_own (sc_report_apart sc) (self (part_exit_ok timer sc w)))
      = Some bi /\
    dict_entries (sc_partname sc) bi
      = [Some (on_record (sc_partname sc) (sc_i sc)
                 (benches_own (sc_report_apart sc) (self w))
               + (timer (ticks w) - sc_start_time sc))].
Proof.
  intros Hr He.
  pose proof (part_exit_ok_commits timer sc w He) as H. cbv zeta in H.
  destruct H as (Hown & _). rewrite Hown, record_delta_sample.
  assert (Hnd : NoDup (dict_keys
                         (default [] (dict_get (sc_i sc)
                            (benches_own (sc_report_apart sc) (self w)))))).
  { destruct (reachable_well_keyed timer w Hr) as [Hp Ha].
    apply well_keyed_get. destruct (sc_report_apart sc); assumption. }
  unfold on_record, sample_of.
  set (bi := default [] (dict_get (sc_i sc)
                (benches_own (sc_report_apart sc) (self w)))) in *.
  eexists. split; [reflexivity|].
  pose proof (dict_entries_unique (sc_partname sc) bi Hnd) as Hent.
  destruct (dict_get (sc_partname sc) bi) as [[t|]|];
    rewrite dict_entries_set, Hent, ?py_sum_one, ?py_sum_nil;
    reflexivity.
Qed.

(** C7. Two scopes of the same name, class and iteration that close
    normally in the same run, whatever is done between the two exits short
    of starting a new run (other parts committing under the same iteration
    included): after the first exit the iteration holds one entry for the
    part, what was on record before plus the first duration; after the
    second it still holds one entry, what was on record before plus the two
    durations plus whatever scopes of the same name, class and iteration
    closing in between have added. Nothing was on record when the part had
    no entry under the iteration, and nothing is added in between when no
    such scope closes there: the entry is then exactly [d1 + d2]. *)
Theorem same_part_twice_accumulates (sc1 sc2 : Scope) (os : list op)
    (w : World) :
  reachable timer w ->
  sc_epoch sc1 = epoch w -> sc_epoch sc2 = epoch w ->
  sc_partname sc2 = sc_partname sc1 ->
  sc_report_apart sc2 = sc_report_apart sc1 ->
  sc_i sc2 = sc_i sc1 ->
  Forall (fun o => starts_run o = false) os ->
  let w1 := part_exit_ok timer sc1 w in
  let w1' := run_ops timer os w1 in
  let w2 := part_exit_ok timer sc2 w1' in
  let d1 := timer (ticks w) - sc_start_time sc1 in
  let d2 := timer (ticks w1') - sc_start_time sc2 in
  let prior := on_record (sc_partname sc1) (sc_i sc1)
                 (benches_own (sc_report_apart sc1) (self w)) in
  let between := committed timer (sc_partname sc1) (sc_report_apart sc1)
                   (sc_i sc1) os w1 in
  (exists bi1,
     dict_get (sc_i sc1) (benches_own (sc_report_apart sc1) (self w1))
       = Some bi1 /\
     dict_entries (sc_partname sc1) bi1 = [Some (prior + d1)]) /\
  (exists bi2,
     dict_get (sc_i sc1) (benches_own (sc_report_apart sc1) (self w2))
       = Some bi2 /\
     dict_entries (sc_partname sc1) bi2
       = [Some (prior + d1 + between + d2)]) /\
  (dict_get (sc_partname sc1)
     (default [] (dict_get (sc_i sc1)
                    (benches_own (sc_report_apart sc1) (self w)))) = None ->
   prior = 0) /\
  (Forall (fun o => closes_scope_of (sc_partname sc1) (sc_report_apart sc1)
                      (sc_i sc1) o = false) os ->
   between = 0).
Proof.
  intros Hr He1 He2 Hp Hra Hi Hos w1 w1' w2 d1 d2 prior between.
  assert (Hr1 : reachable timer w1)
    by (apply (reachable_run_ops [OpPartExitOk sc1] w Hr)).
  assert (Hr1' : reachable timer w1') by (apply reachable_run_ops, Hr1).
  assert (Hep1 : epoch w1 = epoch w).
  { pose proof (part_exit_ok_commits timer sc1 w He1) as H. cbv zeta in H.
    destruct H as (_ & _ & _ & _ & _ & Hep & _). exact Hep. }
  assert (He2' : sc_epoch sc2 = epoch w1').
  { unfold w1'. rewrite (run_ops_keep_epoch timer os w1 Hos). congruence. }
  assert (Hrec1 : on_record (sc_partname sc1) (sc_i sc1)
                    (benches_own (sc_report_apart sc1) (self w1))
                  = prior + d1).
  { pose proof (run_op_on_record (sc_partname sc1) (sc_report_apart sc1)
                  (sc_i sc1) (OpPartExitOk sc1) w eq_refl) as H.
    cbn [run_op commits] in H.
    destruct (decide (sc_partname sc1 = sc_partname sc1 /\
                      sc_report_apart sc1 = sc_report_apart sc1 /\
                      sc_i sc1 = sc_i sc1 /\ sc_epoch sc1 = epoch w))
      as [_|Hn]; [exact H|].
    exfalso. apply Hn. repeat split. exact He1. }
  assert (Hrec1' : on_record (sc_partname sc1) (sc_i sc1)
                     (benches_own (sc_report_apart sc1) (self w1'))
                   = prior + d1 + between).
  { unfold w1'. rewrite (run_ops_on_record _ _ _ os w1 Hos), Hrec1.
    reflexivity. }
  split; [|split; [|split]].
  - destruct (part_exit_ok_entry sc1 w Hr He1) as (bi1 & Hget & Hent).
    exists bi1. split; [exact Hget | exact Hent].
  - destruct (part_exit_ok_entry sc2 w1' Hr1' He2') as (bi2 & Hget & Hent).
    rewrite ?Hp, ?Hra, ?Hi in Hget. rewrite ?Hp, ?Hra, ?Hi in Hent.
    rewrite Hrec1' in Hent.
    exists bi2. split; [exact Hget | exact Hent].
  - intros Hnone. unfold prior, on_record, sample_of. rewrite Hnone.
    reflexivity.
  - intros Hbetween. apply committed_elsewhere, Hbetween.
Qed.

End Accumulation.

Lemma same_part_twice_accumulates_witness :
  fst (part_enter tick_timer (Some "a") false None in_first_iteration)
    = Return (mkScope "a" false true 1 30 2) /\
  fst (part_enter tick_timer (Some "a") false None
         (run_ops tick_timer
            [OpPartEnter (Some "b") false None;
             OpPartExitOk (mkScope "b" false true 1 50 2)]
            (part_exit_ok tick_timer (mkScope "a" false true 1 30 2)
               first_a_open)))
    = Return (mkScope "a" false true 1 70 2) /\
  exists bi,
    dict_get 1 (parts_benches (self a_b_a_closed)) = Some bi /\
    dict_entries "a" bi = [Some 20].
Proof.
  split; [lazy; reflexivity|]. split; [lazy; reflexivity|].
  assert (Hr : reachable tick_timer first_a_open).
  { exists "Medicion 3", 1, true, true.
    exists [OpCall (Some 2); OpIter; OpNext;
            OpPartEnter (Some "a") false None].
    lazy. reflexivity. }
  assert (He1 : sc_epoch (mkScope "a" false true 1 30 2) = epoch first_a_open)
    by (lazy; reflexivity).
  assert (He2 : sc_epoch (mkScope "a" false true 1 70 2) = epoch first_a_open)
    by (lazy; reflexivity).
  assert (Hos : Forall (fun o => starts_run o = false)
                  [OpPartEnter (Some "b") false None;
                   OpPartExitOk (mkScope "b" false true 1 50 2);
                   OpPartEnter (Some "a") false None])
    by (repeat constructor).
  pose proof (same_part_twice_accumulates tick_timer
                (mkScope "a" false true 1 30 2)
                (mkScope "a" false true 1 70 2)
                [OpPartEnter (Some "b") false None;
                 OpPartExitOk (mkScope "b" false true 1 50 2);
                 OpPartEnter (Some "a") false None]
                first_a_open Hr He1 He2 eq_refl eq_refl eq_refl Hos) as H.
  cbv zeta in H. destruct H as (_ & (bi2 & Hget & Hent) & _).
  match type of Hget with
  | dict_get _ ?b = _ =>
      assert (Hb : b = [(1, [("a", Some 20); ("b", Some 10)])])
        by (lazy; reflexivity);
      rewrite Hb in Hget
  end.
  match type of Hent with
  | _ = [Some ?d] =>
      assert (Hd : d = 20) by (lazy; reflexivity); rewrite Hd in Hent
  end.
  assert (Hc : parts_benches (self a_b_a_closed)
               = [(1, [("a", Some 20); ("b", Some 10)])])
    by (lazy; reflexivity).
  rewrite Hc. exists bi2. split; [exact Hget | exact Hent].
Defined.
